(** * jupyterlab-claude-code: the notebook bridge and the request dispatcher

    A shallow embedding of
    - [jupyterlab_claude_code/yjs_bridge.py] (class [YjsBridge]): the cell
      operations on a notebook held by the contents manager and the
      collection of a kernel's output events, and
    - [jupyterlab_claude_code/handlers.py] (class
      [ClaudeCodeWebSocketHandler]): the routing of a request envelope to a
      bridge method and the envelope of the answer,
    followed by the properties of the specification that concern them.

    Python values are JSON values, dictionaries are finite maps, a raised
    exception is the [Raise] outcome of a computation, and the services the
    bridge reads from the application settings (contents manager, session
    manager, kernel manager) are components of an explicit state. Every
    method of the bridge that uses a service goes through
    [loop.run_until_complete] on an event loop of its own, which asyncio
    refuses in a thread where a loop is running already: whether one is
    running is an argument of each such method, and the dispatcher, a
    coroutine, calls them with a loop running. *)

From stdpp Require Import gmap strings list pretty.
From Stdlib Require Import ZArith Lia.

#[local] Set Warnings "-register-all".
#[local] Open Scope Z_scope.

(** ** Python values *)

(** What [json.loads] produces and [json.dumps] accepts. [JNull] is Python's
    [None]. A JSON number is an integer here: one written with a fraction or
    an exponent (a Python [float]) has no constructor, so the statements of
    this file are about requests whose numbers are integers, and a statement
    about an index says that the index is an integer. *)
Inductive json : Type :=
| JNull
| JBool (b : bool)
| JInt (z : Z)
| JStr (s : string)
| JList (l : list json)
| JDict (d : gmap string json).

Abbreviation dict := (gmap string json).

(** [d.get(k)] and [d.get(k, dflt)] *)
Definition py_get (d : dict) (k : string) : json := default JNull (d !! k).
Definition py_get_default (d : dict) (k : string) (dflt : json) : json :=
  default dflt (d !! k).

(** Truth value of an object, as tested by [if], [not] and [or]. *)
Definition py_truthy (v : json) : bool :=
  match v with
  | JNull => false
  | JBool b => b
  | JInt z => negb (z =? 0)
  | JStr s => negb (String.eqb s "")
  | JList l => negb (bool_decide (length l = 0%nat))
  | JDict d => negb (bool_decide (size d = 0%nat))
  end.

(** [a or b] *)
Definition py_or (a b : json) : json := if py_truthy a then a else b.

(** [v is None] *)
Definition is_None (v : json) : bool :=
  match v with JNull => true | _ => false end.

(** [v == s] for a string literal [s] *)
Definition eq_str (v : json) (s : string) : bool :=
  match v with JStr t => String.eqb t s | _ => false end.

Definition py_type_name (v : json) : string :=
  match v with
  | JNull => "NoneType"
  | JBool _ => "bool"
  | JInt _ => "int"
  | JStr _ => "str"
  | JList _ => "list"
  | JDict _ => "dict"
  end.

(** [str(v)] of a hashable value, as an f-string shows it; lists and
    dictionaries are not hashable. *)
Definition scalar_str (v : json) : option string :=
  match v with
  | JNull => Some "None"
  | JBool true => Some "True"
  | JBool false => Some "False"
  | JInt z => Some (pretty z)
  | JStr s => Some s
  | JList _ | JDict _ => None
  end.

(** ** Exceptions and outcomes *)

Inductive exn : Type :=
| ValueError (msg : string)
| RuntimeError (msg : string)
| IndexError (msg : string)
| TypeError (msg : string)
| AttributeError (msg : string)
| OverflowError (msg : string)
| KeyError (key : string)
| TimeoutError
| Empty                         (* [queue.Empty] *)
| JSONDecodeError (msg : string)
| ServiceError (msg : string).  (* an [Exception] raised by a Jupyter service *)

(** [str(e)]: the message; a [KeyError] shows the [repr] of its key, which
    for the keys used here (plain identifiers) is the key in single quotes. *)
Definition str_exn (e : exn) : string :=
  match e with
  | ValueError m | RuntimeError m | IndexError m | TypeError m
  | AttributeError m | OverflowError m | JSONDecodeError m | ServiceError m => m
  | KeyError k => "'" +:+ k +:+ "'"
  | TimeoutError | Empty => ""
  end.

Inductive result (A : Type) : Type :=
| Ok (a : A)
| Raise (e : exn).
Arguments Ok {A} a.
Arguments Raise {A} e.

#[global] Instance result_ret : MRet result := @Ok.
#[global] Instance result_bind : MBind result := λ A B f r,
  match r with Ok a => f a | Raise e => Raise e end.
#[global] Instance result_fmap : FMap result := λ A B f r,
  match r with Ok a => Ok (f a) | Raise e => Raise e end.

(** [d[k]] *)
Definition py_item (d : dict) (k : string) : result json :=
  match d !! k with Some v => Ok v | None => Raise (KeyError k) end.

(** An integer operand. [bool] is a subclass of [int]; the second component is
    what [str] and an f-string show for it. *)
Definition int_like (v : json) : option (Z * string) :=
  match v with
  | JInt z => Some (z, pretty z)
  | JBool true => Some (1, "True")
  | JBool false => Some (0, "False")
  | _ => None
  end.

(** The operand of an ordering comparison with an [int] ([op] is the operator,
    for the message of the [TypeError]). *)
Definition int_operand (op : string) (v : json) : result (Z * string) :=
  match int_like v with
  | Some zs => Ok zs
  | None => Raise (TypeError ("'" +:+ op +:+ "' not supported between instances of '"
                              +:+ py_type_name v +:+ "' and 'int'"))
  end.

(** An index argument of a [list] method. *)
Definition index_operand (v : json) : result Z :=
  match int_like v with
  | Some (z, _) => Ok z
  | None => Raise (TypeError ("'" +:+ py_type_name v
                              +:+ "' object cannot be interpreted as an integer"))
  end.

(** ** Python lists *)

(** [PY_SSIZE_T_MAX] of a 64-bit build: the largest index, and the largest
    length of a list. *)
Definition ssize_max : Z := 2 ^ 63 - 1.

(** The index argument of [list.insert] and [list.pop], converted to a C
    [Py_ssize_t]. *)
Definition as_ssize_t (i : Z) : result Z :=
  if (i <? - ssize_max - 1) || (ssize_max <? i)
  then Raise (OverflowError "Python int too large to convert to C ssize_t")
  else Ok i.

Section PyList.
Context {A : Type}.
Implicit Types (l : list A) (i : Z) (x : A).

Definition len l : Z := Z.of_nat (length l).

(** Where [l.insert(i, x)] puts [x]: a negative index counts from the end,
    and an index beyond either end is clamped to that end. *)
Definition insert_position l i : nat :=
  let n := len l in
  let i := if i <? 0 then (if i + n <? 0 then 0 else i + n) else i in
  let i := if n <? i then n else i in
  Z.to_nat i.

(** [l.insert(i, x)] *)
Definition list_insert_at l i x : result (list A) :=
  i ← as_ssize_t i;
  Ok (take (insert_position l i) l ++ x :: drop (insert_position l i) l).

(** [l.pop(i)] *)
Definition list_pop l i : result (A * list A) :=
  i ← as_ssize_t i;
  let j := if i <? 0 then i + len l else i in
  if (j <? 0) || (len l <=? j) then
    Raise (IndexError (match l with
                       | [] => "pop from empty list"
                       | _ => "pop index out of range"
                       end))
  else
    match l !! Z.to_nat j with
    | Some x => Ok (x, delete (Z.to_nat j) l)
    | None => Raise (IndexError "pop index out of range")
    end.

(** [l[i]], [del l[i]] and an update of [l[i]], for an index that fits a
    [Py_ssize_t] (below they follow a test of the index against [len(l)]). *)
Definition list_item l i : result A :=
  let j := if i <? 0 then i + len l else i in
  if (j <? 0) || (len l <=? j) then Raise (IndexError "list index out of range")
  else match l !! Z.to_nat j with
       | Some x => Ok x
       | None => Raise (IndexError "list index out of range")
       end.

(** [del l[i]] *)
Definition list_del l i : result (list A) :=
  let j := if i <? 0 then i + len l else i in
  if (j <? 0) || (len l <=? j) then
    Raise (IndexError "list assignment index out of range")
  else Ok (delete (Z.to_nat j) l).

(** [l[i] = f(l[i])]: an update in place of the element at [i] *)
Definition list_update l i (f : A → A) : result (list A) :=
  x ← list_item l i;
  let j := if i <? 0 then i + len l else i in
  Ok (<[Z.to_nat j := f x]> l).
End PyList.

(** ** The Jupyter services *)

(** The [content] of a notebook model: its ["cells"] entry, when it has one,
    and its other entries (["metadata"], ["nbformat"], ...). A cell is a
    dictionary. *)
Record notebook : Type := Notebook {
  nb_cells : option (list dict);
  nb_rest : dict;
}.

(** The contents manager, a store of notebooks by path.
    [contents_get cm path] is the ["content"] entry of the model that
    [cm.get(path, content=True)] returns, and [contents_save cm content path]
    is the manager after [cm.save({"content": content, "type": "notebook"},
    path)]. A path that names no notebook makes [get] raise. *)
Definition contents_get (cm : gmap string notebook) (path : json) : result notebook :=
  match path with
  | JStr p =>
      match cm !! p with
      | Some content => Ok content
      | None => Raise (ServiceError ("No such file or directory: " +:+ p))
      end
  | _ => Raise (ServiceError "Invalid path")
  end.

Definition contents_save (cm : gmap string notebook) (content : notebook) (path : json)
  : result (gmap string notebook) :=
  match path with
  | JStr p => Ok (<[p := content]> cm)
  | _ => Raise (ServiceError "Invalid path")
  end.

(** A message of a kernel's IOPub channel: [msg["header"]["msg_type"]],
    [msg["parent_header"].get("msg_id")] and [msg["content"]]. *)
Record message : Type := Message {
  msg_type : string;
  parent_msg_id : json;
  content : dict;
}.

(** A kernel, as seen through its client: [execute code] is the identifier
    that [client.execute(code)] returns, and [iopub code] the outcomes of
    the successive [client.get_iopub_msg(timeout=30)] calls that follow it,
    each one a message or a raised exception. When no message arrives within
    the timeout, the client of [jupyter_client] raises [queue.Empty]
    ([Empty] here), not the built-in [TimeoutError]. *)
Record kernel : Type := Kernel {
  execute : json → string;
  iopub : json → list (result message);
  execution_state : json;
  is_alive : bool;
}.

(** A session model of the session manager. *)
Record kernel_info : Type := KernelInfo {
  kernel_id : option string;
  kernel_name : option string;
}.

Record session : Type := Session {
  session_type : option string;
  session_path : option string;
  session_name : option string;
  session_kernel : option kernel_info;
}.

(** The services that [YjsBridge.__init__] reads from the application
    settings; each may be missing. [list_sessions] may raise.
    [interrupted] logs the calls of [kernel_manager.interrupt_kernel]. *)
Record settings : Type := Settings {
  contents_manager : option (gmap string notebook);
  kernel_manager : option (gmap string kernel);
  session_manager : option (result (list session));
  interrupted : list string;
}.

Definition set_contents (cm : gmap string notebook) (s : settings) : settings :=
  {| contents_manager := Some cm;
     kernel_manager := kernel_manager s;
     session_manager := session_manager s;
     interrupted := interrupted s |}.

(** ** Methods: computations on the settings that return or raise *)

Definition M (A : Type) : Type := settings → result A * settings.

Definition ret {A} (a : A) : M A := λ s, (Ok a, s).
Definition raise {A} (e : exn) : M A := λ s, (Raise e, s).
Definition lift {A} (r : result A) : M A := λ s, (r, s).
Definition bind {A B} (m : M A) (k : A → M B) : M B := λ s,
  match m s with
  | (Ok a, s') => k a s'
  | (Raise e, s') => (Raise e, s')
  end.

Notation "x <- m ; k" := (bind m (λ x, k))
  (at level 20, m at level 100, k at level 200, only parsing).

(** A method of the bridge, called with [(params, notebook_id)]. *)
Definition method : Type := dict → json → M dict.

(** ** [YjsBridge]: notebook content and cell operations *)

(** One entry of the ["cells"] list built by [get_notebook_content]. *)
Definition cell_view (i : nat) (cell : dict) : dict :=
  {[ "index" := JInt (Z.of_nat i);
     "cell_type" := py_get cell "cell_type";
     "source" := py_get cell "source";
     "outputs" := py_get_default cell "outputs" (JList []);
     "metadata" := py_get_default cell "metadata" (JDict ∅) ]}.

(** The dictionary [get_notebook_content] returns, entry by entry. *)
Record content_view : Type := ContentView {
  view_path : json;
  view_cells : list dict;
  view_metadata : json;
}.

Definition view_dict (v : content_view) : dict :=
  {[ "path" := view_path v;
     "cells" := JList (JDict <$> view_cells v);
     "metadata" := view_metadata v ]}.

(** The operations of [_modify_notebook], each with its keyword arguments. *)
Inductive operation : Type :=
| Insert (cell_index cell_type source : json)
| Update (cell_index source : json)
| Delete (cell_index : json)
| Move (from_index to_index : json).

Definition operation_name (op : operation) : string :=
  match op with
  | Insert _ _ _ => "insert"
  | Update _ _ => "update"
  | Delete _ => "delete"
  | Move _ _ => "move"
  end.

Definition new_cell (cell_type source : json) : dict :=
  let cell : dict :=
    {[ "cell_type" := cell_type; "source" := source; "metadata" := JDict ∅ ]} in
  if eq_str cell_type "code"
  then <["execution_count" := JNull]> (<["outputs" := JList []]> cell)
  else cell.

(** The branch of [_modify_notebook] for [op], on the list [cells]. *)
Definition perform (op : operation) (cells : list dict) : result (list dict) :=
  match op with
  | Insert cell_index cell_type source =>
      let cell := new_cell cell_type source in
      i ← index_operand cell_index;
      list_insert_at cells i cell
  | Update cell_index source =>
      zs ← int_operand "<" cell_index;
      let '(idx, shown) := zs in
      if (idx <? 0) || (len cells <=? idx) then
        Raise (IndexError ("Cell index " +:+ shown +:+ " out of range"))
      else list_update cells idx (λ cell, <["source" := source]> cell)
  | Delete cell_index =>
      zs ← int_operand "<" cell_index;
      let '(idx, shown) := zs in
      if (idx <? 0) || (len cells <=? idx) then
        Raise (IndexError ("Cell index " +:+ shown +:+ " out of range"))
      else list_del cells idx
  | Move from_index to_index =>
      zs ← int_operand "<" from_index;
      let '(from_idx, from_shown) := zs in
      if (from_idx <? 0) || (len cells <=? from_idx) then
        Raise (IndexError ("from_index " +:+ from_shown +:+ " out of range"))
      else
        zs ← int_operand "<" to_index;
        let '(to_idx, to_shown) := zs in
        if (to_idx <? 0) || (len cells <? to_idx) then
          Raise (IndexError ("to_index " +:+ to_shown +:+ " out of range"))
        else
          popped ← list_pop cells from_idx;
          let '(cell, cells) := popped in
          list_insert_at cells to_idx cell
  end.

(** [cm.save({"content": content, "type": "notebook"}, path)] on the contents
    manager [cm] of the settings. *)
Definition save (cm : gmap string notebook) (content : notebook) (path : json) : M unit :=
  λ s, match contents_save cm content path with
       | Ok cm => (Ok (), set_contents cm s)
       | Raise e => (Raise e, s)
       end.

(** What [clear_outputs] does to one cell. *)
Definition clear_cell (cell : dict) : dict :=
  if eq_str (py_get cell "cell_type") "code"
  then <["execution_count" := JNull]> (<["outputs" := JList []]> cell)
  else cell.

(** [None] for a missing entry *)
Definition opt_str (o : option string) : json :=
  match o with Some s => JStr s | None => JNull end.

(** [session.get("path") == path] *)
Definition session_has_path (path : json) (ses : session) : bool :=
  match session_path ses, path with
  | Some p, JStr q => String.eqb p q
  | None, JNull => true
  | _, _ => false
  end.

(** [session.get("kernel", {}).get("id")] *)
Definition session_kernel_id (ses : session) : option string :=
  match session_kernel ses with Some k => kernel_id k | None => None end.

Definition session_kernel_name (ses : session) : option string :=
  match session_kernel ses with Some k => kernel_name k | None => None end.

(** [not kernel_id] *)
Definition no_id (id : option string) : bool := negb (py_truthy (opt_str id)).

(** [kernel_manager.get_kernel(kernel_id)] *)
Definition get_kernel (km : gmap string kernel) (id : string) : result kernel :=
  match km !! id with Some k => Ok k | None => Raise (KeyError id) end.

(** The kernel lookup of [execute_code]: the loop stops at the first session
    with the path, whatever kernel it has. *)
Definition find_kernel_id (path : json) (sessions : list session) : option string :=
  match List.find (session_has_path path) sessions with
  | Some ses => session_kernel_id ses
  | None => None
  end.

(** The kernel lookup of [interrupt_kernel] and [get_kernel_status]: the
    first session with the path and a kernel identifier. *)
Definition find_live_kernel_id (path : json) (sessions : list session) : option string :=
  match List.find (λ ses, session_has_path path ses && negb (no_id (session_kernel_id ses)))
                  sessions with
  | Some ses => session_kernel_id ses
  | None => None
  end.

(** The loop of [execute_code]: [feed] holds the outcomes of the coming
    [get_iopub_msg] calls and [outputs] the entries appended so far. The
    result is the list at the [break], or the exception that leaves the loop:
    [except TimeoutError: break] catches the built-in [TimeoutError] and
    nothing else. When [feed] is used up nothing arrives any more: the next
    wait times out and the client raises [queue.Empty]. *)
Fixpoint collect (msg_id : string) (feed : list (result message)) (outputs : list dict)
  : result (list dict) :=
  match feed with
  | [] => Raise Empty
  | Raise TimeoutError :: _ => Ok outputs
  | Raise e :: _ => Raise e
  | Ok msg :: feed =>
      if negb (eq_str (parent_msg_id msg) msg_id) then collect msg_id feed outputs
      else if String.eqb (msg_type msg) "status" then
        state ← py_item (content msg) "execution_state";
        if eq_str state "idle" then Ok outputs
        else collect msg_id feed outputs
      else if String.eqb (msg_type msg) "stream" then
        name ← py_item (content msg) "name";
        text ← py_item (content msg) "text";
        collect msg_id feed
          (outputs ++ [{[ "output_type" := JStr "stream"; "name" := name;
                          "text" := text ]}])
      else if String.eqb (msg_type msg) "execute_result"
              || String.eqb (msg_type msg) "display_data" then
        data ← py_item (content msg) "data";
        collect msg_id feed
          (outputs ++ [{[ "output_type" := JStr (msg_type msg); "data" := data;
                          "metadata" := py_get_default (content msg) "metadata" (JDict ∅) ]}])
      else if String.eqb (msg_type msg) "error" then
        ename ← py_item (content msg) "ename";
        evalue ← py_item (content msg) "evalue";
        traceback ← py_item (content msg) "traceback";
        collect msg_id feed
          (outputs ++ [{[ "output_type" := JStr "error"; "ename" := ename;
                          "evalue" := evalue; "traceback" := traceback ]}])
      else collect msg_id feed outputs
  end.

(** The entries of [list_notebooks]. *)
Definition notebook_entry (ses : session) : dict :=
  {[ "path" := opt_str (session_path ses);
     "name" := opt_str (session_name ses);
     "kernel_id" := opt_str (session_kernel_id ses);
     "kernel_name" := opt_str (session_kernel_name ses) ]}.

Definition is_notebook (ses : session) : bool :=
  match session_type ses with Some t => String.eqb t "notebook" | None => false end.

(** The code [list_variables] runs in the kernel. *)
Definition inspect_code : string := "
import json
_vars = {}
for _name in dir():
    if not _name.startswith('_'):
        try:
            _obj = eval(_name)
            _vars[_name] = {
                'type': type(_obj).__name__,
                'repr': repr(_obj)[:100]
            }
        except Exception:
            pass
print(json.dumps(_vars))
".

(** Whether an event loop is running in the thread that calls a method
    ([asyncio.events._get_running_loop()] is not [None]): it is in a
    coroutine, such as [_handle_request], and it is not in a plain thread. *)
Inductive loop_state : Type := NoLoop | LoopRunning.

(** What [run_until_complete] raises, before it runs anything, in a thread
    where a loop is running. *)
Definition loop_error : exn :=
  RuntimeError "Cannot run the event loop while another loop is running".

Section Bridge.
Variable running : loop_state.

(** [loop.run_until_complete(call)], on the loop that
    [asyncio.new_event_loop()] just returned. *)
Definition run_until_complete {A} (call : M A) : M A :=
  match running with
  | LoopRunning => raise loop_error
  | NoLoop => call
  end.

Definition notebook_content (params : dict) (notebook_id : json) : M content_view :=
  let path := py_or notebook_id (py_get params "path") in
  if negb (py_truthy path) then raise (ValueError "Notebook path required")
  else λ s,
    match contents_manager s with
    | Some cm =>
        (content <- run_until_complete (lift (contents_get cm path));
         let cells := default [] (nb_cells content) in
         ret {| view_path := path;
                view_cells := imap cell_view cells;
                view_metadata := py_get_default (nb_rest content) "metadata" (JDict ∅) |}) s
    | None => (Raise (RuntimeError "Contents manager not available"), s)
    end.

Definition get_notebook_content : method := λ params notebook_id,
  v <- notebook_content params notebook_id;
  ret (view_dict v).

(** The body of [get_cell], up to the cell it returns. *)
Definition cell_at (params : dict) (notebook_id : json) : M dict :=
  let cell_index := py_get params "cell_index" in
  if is_None cell_index then raise (ValueError "cell_index required")
  else
    v <- notebook_content params notebook_id;
    let cells := view_cells v in
    zs <- lift (int_operand "<" cell_index);
    let '(i, shown) := zs in
    if (i <? 0) || (len cells <=? i) then
      raise (IndexError ("Cell index " +:+ shown +:+ " out of range (0-"
                         +:+ pretty (len cells - 1) +:+ ")"))
    else lift (list_item cells i).

Definition get_cell : method := λ params notebook_id,
  cell <- cell_at params notebook_id;
  ret {[ "cell" := JDict cell ]}.

Definition _modify_notebook (path : json) (op : operation) : M dict := λ s,
  match contents_manager s with
  | None => (Raise (RuntimeError "Contents manager not available"), s)
  | Some cm =>
      (content <- run_until_complete (lift (contents_get cm path));
       let cells := default [] (nb_cells content) in
       cells <- lift (perform op cells);
       let content := {| nb_cells := Some cells; nb_rest := nb_rest content |} in
       _ <- run_until_complete (save cm content path);
       ret {[ "success" := JBool true;
              "operation" := JStr (operation_name op);
              "cell_count" := JInt (len cells) ]}) s
  end.

Definition insert_cell : method := λ params notebook_id,
  let path := py_or notebook_id (py_get params "path") in
  let cell_index := py_get params "cell_index" in
  let cell_type := py_get_default params "cell_type" (JStr "code") in
  let source := py_get_default params "source" (JStr "") in
  if is_None path then raise (ValueError "Notebook path required")
  else if is_None cell_index then raise (ValueError "cell_index required")
  else _modify_notebook path (Insert cell_index cell_type source).

Definition update_cell : method := λ params notebook_id,
  let path := py_or notebook_id (py_get params "path") in
  let cell_index := py_get params "cell_index" in
  let source := py_get params "source" in
  if is_None path then raise (ValueError "Notebook path required")
  else if is_None cell_index then raise (ValueError "cell_index required")
  else if is_None source then raise (ValueError "source required")
  else _modify_notebook path (Update cell_index source).

Definition delete_cell : method := λ params notebook_id,
  let path := py_or notebook_id (py_get params "path") in
  let cell_index := py_get params "cell_index" in
  if is_None path then raise (ValueError "Notebook path required")
  else if is_None cell_index then raise (ValueError "cell_index required")
  else _modify_notebook path (Delete cell_index).

Definition move_cell : method := λ params notebook_id,
  let path := py_or notebook_id (py_get params "path") in
  let from_index := py_get params "from_index" in
  let to_index := py_get params "to_index" in
  if is_None path then raise (ValueError "Notebook path required")
  else if is_None from_index || is_None to_index
  then raise (ValueError "from_index and to_index required")
  else _modify_notebook path (Move from_index to_index).

(** ** [YjsBridge]: kernel operations *)

(** The services of the kernel operations: [if not self._session_manager or
    not self._kernel_manager: raise], then
    [loop.run_until_complete(self._session_manager.list_sessions())]. *)
Definition kernel_services : M (list session * gmap string kernel) := λ s,
  match session_manager s, kernel_manager s with
  | Some sessions, Some km =>
      (sessions <- run_until_complete (lift sessions);
       ret (sessions, km)) s
  | _, _ => (Raise (RuntimeError "Kernel manager not available"), s)
  end.

(** The dictionary [execute_code] returns. *)
Definition execution_result (outputs : list dict) : dict :=
  {[ "outputs" := JList (JDict <$> outputs); "success" := JBool true ]}.

Section Kernel.
(** [repr] of a list or a dictionary, [str.strip] and [json.loads]: library
    functions, taken as given. *)
Variable py_repr : json → string.
Variable py_strip : string → string.
Variable json_loads : string → result json.

(** [str(v)], as an f-string shows [v] *)
Definition py_str (v : json) : string := default (py_repr v) (scalar_str v).

(** [execute_code], up to the list of outputs *)
Definition run_code (params : dict) (notebook_id : json) : M (list dict) :=
  let code := py_get params "code" in
  let path := py_or notebook_id (py_get params "path") in
  if is_None code then raise (ValueError "code required")
  else
    services <- kernel_services;
    let '(sessions, km) := services in
    match find_kernel_id path sessions with
    | Some id =>
        if no_id (Some id)
        then raise (RuntimeError ("No kernel found for notebook: " +:+ py_str path))
        else
          kernel <- lift (get_kernel km id);
          let msg_id := execute kernel code in
          lift (collect msg_id (iopub kernel code) [])
    | None => raise (RuntimeError ("No kernel found for notebook: " +:+ py_str path))
    end.

Definition execute_code : method := λ params notebook_id,
  outputs <- run_code params notebook_id;
  ret (execution_result outputs).

Definition execute_cell : method := λ params notebook_id,
  let path := py_or notebook_id (py_get params "path") in
  let cell_index := py_get params "cell_index" in
  if is_None path then raise (ValueError "Notebook path required")
  else if is_None cell_index then raise (ValueError "cell_index required")
  else
    cell <- cell_at params path;
    source <- lift (py_item cell "source");
    execute_code {[ "code" := source; "path" := path ]} path.

(** [kernel_manager.interrupt_kernel(kernel_id)] *)
Definition interrupt (km : gmap string kernel) (id : string) : M unit := λ s,
  match km !! id with
  | Some _ =>
      (Ok (), {| contents_manager := contents_manager s;
                 kernel_manager := kernel_manager s;
                 session_manager := session_manager s;
                 interrupted := interrupted s ++ [id] |})
  | None => (Raise (KeyError id), s)
  end.

Definition interrupt_kernel : method := λ params notebook_id,
  let path := py_or notebook_id (py_get params "path") in
  services <- kernel_services;
  let '(sessions, km) := services in
  match find_live_kernel_id path sessions with
  | Some id =>
      _ <- run_until_complete (interrupt km id);
      ret {[ "success" := JBool true; "kernel_id" := JStr id ]}
  | None => raise (RuntimeError ("No kernel found for notebook: " +:+ py_str path))
  end.

Definition get_kernel_status : method := λ params notebook_id,
  let path := py_or notebook_id (py_get params "path") in
  services <- kernel_services;
  let '(sessions, km) := services in
  match find_live_kernel_id path sessions with
  | Some id =>
      kernel <- lift (get_kernel km id);
      ret {[ "kernel_id" := JStr id;
             "execution_state" := execution_state kernel;
             "is_alive" := JBool (is_alive kernel) ]}
  | None => raise (RuntimeError ("No kernel found for notebook: " +:+ py_str path))
  end.

(** The loop of [list_variables] over the outputs of the inspection. *)
Fixpoint parse_variables (outputs : list dict) : result dict :=
  match outputs with
  | [] => Ok {[ "variables" := JDict ∅ ]}
  | output :: outputs =>
      if eq_str (py_get output "output_type") "stream"
         && eq_str (py_get output "name") "stdout"
      then
        text ← py_item output "text";
        match text with
        | JStr text =>
            match json_loads (py_strip text) with
            | Ok variables => Ok {[ "variables" := variables ]}
            | Raise (JSONDecodeError _) => parse_variables outputs
            | Raise e => Raise e
            end
        | _ => Raise (AttributeError ("'" +:+ py_type_name text
                                      +:+ "' object has no attribute 'strip'"))
        end
      else parse_variables outputs
  end.

Definition list_variables : method := λ params notebook_id,
  outputs <- run_code {[ "code" := JStr inspect_code;
                         "path" := py_or notebook_id (py_get params "path") ]}
                      notebook_id;
  lift (parse_variables outputs).
End Kernel.

(** ** [YjsBridge]: notebook discovery and outputs *)

(** The list [notebooks] of [list_notebooks]: whatever is raised in the
    [try], by [run_until_complete] or by [list_sessions], is logged and
    leaves it empty. *)
Definition open_notebooks (s : settings) : list dict :=
  match session_manager s with
  | Some sessions =>
      match (run_until_complete (lift sessions) s).1 with
      | Ok sessions => notebook_entry <$> List.filter is_notebook sessions
      | Raise _ => []
      end
  | None => []
  end.

Definition list_notebooks : method := λ _ _ s,
  (Ok {[ "notebooks" := JList (JDict <$> open_notebooks s) ]}, s).

Definition get_active_notebook : method := λ _ _ s,
  match open_notebooks s with
  | first :: _ => (Ok {[ "notebook" := JDict first; "is_fallback" := JBool true ]}, s)
  | [] => (Ok {[ "notebook" := JNull; "is_fallback" := JBool false ]}, s)
  end.

Definition get_cell_outputs : method := λ params notebook_id,
  cell <- cell_at params notebook_id;
  ret {[ "outputs" := py_get_default cell "outputs" (JList []);
         "cell_type" := py_get cell "cell_type" ]}.

(** The cells of [clear_outputs]: the one at [cell_index], or all of them. *)
Definition cleared (cell_index : json) (cells : list dict) : result (list dict) :=
  if is_None cell_index then Ok (clear_cell <$> cells)
  else
    zs ← int_operand "<" cell_index;
    let '(idx, shown) := zs in
    if (idx <? 0) || (len cells <=? idx) then
      Raise (IndexError ("Cell index " +:+ shown +:+ " out of range"))
    else list_update cells idx clear_cell.

Definition clear_outputs : method := λ params notebook_id,
  let path := py_or notebook_id (py_get params "path") in
  let cell_index := py_get params "cell_index" in
  if is_None path then raise (ValueError "Notebook path required")
  else λ s,
    match contents_manager s with
    | None => (Raise (RuntimeError "Contents manager not available"), s)
    | Some cm =>
        (content <- run_until_complete (lift (contents_get cm path));
         let cells := default [] (nb_cells content) in
         cells <- lift (cleared cell_index cells);
         let content := {| nb_cells := Some cells; nb_rest := nb_rest content |} in
         _ <- run_until_complete (save cm content path);
         ret {[ "success" := JBool true;
                "cleared" := if is_None cell_index then JStr "all" else cell_index ]}) s
    end.
End Bridge.

(** ** [ClaudeCodeWebSocketHandler] *)

(** One WebSocket connection: the messages written to it (each one the
    dictionary given to [json.dumps]), whether it is in the class-level set
    [clients], and the application settings. *)
Record connection : Type := Connection {
  written : list dict;
  registered : bool;
  app : settings;
}.

Definition write_message (message : dict) (c : connection) : connection :=
  {| written := written c ++ [message]; registered := registered c; app := app c |}.

Definition with_app (s : settings) (c : connection) : connection :=
  {| written := written c; registered := registered c; app := s |}.

Definition open (c : connection) : connection :=
  write_message {[ "type" := JStr "connected"; "status" := JStr "ok" ]}
    {| written := written c; registered := true; app := app c |}.

Definition on_close (c : connection) : connection :=
  {| written := written c; registered := false; app := app c |}.

Definition _send_response (request_id : json) (data : dict) : connection → connection :=
  write_message {[ "id" := request_id; "type" := JStr "response";
                   "success" := JBool true; "data" := JDict data ]}.

Definition _send_error (message : string) (request_id : json) : connection → connection :=
  write_message {[ "id" := request_id; "type" := JStr "response";
                   "success" := JBool false; "error" := JStr message ]}.

(** An entry of the handler map, called with [data.get("params", {})], which
    is whatever the envelope holds, and [data.get("notebook_id")]. *)
Definition handler : Type := json → json → M dict.

(** [params.get] on a value that is not a dictionary *)
Definition no_get (v : json) : exn :=
  AttributeError ("'" +:+ py_type_name v +:+ "' object has no attribute 'get'").

(** A method that starts by reading an entry of [params]. *)
Definition reads_params (f : method) : handler := λ params notebook_id,
  match params with
  | JDict params => f params notebook_id
  | _ => raise (no_get params)
  end.

(** A method that reads [params] only in [notebook_id or params.get("path")],
    which leaves [params] alone when [notebook_id] is true. *)
Definition reads_path (f : method) : handler := λ params notebook_id,
  match params with
  | JDict params => f params notebook_id
  | _ => if py_truthy notebook_id then f ∅ notebook_id else raise (no_get params)
  end.

(** A method that never reads [params]. *)
Definition ignores_params (f : method) : handler := λ _ notebook_id, f ∅ notebook_id.

(** [await v] where [v] is the dictionary a method returned. Every method of
    [YjsBridge] is a plain [def]: the call [handler(...)] has run the method
    to its end and holds its result when [await] is applied, and a
    dictionary cannot be awaited. *)
Definition await (v : dict) : result dict :=
  Raise (TypeError "object dict can't be used in 'await' expression").

Section Dispatcher.
Variable py_repr : json → string.
Variable py_strip : string → string.
Variable json_loads : string → result json.

(** The dictionary [handlers], built on the bridge of each request.
    [_handle_request] is a coroutine: the methods it calls run in the thread
    of the event loop that runs it. *)
Definition handler_table : list (string * handler) :=
  [ ("list_notebooks", ignores_params (list_notebooks LoopRunning));
    ("get_active_notebook", ignores_params (get_active_notebook LoopRunning));
    ("get_notebook_content", reads_path (get_notebook_content LoopRunning));
    ("get_cell", reads_params (get_cell LoopRunning));
    ("insert_cell", reads_params (insert_cell LoopRunning));
    ("update_cell", reads_params (update_cell LoopRunning));
    ("delete_cell", reads_params (delete_cell LoopRunning));
    ("move_cell", reads_params (move_cell LoopRunning));
    ("execute_cell", reads_params (execute_cell LoopRunning py_repr));
    ("execute_code", reads_params (execute_code LoopRunning py_repr));
    ("interrupt_kernel", reads_path (interrupt_kernel LoopRunning py_repr));
    ("get_kernel_status", reads_path (get_kernel_status LoopRunning py_repr));
    ("list_variables",
     reads_path (list_variables LoopRunning py_repr py_strip json_loads));
    ("get_cell_outputs", reads_params (get_cell_outputs LoopRunning));
    ("clear_outputs", reads_params (clear_outputs LoopRunning)) ].

Definition handlers : gmap string handler := list_to_map handler_table.

(** [handlers.get(action)]: only a string can be a key of the map. *)
Definition handlers_get (action : json) : option handler :=
  match action with
  | JStr name => handlers !! name
  | _ => None
  end.

(** [uuid] is the string of the [uuid.uuid4()] drawn for this request. *)
Definition _handle_request (uuid : string) (data : dict) (c : connection)
  : result unit * connection :=
  let request_id := py_get_default data "id" (JStr uuid) in
  let action := py_get data "action" in
  if negb (py_truthy action) then (Ok (), _send_error "Missing action" request_id c)
  else
    match scalar_str action with
    | None =>
        (Raise (TypeError ("unhashable type: '" +:+ py_type_name action +:+ "'")), c)
    | Some shown =>
        match handlers_get action with
        | None => (Ok (), _send_error ("Unknown action: " +:+ shown) request_id c)
        | Some handler =>
            let '(outcome, s) :=
              handler (py_get_default data "params" (JDict ∅))
                      (py_get data "notebook_id") (app c) in
            let c := with_app s c in
            match outcome ≫= await with
            | Ok result => (Ok (), _send_response request_id result c)
            | Raise e => (Ok (), _send_error (str_exn e) request_id c)
            end
        end
    end.

Definition on_message (uuid : string) (message : string) (c : connection) : connection :=
  match json_loads message with
  | Raise (JSONDecodeError _) => _send_error "Invalid JSON" JNull c
  | Raise e => _send_error (str_exn e) JNull c
  | Ok (JDict data) =>
      match _handle_request uuid data c with
      | (Ok _, c) => c
      | (Raise e, c) => _send_error (str_exn e) JNull c
      end
  | Ok data => _send_error (str_exn (no_get data)) JNull c
  end.
End Dispatcher.

(** ** Vocabulary of the statements *)

(** The notebook the contents manager holds at [p], and its list of cells. *)
Definition notebook_at (s : settings) (p : string) : option notebook :=
  match contents_manager s with
  | Some cm => cm !! p
  | None => None
  end.

Definition cells_of (nb : notebook) : list dict := default [] (nb_cells nb).

Definition with_cells (nb : notebook) (cells : list dict) : notebook :=
  {| nb_cells := Some cells; nb_rest := nb_rest nb |}.

(** The settings once [nb], with [cells] for its cells, is saved at [p]. *)
Definition stored (p : string) (nb : notebook) (cells : list dict) (s : settings) : settings :=
  match contents_manager s with
  | Some cm => set_contents (<[p := with_cells nb cells]> cm) s
  | None => s
  end.

(** What [_modify_notebook] returns for the operation named [name] that left
    [count] cells. *)
Definition modified (name : string) (count : Z) : dict :=
  {[ "success" := JBool true; "operation" := JStr name; "cell_count" := JInt count ]}.

(** [params] and [notebook_id] name the notebook at path [p]. *)
Definition names_path (params : dict) (notebook_id : json) (p : string) : Prop :=
  py_or notebook_id (py_get params "path") = JStr p.

(** ** A notebook to run the statements on *)

Definition demo_cell (source : string) : dict :=
  {[ "cell_type" := JStr "code"; "source" := JStr source; "metadata" := JDict ∅;
     "outputs" := JList []; "execution_count" := JNull ]}.

Definition demo_notebook : notebook :=
  {| nb_cells := Some [demo_cell "a = 1"; demo_cell "b = 2"; demo_cell "a + b"];
     nb_rest := {[ "metadata" := JDict ∅; "nbformat" := JInt 4 ]} |}.

Definition demo_settings : settings :=
  {| contents_manager := Some {[ "demo.ipynb" := demo_notebook ]};
     kernel_manager := None;
     session_manager := None;
     interrupted := [] |}.


(** ** Kernel events *)

(** The message [m] answers the request [msg_id]. *)
Definition own (msg_id : string) (m : message) : Prop := parent_msg_id m = JStr msg_id.

(** The message types the loop of [execute_code] looks for. *)
Definition collected_types : list string :=
  ["status"; "stream"; "execute_result"; "display_data"; "error"].

(** [appends msg_id m entries]: what a message [m] that comes in while the
    request [msg_id] runs, and is not the [idle] status of that request, adds
    to the outputs. A message with another parent adds nothing, whatever its
    shape. A message of the request adds one entry when it is a stream, a
    result, a display or an error event with the content the messaging
    protocol gives it, and nothing when it is another status or of another
    type. *)
Inductive appends (msg_id : string) (m : message) : list dict → Prop :=
| appends_foreign :
    parent_msg_id m ≠ JStr msg_id →
    appends msg_id m []
| appends_stream name text :
    own msg_id m → msg_type m = "stream" →
    content m !! "name" = Some name → content m !! "text" = Some text →
    appends msg_id m
      [{[ "output_type" := JStr "stream"; "name" := name; "text" := text ]}]
| appends_data data :
    own msg_id m → msg_type m = "execute_result" ∨ msg_type m = "display_data" →
    content m !! "data" = Some data →
    appends msg_id m
      [{[ "output_type" := JStr (msg_type m); "data" := data;
          "metadata" := py_get_default (content m) "metadata" (JDict ∅) ]}]
| appends_error ename evalue traceback :
    own msg_id m → msg_type m = "error" →
    content m !! "ename" = Some ename → content m !! "evalue" = Some evalue →
    content m !! "traceback" = Some traceback →
    appends msg_id m
      [{[ "output_type" := JStr "error"; "ename" := ename; "evalue" := evalue;
          "traceback" := traceback ]}]
| appends_status state :
    own msg_id m → msg_type m = "status" →
    content m !! "execution_state" = Some state → state ≠ JStr "idle" →
    appends msg_id m []
| appends_other :
    own msg_id m → msg_type m ∉ collected_types →
    appends msg_id m [].

(** The [idle] status of the request [msg_id]. *)
Definition is_idle (msg_id : string) (m : message) : Prop :=
  own msg_id m ∧ msg_type m = "status"
  ∧ content m !! "execution_state" = Some (JStr "idle").

(** An error event of the request [msg_id]. *)
Definition is_error (msg_id : string) (m : message) (ename evalue traceback : json) : Prop :=
  own msg_id m ∧ msg_type m = "error"
  ∧ content m !! "ename" = Some ename ∧ content m !! "evalue" = Some evalue
  ∧ content m !! "traceback" = Some traceback.

(** What makes the loop [break]: the [idle] status of the request, or a
    wait that raises the built-in [TimeoutError]. *)
Definition ends_run (msg_id : string) (outcome : result message) : Prop :=
  (∃ m, outcome = Ok m ∧ is_idle msg_id m) ∨ outcome = Raise TimeoutError.

(** Events to build messages from, each with the least content of its type:
    output on a stream, the value of the cell, data to display, an exception,
    the [busy] status and the echo of the code. *)
Inductive event : Type :=
| Stream (name text : json)
| Result (data : json) (metadata : option json)
| Display (data : json) (metadata : option json)
| Error (ename evalue traceback : json)
| Busy
| Input (code : json).

Definition with_metadata (metadata : option json) (content : dict) : dict :=
  match metadata with
  | Some md => <["metadata" := md]> content
  | None => content
  end.

(** The message that carries [e] in answer to the request [msg_id]. *)
Definition event_message (msg_id : string) (e : event) : message :=
  match e with
  | Stream name text =>
      Message "stream" (JStr msg_id) {[ "name" := name; "text" := text ]}
  | Result data metadata =>
      Message "execute_result" (JStr msg_id) (with_metadata metadata {[ "data" := data ]})
  | Display data metadata =>
      Message "display_data" (JStr msg_id) (with_metadata metadata {[ "data" := data ]})
  | Error ename evalue traceback =>
      Message "error" (JStr msg_id)
        {[ "ename" := ename; "evalue" := evalue; "traceback" := traceback ]}
  | Busy => Message "status" (JStr msg_id) {[ "execution_state" := JStr "busy" ]}
  | Input code => Message "execute_input" (JStr msg_id) {[ "code" := code ]}
  end.

Definition idle_message (msg_id : string) : message :=
  Message "status" (JStr msg_id) {[ "execution_state" := JStr "idle" ]}.

(** The output entries of [e]. *)
Definition event_outputs (e : event) : list dict :=
  match e with
  | Stream name text =>
      [{[ "output_type" := JStr "stream"; "name" := name; "text" := text ]}]
  | Result data metadata =>
      [{[ "output_type" := JStr "execute_result"; "data" := data;
          "metadata" := default (JDict ∅) metadata ]}]
  | Display data metadata =>
      [{[ "output_type" := JStr "display_data"; "data" := data;
          "metadata" := default (JDict ∅) metadata ]}]
  | Error ename evalue traceback =>
      [{[ "output_type" := JStr "error"; "ename" := ename; "evalue" := evalue;
          "traceback" := traceback ]}]
  | Busy | Input _ => []
  end.

(** The session [ses] is one of the notebook at [path]: [session.get("path")
    == path]. *)
Definition has_path (path : json) (ses : session) : Prop :=
  from_option JStr JNull (session_path ses) = path.

(** The kernel identifier of a session, when it has one. *)
Definition kernel_id_of (ses : session) : option string :=
  session_kernel ses ≫= kernel_id.

(** In the settings [s], the first session of the notebook at [path] has a
    kernel, which takes [code] under the identifier [msg_id] and then makes
    [get_iopub_msg] behave as [feed]. *)
Definition runs (s : settings) (path code : json) (msg_id : string)
    (feed : list (result message)) : Prop :=
  ∃ sessions km before ses after id k,
    session_manager s = Some (Ok sessions) ∧ kernel_manager s = Some km
    ∧ sessions = before ++ ses :: after
    ∧ Forall (λ other, ¬ has_path path other) before
    ∧ has_path path ses
    ∧ kernel_id_of ses = Some id ∧ id ≠ ""
    ∧ km !! id = Some k ∧ execute k code = msg_id ∧ iopub k code = feed.

(** ** A kernel to run the statements on *)

Definition demo_kernel (feed : list (result message)) : kernel :=
  {| execute := λ _, "msg-1";
     iopub := λ _, feed;
     execution_state := JStr "busy";
     is_alive := true |}.

Definition demo_session : session :=
  {| session_type := Some "notebook";
     session_path := Some "demo.ipynb";
     session_name := Some "demo.ipynb";
     session_kernel := Some {| kernel_id := Some "k1"; kernel_name := Some "python3" |} |}.

Definition kernel_settings (feed : list (result message)) : settings :=
  {| contents_manager := Some {[ "demo.ipynb" := demo_notebook ]};
     kernel_manager := Some {[ "k1" := demo_kernel feed ]};
     session_manager := Some (Ok [demo_session]);
     interrupted := [] |}.

(** A stand-in for [repr] in the runs below, none of which shows a list or
    a dictionary. *)
Definition demo_repr (v : json) : string := py_type_name v.

(** [Stream("stdout", "1\n")] and [Result({"text/plain": "1"})] *)
Definition one_stream : event := Stream (JStr "stdout") (JStr "1
").
Definition one_result : event := Result (JDict {[ "text/plain" := JStr "1" ]}) None.

(** Runs of the request ["msg-1"]: the three events [Stream, Result, Idle];
    the same among other messages, one of them with another parent; a stream
    event, then a wait that times out ([queue.Empty]); a stream event, then a
    wait that raises [TimeoutError], with more to come after it; and a run
    with an error event in the middle. *)
Definition stream_result_idle : list (result message) :=
  [Ok (event_message "msg-1" one_stream);
   Ok (event_message "msg-1" one_result);
   Ok (idle_message "msg-1")].

Definition stray_message : message :=
  Message "status" (JStr "msg-0") {[ "execution_state" := JStr "idle" ]}.

Definition busy_run : list (result message) :=
  [Ok stray_message;
   Ok (event_message "msg-1" Busy);
   Ok (event_message "msg-1" (Input (JStr "print(1); 1")));
   Ok (event_message "msg-1" one_stream);
   Ok (event_message "msg-1" one_result);
   Ok (idle_message "msg-1");
   Ok (event_message "msg-1" one_stream)].

Definition timeout_feed : list (result message) :=
  [Ok (event_message "msg-1" one_stream); Raise Empty].

Definition late_run : list (result message) :=
  [Ok (event_message "msg-1" Busy);
   Ok (event_message "msg-1" one_stream);
   Raise TimeoutError;
   Ok (event_message "msg-1" one_result);
   Ok (idle_message "msg-1")].

Definition division_error : event :=
  Error (JStr "ZeroDivisionError") (JStr "division by zero")
        (JList [JStr "Traceback (most recent call last)"]).

Definition failing_run : list (result message) :=
  [Ok (event_message "msg-1" Busy);
   Ok (event_message "msg-1" one_stream);
   Ok (event_message "msg-1" division_error);
   Ok (event_message "msg-1" (Stream (JStr "stderr") (JStr "done")));
   Ok (idle_message "msg-1")].

(** ** Requests *)

(** The names of the handler map. *)
Definition action_names : list string :=
  [ "list_notebooks"; "get_active_notebook"; "get_notebook_content";
    "get_cell"; "insert_cell"; "update_cell"; "delete_cell"; "move_cell";
    "execute_cell"; "execute_code"; "interrupt_kernel"; "get_kernel_status";
    "list_variables"; "get_cell_outputs"; "clear_outputs" ].

(** The response that reports a failure: ["success"] false and the message
    under ["error"]. *)
Definition error_response (request_id : json) (message : string) : dict :=
  {[ "id" := request_id; "type" := JStr "response";
     "success" := JBool false; "error" := JStr message ]}.

(** The connection [c] once [response] is written to it and the settings
    are [s]: it stays in [clients] as it was. *)
Definition answered (response : dict) (s : settings) (c : connection) : connection :=
  {| written := written c ++ [response]; registered := registered c; app := s |}.

(** Stand-ins for [str.strip] and [json.loads] in the runs below, which do
    not reach them. *)
Definition demo_strip (text : string) : string := text.
Definition demo_loads (text : string) : result json :=
  Raise (JSONDecodeError "Expecting value").

Definition demo_connection : connection :=
  {| written := [{[ "type" := JStr "connected"; "status" := JStr "ok" ]}];
     registered := true;
     app := demo_settings |}.

(** A request with an empty action, one with an action that is not in the
    map, and one whose handler raises ([get_cell] without [cell_index]). *)
Definition empty_action_request : dict :=
  {[ "id" := JStr "r0"; "action" := JStr "" ]}.
Definition unknown_action_request : dict :=
  {[ "id" := JStr "r1"; "action" := JStr "rename_cell" ]}.
Definition failing_request : dict :=
  {[ "id" := JStr "r2"; "action" := JStr "get_cell"; "params" := JDict ∅;
     "notebook_id" := JStr "demo.ipynb" ]}.

(** [insert_cell] calls made one after the other, each one on the settings
    the one before left. *)
Fixpoint insert_in_turn (calls : list dict) (notebook_id : json) (s : settings) : settings :=
  match calls with
  | [] => s
  | params :: calls =>
      insert_in_turn calls notebook_id (insert_cell NoLoop params notebook_id s).2
  end.

(** A call of [insert_cell] on the notebook at [p] with an integer index
    that fits a [Py_ssize_t]. *)
Definition inserts_into (notebook_id : json) (p : string) (params : dict) : Prop :=
  names_path params notebook_id p
  ∧ ∃ i, params !! "cell_index" = Some (JInt i) ∧ - ssize_max - 1 ≤ i ≤ ssize_max.

(** ** Tactics *)

(** A result or display event [e] with data [data] is of the shape
    [appends_data]. *)
Ltac data_event e data :=
  let H := fresh in
  let Hmd := fresh in
  match goal with
  | |- appends ?msg_id _ [ <[_ := _]> (<[_ := _]> {[ "metadata" := ?md ]}) ] =>
      assert (py_get_default (content (event_message msg_id e)) "metadata" (JDict ∅) = md)
        as Hmd;
      [unfold py_get_default; cbn [event_message content with_metadata]
      |pose proof (appends_data msg_id (event_message msg_id e) data eq_refl) as H;
       rewrite Hmd in H; apply H; clear H Hmd;
       cbn [event_message msg_type content with_metadata]]
  end.


(** ** Vocabulary of the further properties *)

(** The entries of [msg["content"]] that the loop of [execute_code] reads
    with [content[key]] for a message of type [t], in the order it reads
    them. *)
Definition required_keys (t : string) : list string :=
  if String.eqb t "status" then ["execution_state"]
  else if String.eqb t "stream" then ["name"; "text"]
  else if String.eqb t "execute_result" || String.eqb t "display_data" then ["data"]
  else if String.eqb t "error" then ["ename"; "evalue"; "traceback"]
  else [].

(** Sessions to run the statements on: one for the notebook without a
    kernel, then one for the same notebook with the kernel ["k1"]. *)
Definition idle_session : session :=
  {| session_type := Some "notebook";
     session_path := Some "demo.ipynb";
     session_name := Some "demo.ipynb";
     session_kernel := None |}.

Definition console_session : session :=
  {| session_type := Some "console";
     session_path := Some "console-1";
     session_name := None;
     session_kernel := Some {| kernel_id := Some "k0"; kernel_name := Some "python3" |} |}.

Definition two_sessions : settings :=
  {| contents_manager := Some {[ "demo.ipynb" := demo_notebook ]};
     kernel_manager := Some {[ "k1" := demo_kernel [] ]};
     session_manager := Some (Ok [console_session; idle_session; demo_session]);
     interrupted := [] |}.

(** The test of [list_variables] on an output: a stream entry of [stdout]. *)
Definition is_stdout (output : dict) : bool :=
  eq_str (py_get output "output_type") "stream" && eq_str (py_get output "name") "stdout".

(** An output [list_variables] passes over: not a stream entry of [stdout],
    or one whose text [json.loads] rejects. *)
Definition passed_over (py_strip : string → string) (json_loads : string → result json)
    (output : dict) : Prop :=
  is_stdout output = false
  ∨ ∃ text message, output !! "text" = Some (JStr text)
                    ∧ json_loads (py_strip text) = Raise (JSONDecodeError message).

(** A stand-in for [json.loads] that reads the text ["{}"] only. *)
Definition loads_empty_object (text : string) : result json :=
  if String.eqb text "{}" then Ok (JDict ∅)
  else Raise (JSONDecodeError "Expecting value").

Definition variables_run : list (result message) :=
  [Ok (event_message "msg-1" Busy);
   Ok (event_message "msg-1" (Stream (JStr "stderr") (JStr "warning")));
   Ok (event_message "msg-1" (Stream (JStr "stdout") (JStr "not json")));
   Ok (event_message "msg-1" (Stream (JStr "stdout") (JStr "{}")));
   Ok (idle_message "msg-1")].

(** Requests to run the statements on, each for the notebook
    ["demo.ipynb"]: reading the cell at index 3, moving the cell at index 1
    to index 1, inserting a cell at index 0, updating the cell at index 1,
    running code, and running code that fails; a request without an action;
    and one with an action that cannot be a key of the handler map. *)
Definition get_cell_request : dict :=
  {[ "id" := JStr "r5"; "action" := JStr "get_cell";
     "params" := JDict {[ "cell_index" := JInt 3 ]};
     "notebook_id" := JStr "demo.ipynb" ]}.

Definition move_cell_request : dict :=
  {[ "id" := JStr "r7"; "action" := JStr "move_cell";
     "params" := JDict {[ "from_index" := JInt 1; "to_index" := JInt 1 ]};
     "notebook_id" := JStr "demo.ipynb" ]}.

Definition insert_request : dict :=
  {[ "id" := JStr "r3"; "action" := JStr "insert_cell";
     "params" := JDict {[ "cell_index" := JInt 0; "source" := JStr "x = 0" ]};
     "notebook_id" := JStr "demo.ipynb" ]}.



Definition no_action_request : dict := {[ "id" := JStr "r6" ]}.

Definition list_action_request : dict :=
  {[ "id" := JStr "r4"; "action" := JList [JStr "get_cell"] ]}.

Definition list_notebooks_request : dict :=
  {[ "id" := JStr "r8"; "action" := JStr "list_notebooks" ]}.

(** A connection of an application whose notebook has a kernel that
    behaves as [feed]. *)
Definition kernel_connection (feed : list (result message)) : connection :=
  {| written := [{[ "type" := JStr "connected"; "status" := JStr "ok" ]}];
     registered := true;
     app := kernel_settings feed |}.

(** The message of [loop_error]. *)
Definition loop_message : string :=
  "Cannot run the event loop while another loop is running".

(** ** [ClaudeCodeWebSocketHandler.check_origin] *)

(** [origin.startswith(("http://localhost", "http://127.0.0.1"))] *)
Definition check_origin (origin : string) : bool :=
  String.prefix "http://localhost" origin || String.prefix "http://127.0.0.1" origin.

(** * Properties *)

(** ** Lists *)

Lemma len_nonneg {A} (l : list A) : 0 ≤ len l.
Proof. unfold len. lia. Qed.

Lemma as_ssize_t_fits i : - ssize_max - 1 ≤ i ≤ ssize_max → as_ssize_t i = Ok i.
Proof.
  intros Hi. unfold as_ssize_t.
  destruct (Z.ltb_spec i (- ssize_max - 1)) as [?|_]; [lia|].
  destruct (Z.ltb_spec ssize_max i) as [?|_]; [lia|]. done.
Qed.

Lemma as_ssize_t_overflow i :
  i < - ssize_max - 1 ∨ ssize_max < i →
  as_ssize_t i = Raise (OverflowError "Python int too large to convert to C ssize_t").
Proof.
  intros Hi. unfold as_ssize_t.
  assert ((i <? - ssize_max - 1) || (ssize_max <? i) = true) as ->; [|done].
  destruct Hi; apply orb_true_iff; [left|right]; lia.
Qed.

Lemma ssize_max_pos : 0 < ssize_max.
Proof. done. Qed.

Lemma list_insert_at_end {A} (l : list A) i x :
  len l ≤ i ≤ ssize_max → list_insert_at l i x = Ok (l ++ [x]).
Proof.
  intros Hi. pose proof (len_nonneg l) as Hn. unfold list_insert_at.
  rewrite as_ssize_t_fits by lia. cbn [mbind result_bind].
  assert (insert_position l i = length l) as ->.
  { unfold insert_position. destruct (Z.ltb_spec i 0) as [?|_]; [lia|].
    destruct (Z.ltb_spec (len l) i); unfold len in *; lia. }
  by rewrite firstn_all, drop_all.
Qed.

Lemma list_insert_at_middle {A} (l : list A) i x :
  0 ≤ i ≤ len l → i ≤ ssize_max →
  list_insert_at l i x = Ok (take (Z.to_nat i) l ++ x :: drop (Z.to_nat i) l).
Proof.
  intros Hi Hfits. unfold list_insert_at.
  rewrite as_ssize_t_fits by (pose proof ssize_max_pos; lia). cbn [mbind result_bind].
  assert (insert_position l i = Z.to_nat i) as ->; [|done].
  unfold insert_position.
  destruct (Z.ltb_spec i 0) as [?|_]; [lia|].
  by destruct (Z.ltb_spec (len l) i) as [?|_]; [lia|].
Qed.

Lemma insert_position_le {A} (l : list A) i : (insert_position l i ≤ length l)%nat.
Proof.
  pose proof (len_nonneg l) as Hn. unfold insert_position, len in *.
  destruct (Z.ltb_spec i 0).
  - destruct (Z.ltb_spec (i + Z.of_nat (length l)) 0).
    + destruct (Z.ltb_spec (Z.of_nat (length l)) 0); lia.
    + destruct (Z.ltb_spec (Z.of_nat (length l)) (i + Z.of_nat (length l))); lia.
  - destruct (Z.ltb_spec (Z.of_nat (length l)) i); lia.
Qed.

Lemma length_list_insert_at {A} (l l' : list A) i x :
  list_insert_at l i x = Ok l' → len l' = len l + 1.
Proof.
  unfold list_insert_at. destruct (as_ssize_t i) as [i'|]; [|done].
  cbn [mbind result_bind]. intros [= <-].
  pose proof (insert_position_le l i'). unfold len.
  rewrite length_app, length_take. simpl. rewrite length_drop. lia.
Qed.

Lemma list_item_in_range {A} (l : list A) i :
  0 ≤ i < len l → ∃ x, l !! Z.to_nat i = Some x ∧ list_item l i = Ok x.
Proof.
  intros Hi. unfold list_item.
  destruct (Z.ltb_spec i 0) as [?|_]; [lia|].
  destruct (Z.ltb_spec i 0) as [?|_]; [lia|].
  destruct (Z.leb_spec (len l) i) as [?|_]; [lia|]. simpl.
  destruct (lookup_lt_is_Some_2 l (Z.to_nat i)) as [x Hx]; [unfold len in Hi; lia|].
  exists x. by rewrite Hx.
Qed.

Lemma list_pop_in_range {A} (l : list A) i x :
  0 ≤ i ≤ ssize_max → l !! Z.to_nat i = Some x →
  list_pop l i = Ok (x, delete (Z.to_nat i) l).
Proof.
  intros Hi Hx. pose proof (lookup_lt_Some _ _ _ Hx) as Hlt. unfold list_pop.
  rewrite as_ssize_t_fits by lia. cbn [mbind result_bind].
  destruct (Z.ltb_spec i 0) as [?|_]; [lia|].
  destruct (Z.ltb_spec i 0) as [?|_]; [lia|].
  destruct (Z.leb_spec (len l) i) as [?|_]; [unfold len in *; lia|]. simpl.
  by rewrite Hx.
Qed.

(** Taking an element out and inserting it back at the same index restores
    the list. *)
Lemma pop_insert_same {A} (l : list A) i x :
  0 ≤ i ≤ ssize_max → l !! Z.to_nat i = Some x →
  list_insert_at (delete (Z.to_nat i) l) i x = Ok l.
Proof.
  intros Hi Hx. pose proof (lookup_lt_Some _ _ _ Hx) as Hlt.
  rewrite list_insert_at_middle.
  - rewrite delete_take_drop.
    rewrite take_app_length', drop_app_length'
      by (rewrite length_take; lia).
    by rewrite take_drop_middle.
  - split; [lia|]. unfold len. rewrite length_delete by eauto. lia.
  - lia.
Qed.

Lemma find_none {A} (f : A → bool) (l : list A) :
  Forall (λ x, f x = false) l → List.find f l = None.
Proof. induction 1 as [|x l Hx _ IH]; [done|]. simpl. by rewrite Hx. Qed.

Lemma find_after {A} (f : A → bool) (before : list A) x after :
  Forall (λ x, f x = false) before → f x = true →
  List.find f (before ++ x :: after) = Some x.
Proof.
  induction 1 as [|y l Hy _ IH]; intros Hx; simpl; [by rewrite Hx|].
  rewrite Hy. by apply IH.
Qed.

Lemma eq_str_ne (v : json) (t : string) : v ≠ JStr t → eq_str v t = false.
Proof.
  destruct v as [| | |u| |]; try done. intros Hne. simpl.
  destruct (String.eqb_spec u t) as [->|]; [by destruct Hne|done].
Qed.

(** ** The cell that [insert] builds *)

Lemma new_cell_entries (cell_type source : json) :
  new_cell cell_type source
  = if eq_str cell_type "code"
    then {[ "cell_type" := cell_type; "source" := source; "metadata" := JDict ∅;
            "outputs" := JList []; "execution_count" := JNull ]}
    else {[ "cell_type" := cell_type; "source" := source; "metadata" := JDict ∅ ]}.
Proof.
  unfold new_cell. destruct (eq_str cell_type "code"); [|done].
  apply map_eq. intros field.
  destruct (decide (field = "execution_count")) as [->|]; [by simplify_map_eq|].
  destruct (decide (field = "outputs")) as [->|]; [by simplify_map_eq|].
  destruct (decide (field = "cell_type")) as [->|]; [by simplify_map_eq|].
  destruct (decide (field = "source")) as [->|]; [by simplify_map_eq|].
  destruct (decide (field = "metadata")) as [->|]; by simplify_map_eq.
Qed.

(** ** The contents manager *)

Lemma notebook_at_stored s p nb cells :
  is_Some (notebook_at s p) →
  notebook_at (stored p nb cells s) p = Some (with_cells nb cells).
Proof.
  unfold notebook_at, stored. intros [nb' H].
  destruct (contents_manager s) as [cm|]; [|done]. simpl.
  by rewrite lookup_insert_eq.
Qed.

Lemma notebook_at_stored_ne s p q nb cells :
  p ≠ q → notebook_at (stored p nb cells s) q = notebook_at s q.
Proof.
  unfold notebook_at, stored. intros Hne.
  destruct (contents_manager s) as [cm|] eqn:Hcm; [|by rewrite Hcm]. simpl.
  by rewrite lookup_insert_ne.
Qed.

(** Saving a notebook as it is changes nothing. *)
Lemma stored_same s p nb cells :
  notebook_at s p = Some nb → nb_cells nb = Some cells → stored p nb cells s = s.
Proof.
  unfold notebook_at, stored. intros H Hc.
  destruct s as [[cm|] km sm ints]; simpl in *; [|done].
  unfold set_contents. simpl. f_equal. f_equal.
  apply insert_id. rewrite H. destruct nb; simpl in *. by subst.
Qed.

(** ** Under a running loop *)

(** In a thread where an event loop is running, a method fails at its first
    [run_until_complete], with the settings as they were. *)
Lemma notebook_content_under_loop params notebook_id s :
  py_truthy (py_or notebook_id (py_get params "path")) = true →
  is_Some (contents_manager s) →
  notebook_content LoopRunning params notebook_id s = (Raise loop_error, s).
Proof.
  intros Hpath [cm Hcm]. unfold notebook_content. rewrite Hpath. cbn [negb].
  by rewrite Hcm.
Qed.

Lemma cell_at_under_loop params notebook_id s :
  is_None (py_get params "cell_index") = false →
  py_truthy (py_or notebook_id (py_get params "path")) = true →
  is_Some (contents_manager s) →
  cell_at LoopRunning params notebook_id s = (Raise loop_error, s).
Proof.
  intros Hidx Hpath Hcm. unfold cell_at. rewrite Hidx. unfold bind.
  by rewrite notebook_content_under_loop.
Qed.

Lemma modify_notebook_under_loop path op s :
  is_Some (contents_manager s) →
  _modify_notebook LoopRunning path op s = (Raise loop_error, s).
Proof. intros [cm Hcm]. unfold _modify_notebook. by rewrite Hcm. Qed.

Lemma kernel_services_under_loop s :
  is_Some (session_manager s) → is_Some (kernel_manager s) →
  kernel_services LoopRunning s = (Raise loop_error, s).
Proof. intros [sm Hsm] [km Hkm]. unfold kernel_services. by rewrite Hsm, Hkm. Qed.

(** ** Outside a running loop *)

(** [_modify_notebook] on a notebook that is there: the outcome of the
    operation on its cells decides. *)
Lemma modify_notebook_ok s p nb op cells :
  notebook_at s p = Some nb →
  perform op (cells_of nb) = Ok cells →
  _modify_notebook NoLoop (JStr p) op s
  = (Ok (modified (operation_name op) (len cells)), stored p nb cells s).
Proof.
  unfold notebook_at, stored, _modify_notebook, cells_of. intros H Hop.
  destruct (contents_manager s) as [cm|]; [|done].
  unfold bind, run_until_complete, lift, save, ret. simpl.
  rewrite H, Hop. done.
Qed.

Lemma modify_notebook_raise s p nb op e :
  notebook_at s p = Some nb →
  perform op (cells_of nb) = Raise e →
  _modify_notebook NoLoop (JStr p) op s = (Raise e, s).
Proof.
  unfold notebook_at, _modify_notebook, cells_of. intros H Hop.
  destruct (contents_manager s) as [cm|]; [|done].
  unfold bind, run_until_complete, lift. simpl.
  rewrite H, Hop. done.
Qed.

(** The methods, once their arguments are read. *)
Lemma insert_cell_unfold running params notebook_id p i :
  names_path params notebook_id p →
  params !! "cell_index" = Some (JInt i) →
  insert_cell running params notebook_id
  = _modify_notebook running (JStr p)
      (Insert (JInt i) (py_get_default params "cell_type" (JStr "code"))
                       (py_get_default params "source" (JStr ""))).
Proof. unfold names_path, insert_cell, py_get. by intros -> ->. Qed.

Lemma update_cell_unfold running params notebook_id p i source :
  names_path params notebook_id p →
  params !! "cell_index" = Some (JInt i) →
  params !! "source" = Some source → source ≠ JNull →
  update_cell running params notebook_id
  = _modify_notebook running (JStr p) (Update (JInt i) source).
Proof.
  unfold names_path, update_cell, py_get. intros -> -> -> Hsrc. simpl.
  by destruct source.
Qed.

Lemma delete_cell_unfold running params notebook_id p i :
  names_path params notebook_id p →
  params !! "cell_index" = Some (JInt i) →
  delete_cell running params notebook_id
  = _modify_notebook running (JStr p) (Delete (JInt i)).
Proof. unfold names_path, delete_cell, py_get. by intros -> ->. Qed.

Lemma move_cell_unfold running params notebook_id p i j :
  names_path params notebook_id p →
  params !! "from_index" = Some (JInt i) →
  params !! "to_index" = Some (JInt j) →
  move_cell running params notebook_id
  = _modify_notebook running (JStr p) (Move (JInt i) (JInt j)).
Proof. unfold names_path, move_cell, py_get. by intros -> -> ->. Qed.

(** The range tests of [perform]. *)
Lemma out_of_range_test i n : i < 0 ∨ n ≤ i → (i <? 0) || (n <=? i) = true.
Proof. intros [?|?]; apply orb_true_iff; [left|right]; lia. Qed.

Lemma in_range_test i n : 0 ≤ i < n → (i <? 0) || (n <=? i) = false.
Proof. intros ?. apply orb_false_iff; lia. Qed.

(** Setting one argument of a call leaves the other arguments as they were. *)
Lemma py_get_insert_ne (params : dict) k k' v :
  k ≠ k' → py_get (<[k := v]> params) k' = py_get params k'.
Proof. intros. unfold py_get. by rewrite lookup_insert_ne. Qed.

Lemma py_get_default_insert_ne (params : dict) k k' v dflt :
  k ≠ k' → py_get_default (<[k := v]> params) k' dflt = py_get_default params k' dflt.
Proof. intros. unfold py_get_default. by rewrite lookup_insert_ne. Qed.

Lemma names_path_insert (params : dict) notebook_id p k v :
  k ≠ "path" → names_path params notebook_id p →
  names_path (<[k := v]> params) notebook_id p.
Proof. unfold names_path. intros. by rewrite py_get_insert_ne. Qed.

(** [get_cell] on a notebook that is there. *)
Lemma cell_at_in_range params notebook_id s p nb k cell :
  names_path params notebook_id p → p ≠ "" →
  notebook_at s p = Some nb →
  params !! "cell_index" = Some (JInt k) →
  0 ≤ k → cells_of nb !! Z.to_nat k = Some cell →
  cell_at NoLoop params notebook_id s = (Ok (cell_view (Z.to_nat k) cell), s).
Proof.
  unfold names_path, notebook_at, cells_of.
  intros Hpath Hp Hnb Hidx Hk Hcell. pose proof (lookup_lt_Some _ _ _ Hcell) as Hlt.
  unfold cell_at, notebook_content, bind, run_until_complete, lift, ret, py_get in *.
  rewrite Hidx, Hpath. simpl.
  destruct (String.eqb_spec p "") as [?|_]; [done|]. simpl.
  destruct (contents_manager s) as [cm|]; [|done].
  rewrite Hnb. simpl.
  assert (len (imap cell_view (default [] (nb_cells nb))) = len (default [] (nb_cells nb)))
    as Hlen by (unfold len; by rewrite length_imap).
  rewrite Hlen, in_range_test by (unfold len; lia).
  unfold list_item. destruct (Z.ltb_spec k 0) as [?|_]; [lia|].
  rewrite Hlen, in_range_test by (unfold len; lia).
  by rewrite list_lookup_imap, Hcell.
Qed.

Lemma cell_at_out_of_range params notebook_id s p nb j :
  names_path params notebook_id p → p ≠ "" →
  notebook_at s p = Some nb →
  params !! "cell_index" = Some (JInt j) →
  j < 0 ∨ len (cells_of nb) ≤ j →
  cell_at NoLoop params notebook_id s
  = (Raise (IndexError ("Cell index " +:+ pretty j +:+ " out of range (0-"
                        +:+ pretty (len (cells_of nb) - 1) +:+ ")")), s).
Proof.
  unfold names_path, notebook_at, cells_of.
  intros Hpath Hp Hnb Hidx Hrange.
  unfold cell_at, notebook_content, bind, run_until_complete, lift, ret, py_get in *.
  rewrite Hidx, Hpath. simpl.
  destruct (String.eqb_spec p "") as [?|_]; [done|]. simpl.
  destruct (contents_manager s) as [cm|]; [|done].
  rewrite Hnb. simpl.
  assert (len (imap cell_view (default [] (nb_cells nb))) = len (default [] (nb_cells nb)))
    as -> by (unfold len; by rewrite length_imap).
  by rewrite out_of_range_test.
Qed.

(** [insert_cell] with an integer index on a notebook that is there. *)
Lemma insert_cell_int params notebook_id s p nb i cells :
  names_path params notebook_id p →
  notebook_at s p = Some nb →
  list_insert_at (cells_of nb) i
    (new_cell (py_get_default params "cell_type" (JStr "code"))
              (py_get_default params "source" (JStr ""))) = Ok cells →
  insert_cell NoLoop (<["cell_index" := JInt i]> params) notebook_id s
  = (Ok (modified "insert" (len (cells_of nb) + 1)), stored p nb cells s).
Proof.
  intros Hpath Hnb Hcells.
  rewrite (insert_cell_unfold _ _ _ p i);
    [|by apply names_path_insert|by rewrite lookup_insert_eq].
  rewrite !py_get_default_insert_ne by done.
  rewrite (modify_notebook_ok _ _ nb _ cells) by (done || by simpl).
  by rewrite (length_list_insert_at _ _ _ _ Hcells).
Qed.

(** The index errors of [perform]. *)
Lemma perform_update_out_of_range cells i source :
  i < 0 ∨ len cells ≤ i →
  perform (Update (JInt i) source) cells
  = Raise (IndexError ("Cell index " +:+ pretty i +:+ " out of range")).
Proof. intros. simpl. by rewrite out_of_range_test. Qed.

Lemma perform_delete_out_of_range cells i :
  i < 0 ∨ len cells ≤ i →
  perform (Delete (JInt i)) cells
  = Raise (IndexError ("Cell index " +:+ pretty i +:+ " out of range")).
Proof. intros. simpl. by rewrite out_of_range_test. Qed.

Lemma perform_move_from_out_of_range cells i to_index :
  i < 0 ∨ len cells ≤ i →
  perform (Move (JInt i) to_index) cells
  = Raise (IndexError ("from_index " +:+ pretty i +:+ " out of range")).
Proof. intros. simpl. by rewrite out_of_range_test. Qed.

Lemma perform_move_to_out_of_range cells k i :
  0 ≤ k < len cells → i < 0 ∨ len cells < i →
  perform (Move (JInt k) (JInt i)) cells
  = Raise (IndexError ("to_index " +:+ pretty i +:+ " out of range")).
Proof.
  intros Hk Hi. simpl. rewrite in_range_test by done.
  assert ((i <? 0) || (len cells <? i) = true) as ->; [|done].
  destruct Hi; apply orb_true_iff; [left|right]; lia.
Qed.

(** [update_cell] on a cell that is there. *)
Lemma perform_update_in_range cells k source cell :
  0 ≤ k → cells !! Z.to_nat k = Some cell →
  perform (Update (JInt k) source) cells
  = Ok (<[Z.to_nat k := <["source" := source]> cell]> cells).
Proof.
  intros Hk Hcell. pose proof (lookup_lt_Some _ _ _ Hcell) as Hlt.
  assert (0 ≤ k < len cells) as Hrange by (unfold len; lia).
  simpl. rewrite in_range_test by done.
  destruct (list_item_in_range cells k Hrange) as (cell' & Hcell' & Hitem).
  unfold list_update. rewrite Hitem. simpl.
  destruct (Z.ltb_spec k 0) as [?|_]; [lia|]. congruence.
Qed.

(** ** Dispatching a request *)

(** The keys of the handler map are the names of [action_names]. *)
Lemma handlers_names py_repr py_strip json_loads name :
  handlers py_repr py_strip json_loads !! name = None ↔ name ∉ action_names.
Proof. unfold handlers. by rewrite <- not_elem_of_list_to_map. Qed.

(** A request for a known action whose handler raises is answered with the
    message of the exception. *)
Lemma handle_request_raised py_repr py_strip json_loads uuid data c name (h : handler) e s :
  data !! "action" = Some (JStr name) → name ≠ "" →
  handlers py_repr py_strip json_loads !! name = Some h →
  h (py_get_default data "params" (JDict ∅)) (py_get data "notebook_id") (app c)
  = (Raise e, s) →
  _handle_request py_repr py_strip json_loads uuid data c
  = (Ok (), answered (error_response (py_get_default data "id" (JStr uuid)) (str_exn e))
              s c).
Proof.
  intros Haction Hname Hhandler Hraise.
  assert (py_get data "action" = JStr name) as Hget
    by (unfold py_get; by rewrite Haction).
  assert (py_truthy (JStr name) = true) as Htrue
    by (simpl; by destruct (String.eqb_spec name "")).
  unfold _handle_request, handlers_get.
  rewrite Hget, Htrue. cbn [negb scalar_str].
  by rewrite Hhandler, Hraise.
Qed.

(** A request whose handler is a method that reads its parameters and
    fails at its first [run_until_complete]. *)
Lemma handle_request_loop_error
    py_repr py_strip json_loads uuid data c name (f : method) params :
  data !! "action" = Some (JStr name) → name ≠ "" →
  handlers py_repr py_strip json_loads !! name = Some (reads_params f) →
  data !! "params" = Some (JDict params) →
  f params (py_get data "notebook_id") (app c) = (Raise loop_error, app c) →
  _handle_request py_repr py_strip json_loads uuid data c
  = (Ok (), answered (error_response (py_get_default data "id" (JStr uuid)) loop_message)
              (app c) c).
Proof.
  intros Haction Hname Hhandler Hparams Hraise.
  apply (handle_request_raised _ _ _ _ _ _ name (reads_params f) loop_error);
    try done.
  unfold py_get_default. by rewrite Hparams.
Qed.

(** C3, as the specification states it, fails: the empty string is not in
    the handler map, and a request whose action is the empty string is
    answered with the error ["Missing action"], not ["Unknown action: "]. *)
Lemma handle_request_empty_action_counterexample :
  handlers demo_repr demo_strip demo_loads !! "" = None
  ∧ _handle_request demo_repr demo_strip demo_loads "u0" empty_action_request
      demo_connection
    = (Ok (), answered (error_response (JStr "r0") "Missing action") demo_settings
                demo_connection)
  ∧ error_response (JStr "r0") "Missing action" !! "error"
    ≠ Some (JStr ("Unknown action: " +:+ "")).
Proof. split; [|split]; [reflexivity | reflexivity | vm_compute; discriminate]. Qed.

(** C3, amended. A request whose action is absent, [None], the empty string
    or any other false value ([False], 0, an empty list or dictionary) is
    answered with ["success"] false and the error ["Missing action"], whether
    or not that value is in the handler map. For a request whose action is a string other than the empty one:
    when the action is not in the handler map (whose keys are the fifteen
    names of [action_names]) the dispatcher answers with a response that has
    ["success"] false and the error ["Unknown action: <name>"], and when the
    handler of a known action raises it answers with a response that has
    ["success"] false and the message of the exception. In all three cases
    [_handle_request] itself returns, it raises nothing, and the connection
    stays registered as it was. *)
Theorem handle_request_failures py_repr py_strip json_loads uuid data c :
  let request_id := py_get_default data "id" (JStr uuid) in
  let failure (message : string) : dict :=
    {[ "id" := request_id; "type" := JStr "response";
       "success" := JBool false; "error" := JStr message ]} in
  let answer (message : string) (s : settings) : result unit * connection :=
    (Ok (), {| written := written c ++ [failure message];
               registered := registered c;
               app := s |}) in
  (data !! "action" ∈ [None; Some JNull; Some (JStr ""); Some (JBool false);
                       Some (JInt 0); Some (JList []); Some (JDict ∅)] →
     _handle_request py_repr py_strip json_loads uuid data c
     = answer "Missing action" (app c))
  ∧ (∀ name, data !! "action" = Some (JStr name) → name ≠ "" →
       handlers py_repr py_strip json_loads !! name = None →
       _handle_request py_repr py_strip json_loads uuid data c
       = answer ("Unknown action: " +:+ name) (app c))
  ∧ (∀ name (h : handler) e s,
       data !! "action" = Some (JStr name) → name ≠ "" →
       handlers py_repr py_strip json_loads !! name = Some h →
       h (py_get_default data "params" (JDict ∅)) (py_get data "notebook_id") (app c)
       = (Raise e, s) →
       _handle_request py_repr py_strip json_loads uuid data c
       = answer (str_exn e) s)
  ∧ (∀ name, handlers py_repr py_strip json_loads !! name = None
             ↔ name ∉ action_names).
Proof.
  intros request_id failure answer. split; [|split; [|split]]; [| | |apply handlers_names].
  - intros Hfalsy.
    assert (py_truthy (py_get data "action") = false) as Hfalse.
    { unfold py_get.
      repeat (apply elem_of_cons in Hfalsy as [->|Hfalsy]; [done|]).
      by apply elem_of_nil in Hfalsy. }
    unfold _handle_request. by rewrite Hfalse.
  - intros name Haction Hname Hunknown.
    assert (py_get data "action" = JStr name) as Hget
      by (unfold py_get; by rewrite Haction).
    assert (py_truthy (JStr name) = true) as Htrue
      by (simpl; by destruct (String.eqb_spec name "")).
    unfold _handle_request, handlers_get.
    rewrite Hget, Htrue. cbn [negb scalar_str].
    by rewrite Hunknown.
  - intros name h e s Haction Hname Hhandler Hraise.
    by apply (handle_request_raised _ _ _ _ _ _ name h).
Qed.

Lemma handle_request_failures_witness :
  (_handle_request demo_repr demo_strip demo_loads "u6" no_action_request demo_connection
   = (Ok (), answered (error_response (JStr "r6") "Missing action")
               demo_settings demo_connection)
   ∧ _handle_request demo_repr demo_strip demo_loads "u0" empty_action_request
       demo_connection
     = (Ok (), answered (error_response (JStr "r0") "Missing action")
                 demo_settings demo_connection))
  ∧ _handle_request demo_repr demo_strip demo_loads "u1" unknown_action_request
      demo_connection
    = (Ok (), answered (error_response (JStr "r1") "Unknown action: rename_cell")
                demo_settings demo_connection)
  ∧ _handle_request demo_repr demo_strip demo_loads "u2" failing_request demo_connection
    = (Ok (), answered (error_response (JStr "r2") "cell_index required")
                demo_settings demo_connection).
Proof.
  split; [split|split].
  - exact (proj1 (handle_request_failures demo_repr demo_strip demo_loads "u6"
                    no_action_request demo_connection) ltac:(left)).
  - exact (proj1 (handle_request_failures demo_repr demo_strip demo_loads "u0"
                    empty_action_request demo_connection) ltac:(do 2 right; left)).
  - refine (proj1 (proj2 (handle_request_failures demo_repr demo_strip demo_loads "u1"
                            unknown_action_request demo_connection))
                  "rename_cell" eq_refl _ _).
    + discriminate.
    + reflexivity.
  - refine (proj1 (proj2 (proj2 (handle_request_failures demo_repr demo_strip demo_loads
                                   "u2" failing_request demo_connection)))
                  "get_cell" (reads_params (get_cell LoopRunning))
                  (ValueError "cell_index required") demo_settings eq_refl _
                  eq_refl eq_refl).
    discriminate.
Defined.

(** ** The cell operations, called by the dispatcher *)

(** C5. A request for [get_cell] on a notebook that the contents manager
    holds is answered with the error of [run_until_complete], ["Cannot run
    the event loop while another loop is running"], whatever the index:
    [get_cell] raises it before the notebook is read, so an index out of
    range does not get the [IndexError] that the method has for it. *)
Theorem get_cell_under_dispatcher
    py_repr py_strip json_loads uuid data c params p nb i :
  data !! "action" = Some (JStr "get_cell") →
  data !! "params" = Some (JDict params) →
  names_path params (py_get data "notebook_id") p → p ≠ "" →
  notebook_at (app c) p = Some nb →
  params !! "cell_index" = Some (JInt i) →
  get_cell LoopRunning params (py_get data "notebook_id") (app c)
  = (Raise (RuntimeError "Cannot run the event loop while another loop is running"),
     app c)
  ∧ _handle_request py_repr py_strip json_loads uuid data c
    = (Ok (), {| written :=
                   written c
                   ++ [{[ "id" := py_get_default data "id" (JStr uuid);
                          "type" := JStr "response"; "success" := JBool false;
                          "error" := JStr "Cannot run the event loop while another loop is running" ]}];
                 registered := registered c;
                 app := app c |}).
Proof.
  intros Haction Hparams Hpath Hp Hnb Hidx.
  assert (get_cell LoopRunning params (py_get data "notebook_id") (app c)
          = (Raise loop_error, app c)) as Hraise.
  { unfold get_cell, bind. rewrite cell_at_under_loop; [done| | |].
    - unfold py_get. by rewrite Hidx.
    - unfold names_path in Hpath. rewrite Hpath. simpl.
      by destruct (String.eqb_spec p "").
    - unfold notebook_at in Hnb. by destruct (contents_manager (app c)). }
  split; [done|].
  by apply (handle_request_loop_error _ _ _ _ _ _ "get_cell" (get_cell LoopRunning) params).
Qed.

Lemma get_cell_under_dispatcher_witness :
  get_cell LoopRunning {[ "cell_index" := JInt 3 ]} (JStr "demo.ipynb") demo_settings
  = (Raise (RuntimeError "Cannot run the event loop while another loop is running"),
     demo_settings)
  ∧ _handle_request demo_repr demo_strip demo_loads "u5" get_cell_request demo_connection
    = (Ok (), {| written :=
                   written demo_connection
                   ++ [{[ "id" := JStr "r5";
                          "type" := JStr "response"; "success" := JBool false;
                          "error" := JStr "Cannot run the event loop while another loop is running" ]}];
                 registered := true;
                 app := demo_settings |}).
Proof.
  exact (get_cell_under_dispatcher demo_repr demo_strip demo_loads "u5" get_cell_request
           demo_connection {[ "cell_index" := JInt 3 ]} "demo.ipynb" demo_notebook 3
           eq_refl eq_refl eq_refl ltac:(discriminate) eq_refl eq_refl).
Defined.

(** [_modify_notebook] under the dispatcher, for each of the operations. *)
Lemma modify_under_dispatcher
    py_repr py_strip json_loads uuid data c name (f : method) params path op :
  data !! "action" = Some (JStr name) → name ≠ "" →
  handlers py_repr py_strip json_loads !! name = Some (reads_params f) →
  data !! "params" = Some (JDict params) →
  f params (py_get data "notebook_id") = _modify_notebook LoopRunning path op →
  is_Some (contents_manager (app c)) →
  f params (py_get data "notebook_id") (app c) = (Raise loop_error, app c)
  ∧ _handle_request py_repr py_strip json_loads uuid data c
    = (Ok (), answered (error_response (py_get_default data "id" (JStr uuid)) loop_message)
                (app c) c).
Proof.
  intros Haction Hname Hhandler Hparams Hf Hcm.
  assert (f params (py_get data "notebook_id") (app c) = (Raise loop_error, app c))
    as Hraise by (rewrite Hf; by apply modify_notebook_under_loop).
  split; [done|].
  by apply (handle_request_loop_error _ _ _ _ _ _ name f params).
Qed.

Lemma notebook_at_manager s p nb :
  notebook_at s p = Some nb → is_Some (contents_manager s).
Proof. unfold notebook_at. by destruct (contents_manager s). Qed.

(** C7. A request for [move_cell] from an index k in range to the same
    index is answered with the error of [run_until_complete]: [move_cell]
    raises it before the notebook is read, it does not succeed, and the
    settings stay as they were. *)
Theorem move_cell_under_dispatcher
    py_repr py_strip json_loads uuid data c params p nb k :
  data !! "action" = Some (JStr "move_cell") →
  data !! "params" = Some (JDict params) →
  names_path params (py_get data "notebook_id") p →
  notebook_at (app c) p = Some nb →
  params !! "from_index" = Some (JInt k) →
  params !! "to_index" = Some (JInt k) →
  0 ≤ k < len (cells_of nb) →
  move_cell LoopRunning params (py_get data "notebook_id") (app c)
  = (Raise (RuntimeError "Cannot run the event loop while another loop is running"),
     app c)
  ∧ _handle_request py_repr py_strip json_loads uuid data c
    = (Ok (), {| written :=
                   written c
                   ++ [{[ "id" := py_get_default data "id" (JStr uuid);
                          "type" := JStr "response"; "success" := JBool false;
                          "error" := JStr "Cannot run the event loop while another loop is running" ]}];
                 registered := registered c;
                 app := app c |}).
Proof.
  intros Haction Hparams Hpath Hnb Hfrom Hto Hk.
  apply (modify_under_dispatcher _ _ _ _ _ _ "move_cell" (move_cell LoopRunning) params
           (JStr p) (Move (JInt k) (JInt k))); try done.
  - by apply move_cell_unfold.
  - by apply (notebook_at_manager _ p nb).
Qed.

Lemma move_cell_under_dispatcher_witness :
  move_cell LoopRunning {[ "from_index" := JInt 1; "to_index" := JInt 1 ]}
    (JStr "demo.ipynb") demo_settings
  = (Raise (RuntimeError "Cannot run the event loop while another loop is running"),
     demo_settings)
  ∧ _handle_request demo_repr demo_strip demo_loads "u7" move_cell_request
      demo_connection
    = (Ok (), {| written :=
                   written demo_connection
                   ++ [{[ "id" := JStr "r7";
                          "type" := JStr "response"; "success" := JBool false;
                          "error" := JStr "Cannot run the event loop while another loop is running" ]}];
                 registered := true;
                 app := demo_settings |}).
Proof.
  exact (move_cell_under_dispatcher demo_repr demo_strip demo_loads "u7"
           move_cell_request demo_connection
           {[ "from_index" := JInt 1; "to_index" := JInt 1 ]} "demo.ipynb"
           demo_notebook 1 eq_refl eq_refl eq_refl eq_refl eq_refl eq_refl
           ltac:(split; [lia|reflexivity])).
Defined.

(** C8. A request for [insert_cell], at index 0, at the number of cells or
    at any other integer index, is answered with the error of
    [run_until_complete]: [insert_cell] raises it before the notebook is
    read, no cell is added and no [cell_count] is returned. *)
Theorem insert_cell_under_dispatcher
    py_repr py_strip json_loads uuid data c params p nb i :
  data !! "action" = Some (JStr "insert_cell") →
  data !! "params" = Some (JDict params) →
  names_path params (py_get data "notebook_id") p →
  notebook_at (app c) p = Some nb →
  params !! "cell_index" = Some (JInt i) →
  insert_cell LoopRunning params (py_get data "notebook_id") (app c)
  = (Raise (RuntimeError "Cannot run the event loop while another loop is running"),
     app c)
  ∧ _handle_request py_repr py_strip json_loads uuid data c
    = (Ok (), {| written :=
                   written c
                   ++ [{[ "id" := py_get_default data "id" (JStr uuid);
                          "type" := JStr "response"; "success" := JBool false;
                          "error" := JStr "Cannot run the event loop while another loop is running" ]}];
                 registered := registered c;
                 app := app c |})
  ∧ notebook_at (app (_handle_request py_repr py_strip json_loads uuid data c).2) p
    = Some nb.
Proof.
  intros Haction Hparams Hpath Hnb Hidx.
  destruct (modify_under_dispatcher py_repr py_strip json_loads uuid data c
              "insert_cell" (insert_cell LoopRunning) params (JStr p)
              (Insert (JInt i) (py_get_default params "cell_type" (JStr "code"))
                      (py_get_default params "source" (JStr ""))))
    as [Hraise Hanswer]; try done.
  - by apply insert_cell_unfold.
  - by apply (notebook_at_manager _ p nb).
  - split; [done|]. split; [done|]. by rewrite Hanswer.
Qed.

Lemma insert_cell_under_dispatcher_witness :
  insert_cell LoopRunning {[ "cell_index" := JInt 0; "source" := JStr "x = 0" ]}
    (JStr "demo.ipynb") demo_settings
  = (Raise (RuntimeError "Cannot run the event loop while another loop is running"),
     demo_settings)
  ∧ _handle_request demo_repr demo_strip demo_loads "u3" insert_request demo_connection
    = (Ok (), {| written :=
                   written demo_connection
                   ++ [{[ "id" := JStr "r3";
                          "type" := JStr "response"; "success" := JBool false;
                          "error" := JStr "Cannot run the event loop while another loop is running" ]}];
                 registered := true;
                 app := demo_settings |})
  ∧ notebook_at
      (app (_handle_request demo_repr demo_strip demo_loads "u3" insert_request
              demo_connection).2) "demo.ipynb"
    = Some demo_notebook.
Proof.
  exact (insert_cell_under_dispatcher demo_repr demo_strip demo_loads "u3"
           insert_request demo_connection
           {[ "cell_index" := JInt 0; "source" := JStr "x = 0" ]} "demo.ipynb"
           demo_notebook 0 eq_refl eq_refl eq_refl eq_refl eq_refl).
Defined.



(** ** The cell operations, called where no event loop is running *)

(** C9, as the specification states it, fails: on the notebook of three
    cells, [insert_cell] with the index 2^63, which is larger than 3, does
    not succeed: [list.insert] raises an [OverflowError] and nothing is
    saved. *)
Lemma insert_cell_overflow_counterexample :
  len (cells_of demo_notebook) < 2 ^ 63
  ∧ insert_cell NoLoop {[ "cell_index" := JInt (2 ^ 63) ]} (JStr "demo.ipynb") demo_settings
    = (Raise (OverflowError "Python int too large to convert to C ssize_t"),
       demo_settings)
  ∧ ¬ (∃ (result : dict) s,
         insert_cell NoLoop {[ "cell_index" := JInt (2 ^ 63) ]} (JStr "demo.ipynb")
           demo_settings = (Ok result, s)).
Proof.
  assert (insert_cell NoLoop {[ "cell_index" := JInt (2 ^ 63) ]} (JStr "demo.ipynb")
            demo_settings
          = (Raise (OverflowError "Python int too large to convert to C ssize_t"),
             demo_settings)) as Hrun by reflexivity.
  split; [reflexivity|]. split; [exact Hrun|].
  intros (result & s & Hout). rewrite Hrun in Hout. discriminate.
Qed.

Lemma perform_insert_overflow cells i cell_type source :
  ssize_max < i →
  perform (Insert (JInt i) cell_type source) cells
  = Raise (OverflowError "Python int too large to convert to C ssize_t").
Proof.
  intros Hi. cbn [perform index_operand int_like mbind result_bind].
  unfold list_insert_at. by rewrite as_ssize_t_overflow by (by right).
Qed.

(** C9, amended. On a notebook with n cells, [insert_cell] with an integer
    index i > n never raises an [IndexError], whether an event loop is
    running or not. Called where no loop is running, with i up to 2^63 - 1
    ([ssize_max]), it succeeds: it puts the new cell after the others and returns
    [cell_count = n + 1]; with a larger i, [list.insert] raises an
    [OverflowError] and nothing is saved. Called the same way with an index
    j outside 0..n-1, [update_cell], [delete_cell] and [move_cell] (as
    [from_index]) raise an [IndexError], and so does [move_cell] with a
    [to_index] t outside 0..n; they leave the settings as they were. *)
Theorem insert_cell_beyond_end running params notebook_id s p nb i j t source :
  names_path params notebook_id p →
  notebook_at s p = Some nb →
  len (cells_of nb) < i →
  j < 0 ∨ len (cells_of nb) ≤ j →
  t < 0 ∨ len (cells_of nb) < t →
  source ≠ JNull →
  let cells := cells_of nb in
  let cell_type := py_get_default params "cell_type" (JStr "code") in
  let text := py_get_default params "source" (JStr "") in
  let cell : dict :=
    if eq_str cell_type "code"
    then {[ "cell_type" := cell_type; "source" := text; "metadata" := JDict ∅;
            "outputs" := JList []; "execution_count" := JNull ]}
    else {[ "cell_type" := cell_type; "source" := text; "metadata" := JDict ∅ ]} in
  let s' := stored p nb (cells ++ [cell]) s in
  (∀ message,
     (insert_cell running (<["cell_index" := JInt i]> params) notebook_id s).1
     ≠ Raise (IndexError message))
  ∧ (i ≤ ssize_max →
     insert_cell NoLoop (<["cell_index" := JInt i]> params) notebook_id s
     = (Ok {[ "success" := JBool true; "operation" := JStr "insert";
              "cell_count" := JInt (len cells + 1) ]}, s')
     ∧ cells_of <$> notebook_at s' p = Some (cells ++ [cell]))
  ∧ (ssize_max < i →
     insert_cell NoLoop (<["cell_index" := JInt i]> params) notebook_id s
     = (Raise (OverflowError "Python int too large to convert to C ssize_t"), s))
  ∧ update_cell NoLoop (<["cell_index" := JInt j]> (<["source" := source]> params))
      notebook_id s
    = (Raise (IndexError ("Cell index " +:+ pretty j +:+ " out of range")), s)
  ∧ delete_cell NoLoop (<["cell_index" := JInt j]> params) notebook_id s
    = (Raise (IndexError ("Cell index " +:+ pretty j +:+ " out of range")), s)
  ∧ (∀ to_index : Z,
       move_cell NoLoop (<["from_index" := JInt j]> (<["to_index" := JInt to_index]> params))
         notebook_id s
       = (Raise (IndexError ("from_index " +:+ pretty j +:+ " out of range")), s))
  ∧ (∀ k : Z, 0 ≤ k < len cells →
       move_cell NoLoop (<["from_index" := JInt k]> (<["to_index" := JInt t]> params))
         notebook_id s
       = (Raise (IndexError ("to_index " +:+ pretty t +:+ " out of range")), s)).
Proof.
  intros Hpath Hnb Hi Hj Ht Hsrc cells cell_type text cell.
  assert (cell = new_cell cell_type text) as -> by (symmetry; apply new_cell_entries).
  set (cell := new_cell cell_type text).
  intros s'.
  assert (i ≤ ssize_max →
          insert_cell NoLoop (<["cell_index" := JInt i]> params) notebook_id s
          = (Ok (modified "insert" (len cells + 1)), s')) as Hfits.
  { intros Hmax. apply (insert_cell_int _ _ _ p nb); [done..|].
    apply list_insert_at_end. unfold cells in *. lia. }
  assert (ssize_max < i →
          insert_cell NoLoop (<["cell_index" := JInt i]> params) notebook_id s
          = (Raise (OverflowError "Python int too large to convert to C ssize_t"), s))
    as Hover.
  { intros Hmax.
    rewrite (insert_cell_unfold _ _ _ p i);
      [|by apply names_path_insert|by rewrite lookup_insert_eq].
    apply (modify_notebook_raise _ _ nb); [done|]. by apply perform_insert_overflow. }
  split; [|split; [|split; [|split; [|split; [|split]]]]].
  - intros message. destruct running.
    + destruct (Z.le_gt_cases i (ssize_max)) as [Hmax|Hmax].
      * by rewrite Hfits.
      * rewrite Hover by lia. done.
    + rewrite (insert_cell_unfold _ _ _ p i);
        [|by apply names_path_insert|by rewrite lookup_insert_eq].
      rewrite modify_notebook_under_loop by (by apply (notebook_at_manager _ p nb)).
      done.
  - intros Hmax. split; [by apply Hfits|].
    unfold s'. by rewrite notebook_at_stored by (by rewrite Hnb).
  - done.
  - rewrite (update_cell_unfold _ _ _ p j source);
      [|by do 2 (apply names_path_insert; [done|])
       |by rewrite lookup_insert_eq
       |by rewrite lookup_insert_ne, lookup_insert_eq
       |done].
    apply (modify_notebook_raise _ _ nb); [done|].
    by apply perform_update_out_of_range.
  - rewrite (delete_cell_unfold _ _ _ p j);
      [|by apply names_path_insert|by rewrite lookup_insert_eq].
    apply (modify_notebook_raise _ _ nb); [done|].
    by apply perform_delete_out_of_range.
  - intros to_index.
    rewrite (move_cell_unfold _ _ _ p j to_index);
      [|by do 2 (apply names_path_insert; [done|])
       |by rewrite lookup_insert_eq
       |by rewrite lookup_insert_ne, lookup_insert_eq].
    apply (modify_notebook_raise _ _ nb); [done|].
    by apply perform_move_from_out_of_range.
  - intros k Hk.
    rewrite (move_cell_unfold _ _ _ p k t);
      [|by do 2 (apply names_path_insert; [done|])
       |by rewrite lookup_insert_eq
       |by rewrite lookup_insert_ne, lookup_insert_eq].
    apply (modify_notebook_raise _ _ nb); [done|].
    by apply perform_move_to_out_of_range.
Qed.

Lemma insert_cell_beyond_end_witness :
  let cells := cells_of demo_notebook in
  let cell : dict :=
    {[ "cell_type" := JStr "code"; "source" := JStr ""; "metadata" := JDict ∅;
       "outputs" := JList []; "execution_count" := JNull ]} in
  let s' := stored "demo.ipynb" demo_notebook (cells ++ [cell]) demo_settings in
  (∀ message,
     (insert_cell NoLoop (<["cell_index" := JInt 7]> ∅) (JStr "demo.ipynb")
        demo_settings).1
     ≠ Raise (IndexError message))
  ∧ (7 ≤ ssize_max →
     insert_cell NoLoop (<["cell_index" := JInt 7]> ∅) (JStr "demo.ipynb") demo_settings
     = (Ok {[ "success" := JBool true; "operation" := JStr "insert";
              "cell_count" := JInt (len cells + 1) ]}, s')
     ∧ cells_of <$> notebook_at s' "demo.ipynb" = Some (cells ++ [cell]))
  ∧ (ssize_max < 7 →
     insert_cell NoLoop (<["cell_index" := JInt 7]> ∅) (JStr "demo.ipynb") demo_settings
     = (Raise (OverflowError "Python int too large to convert to C ssize_t"),
        demo_settings))
  ∧ update_cell NoLoop (<["cell_index" := JInt (-1)]> (<["source" := JStr "x"]> ∅))
      (JStr "demo.ipynb") demo_settings
    = (Raise (IndexError ("Cell index " +:+ pretty (-1) +:+ " out of range")),
       demo_settings)
  ∧ delete_cell NoLoop (<["cell_index" := JInt (-1)]> ∅) (JStr "demo.ipynb") demo_settings
    = (Raise (IndexError ("Cell index " +:+ pretty (-1) +:+ " out of range")),
       demo_settings)
  ∧ (∀ to_index : Z,
       move_cell NoLoop (<["from_index" := JInt (-1)]> (<["to_index" := JInt to_index]> ∅))
         (JStr "demo.ipynb") demo_settings
       = (Raise (IndexError ("from_index " +:+ pretty (-1) +:+ " out of range")),
          demo_settings))
  ∧ (∀ k : Z, 0 ≤ k < len cells →
       move_cell NoLoop (<["from_index" := JInt k]> (<["to_index" := JInt 5]> ∅))
         (JStr "demo.ipynb") demo_settings
       = (Raise (IndexError ("to_index " +:+ pretty 5 +:+ " out of range")),
          demo_settings)).
Proof.
  exact (insert_cell_beyond_end NoLoop ∅ (JStr "demo.ipynb") demo_settings "demo.ipynb"
           demo_notebook 7 (-1) 5 (JStr "x")
           eq_refl eq_refl eq_refl (or_introl eq_refl) (or_intror eq_refl)
           ltac:(discriminate)).
Defined.


(** * Further properties of the bridge *)

(** ** Where a cell goes, and what is left when one goes *)

Lemma lookup_inserted {A} (l : list A) (n : nat) x :
  (n ≤ length l)%nat →
  (take n l ++ x :: drop n l) !! n = Some x
  ∧ (∀ j, (j < n)%nat → (take n l ++ x :: drop n l) !! j = l !! j)
  ∧ (∀ j, (n ≤ j)%nat → (take n l ++ x :: drop n l) !! S j = l !! j).
Proof.
  intros Hn. assert (length (take n l) = n) as Hlen by (rewrite length_take; lia).
  repeat split.
  - rewrite lookup_app_r by lia. by rewrite Hlen, Nat.sub_diag.
  - intros j Hj. rewrite lookup_app_l by lia. by apply lookup_take_lt.
  - intros j Hj. rewrite lookup_app_r by lia. rewrite Hlen.
    replace (S j - n)%nat with (S (j - n)) by lia. simpl.
    rewrite lookup_drop. f_equal. lia.
Qed.

Lemma insert_position_spec {A} (l : list A) i :
  insert_position l i
  = Z.to_nat (if i <? 0 then Z.max 0 (len l + i) else Z.min i (len l)).
Proof.
  pose proof (len_nonneg l) as Hn. unfold insert_position, len in *.
  destruct (Z.ltb_spec i 0).
  - destruct (Z.ltb_spec (i + Z.of_nat (length l)) 0).
    + destruct (Z.ltb_spec (Z.of_nat (length l)) 0); lia.
    + destruct (Z.ltb_spec (Z.of_nat (length l)) (i + Z.of_nat (length l))); lia.
  - destruct (Z.ltb_spec (Z.of_nat (length l)) i); lia.
Qed.

Lemma list_insert_at_position {A} (l : list A) i x :
  - ssize_max - 1 ≤ i ≤ ssize_max →
  let pos := Z.to_nat (if i <? 0 then Z.max 0 (len l + i) else Z.min i (len l)) in
  list_insert_at l i x = Ok (take pos l ++ x :: drop pos l) ∧ (pos ≤ length l)%nat.
Proof.
  intros Hi pos. unfold pos. rewrite <- insert_position_spec.
  split; [|apply insert_position_le].
  unfold list_insert_at. by rewrite as_ssize_t_fits.
Qed.

(** X1. Called where no event loop is running, [insert_cell] accepts every
    integer index that fits a [Py_ssize_t] (from -2^63 to 2^63 - 1) and never
    reports it out of range: an index from 0 to the number of cells is the
    position of the new cell, a larger one puts it last, and a negative one
    counts from the end, as [list.insert] does (so -1 puts the cell before
    the last one, and anything before the start puts it first). The cells
    before the position stay, the cells from the position on move down by
    one, and the count grows by one. *)
Theorem insert_cell_position params notebook_id s p nb i :
  names_path params notebook_id p →
  notebook_at s p = Some nb →
  - 2 ^ 63 ≤ i ≤ 2 ^ 63 - 1 →
  let cells := cells_of nb in
  let cell_type := py_get_default params "cell_type" (JStr "code") in
  let text := py_get_default params "source" (JStr "") in
  let cell : dict :=
    if eq_str cell_type "code"
    then {[ "cell_type" := cell_type; "source" := text; "metadata" := JDict ∅;
            "outputs" := JList []; "execution_count" := JNull ]}
    else {[ "cell_type" := cell_type; "source" := text; "metadata" := JDict ∅ ]} in
  let pos := Z.to_nat (if i <? 0 then Z.max 0 (len cells + i) else Z.min i (len cells)) in
  let cells' := take pos cells ++ cell :: drop pos cells in
  let s' := stored p nb cells' s in
  insert_cell NoLoop (<["cell_index" := JInt i]> params) notebook_id s
  = (Ok {[ "success" := JBool true; "operation" := JStr "insert";
           "cell_count" := JInt (len cells + 1) ]}, s')
  ∧ notebook_at s' p = Some (with_cells nb cells')
  ∧ cells' !! pos = Some cell
  ∧ (∀ j, (j < pos)%nat → cells' !! j = cells !! j)
  ∧ (∀ j, (pos ≤ j)%nat → cells' !! S j = cells !! j).
Proof.
  intros Hpath Hnb Hi cells cell_type text cell.
  assert (cell = new_cell cell_type text) as -> by (symmetry; apply new_cell_entries).
  set (cell := new_cell cell_type text).
  intros pos cells' s'.
  assert (- ssize_max - 1 ≤ i ≤ ssize_max) as Hfits by (by unfold ssize_max).
  destruct (list_insert_at_position cells i cell Hfits) as [Hat Hpos].
  destruct (lookup_inserted cells pos cell Hpos) as (Hnew & Hbefore & Hafter).
  repeat split; try done.
  - by apply (insert_cell_int _ _ _ p nb).
  - unfold s'. by rewrite notebook_at_stored by (by rewrite Hnb).
Qed.

Lemma insert_cell_position_witness :
  let cell : dict :=
    {[ "cell_type" := JStr "code"; "source" := JStr "c = 3"; "metadata" := JDict ∅;
       "outputs" := JList []; "execution_count" := JNull ]} in
  let cells' := [demo_cell "a = 1"; demo_cell "b = 2"; cell; demo_cell "a + b"] in
  let s' := stored "demo.ipynb" demo_notebook cells' demo_settings in
  insert_cell NoLoop {[ "cell_index" := JInt (-1); "source" := JStr "c = 3" ]}
    (JStr "demo.ipynb") demo_settings
  = (Ok {[ "success" := JBool true; "operation" := JStr "insert";
           "cell_count" := JInt 4 ]}, s')
  ∧ notebook_at s' "demo.ipynb" = Some (with_cells demo_notebook cells')
  ∧ cells' !! 2%nat = Some cell
  ∧ (∀ j, (j < 2)%nat → cells' !! j = cells_of demo_notebook !! j)
  ∧ (∀ j, (2 ≤ j)%nat → cells' !! S j = cells_of demo_notebook !! j).
Proof.
  exact (insert_cell_position {[ "source" := JStr "c = 3" ]} (JStr "demo.ipynb")
           demo_settings "demo.ipynb" demo_notebook (-1) eq_refl eq_refl
           ltac:(split; discriminate)).
Defined.

Lemma perform_delete_in_range cells k cell :
  0 ≤ k → cells !! Z.to_nat k = Some cell →
  perform (Delete (JInt k)) cells = Ok (delete (Z.to_nat k) cells).
Proof.
  intros Hk Hcell. pose proof (lookup_lt_Some _ _ _ Hcell) as Hlt.
  simpl. rewrite in_range_test by (unfold len; lia).
  unfold list_del. destruct (Z.ltb_spec k 0) as [?|_]; [lia|].
  by rewrite in_range_test by (unfold len; lia).
Qed.

(** X2. Called where no event loop is running, [delete_cell] at an index in
    range takes out the cell at that index and no other: the cells before it
    stay, the cells after it move up by one, the count drops by one, and the
    rest of the notebook and the other notebooks are as before. *)
Theorem delete_cell_removes params notebook_id s p nb k cell :
  names_path params notebook_id p →
  notebook_at s p = Some nb →
  params !! "cell_index" = Some (JInt k) →
  0 ≤ k → cells_of nb !! Z.to_nat k = Some cell →
  let cells := cells_of nb in
  let cells' := take (Z.to_nat k) cells ++ drop (S (Z.to_nat k)) cells in
  let s' := stored p nb cells' s in
  delete_cell NoLoop params notebook_id s
  = (Ok {[ "success" := JBool true; "operation" := JStr "delete";
           "cell_count" := JInt (len cells - 1) ]}, s')
  ∧ notebook_at s' p = Some (with_cells nb cells')
  ∧ (∀ q, q ≠ p → notebook_at s' q = notebook_at s q)
  ∧ (∀ j, (j < Z.to_nat k)%nat → cells' !! j = cells !! j)
  ∧ (∀ j, (Z.to_nat k ≤ j)%nat → cells' !! j = cells !! S j).
Proof.
  intros Hpath Hnb Hidx Hk Hcell cells cells' s'.
  pose proof (lookup_lt_Some _ _ _ Hcell) as Hlt.
  assert (cells' = delete (Z.to_nat k) cells) as Hdel by (by rewrite delete_take_drop).
  assert (len cells' = len cells - 1) as Hcount.
  { rewrite Hdel. unfold len. rewrite length_delete by eauto. fold cells in Hlt. lia. }
  repeat split.
  - rewrite (delete_cell_unfold _ _ _ p k) by done.
    rewrite (modify_notebook_ok _ _ nb _ cells');
      [|done|rewrite Hdel; by apply (perform_delete_in_range _ _ cell)].
    by rewrite Hcount.
  - unfold s'. by rewrite notebook_at_stored by (by rewrite Hnb).
  - intros q Hq. unfold s'. by rewrite notebook_at_stored_ne.
  - intros j Hj. rewrite Hdel. by apply list_lookup_delete_lt.
  - intros j Hj. rewrite Hdel. by apply list_lookup_delete_ge.
Qed.

Lemma delete_cell_removes_witness :
  let cells' := [demo_cell "a = 1"; demo_cell "a + b"] in
  let s' := stored "demo.ipynb" demo_notebook cells' demo_settings in
  delete_cell NoLoop {[ "cell_index" := JInt 1 ]} (JStr "demo.ipynb") demo_settings
  = (Ok {[ "success" := JBool true; "operation" := JStr "delete";
           "cell_count" := JInt 2 ]}, s')
  ∧ notebook_at s' "demo.ipynb" = Some (with_cells demo_notebook cells')
  ∧ (∀ q, q ≠ "demo.ipynb" → notebook_at s' q = notebook_at demo_settings q)
  ∧ (∀ j, (j < 1)%nat → cells' !! j = cells_of demo_notebook !! j)
  ∧ (∀ j, (1 ≤ j)%nat → cells' !! j = cells_of demo_notebook !! S j).
Proof.
  exact (delete_cell_removes {[ "cell_index" := JInt 1 ]} (JStr "demo.ipynb")
           demo_settings "demo.ipynb" demo_notebook 1 (demo_cell "b = 2")
           eq_refl eq_refl eq_refl ltac:(lia) eq_refl).
Defined.

Lemma perform_move_in_range cells i j cell :
  0 ≤ i ≤ ssize_max → cells !! Z.to_nat i = Some cell → 0 ≤ j ≤ len cells →
  perform (Move (JInt i) (JInt j)) cells
  = list_insert_at (delete (Z.to_nat i) cells) j cell.
Proof.
  intros Hi Hcell Hj. pose proof (lookup_lt_Some _ _ _ Hcell) as Hlt.
  simpl. rewrite in_range_test by (unfold len; lia).
  assert ((j <? 0) || (len cells <? j) = false) as -> by (apply orb_false_iff; lia).
  by rewrite (list_pop_in_range _ _ cell).
Qed.

(** X3. Called where no event loop is running, on a notebook whose list of
    cells is one Python can hold (at most 2^63 - 1 cells), [move_cell] from
    an index in range to a target from 0 to the number of cells takes the
    cell out and puts it back at the target, counted in the list without it:
    the notebook holds the same cells as before, in another order, as many
    as before, and the moved cell ends at the target index, or at the last
    index when the target is the number of cells. *)
Theorem move_cell_moves params notebook_id s p nb i j cell :
  names_path params notebook_id p →
  notebook_at s p = Some nb →
  len (cells_of nb) ≤ 2 ^ 63 - 1 →
  params !! "from_index" = Some (JInt i) →
  params !! "to_index" = Some (JInt j) →
  0 ≤ i → cells_of nb !! Z.to_nat i = Some cell →
  0 ≤ j ≤ len (cells_of nb) →
  let cells := cells_of nb in
  let others := take (Z.to_nat i) cells ++ drop (S (Z.to_nat i)) cells in
  let pos := Z.to_nat (Z.min j (len cells - 1)) in
  let cells' := take pos others ++ cell :: drop pos others in
  let s' := stored p nb cells' s in
  move_cell NoLoop params notebook_id s
  = (Ok {[ "success" := JBool true; "operation" := JStr "move";
           "cell_count" := JInt (len cells) ]}, s')
  ∧ notebook_at s' p = Some (with_cells nb cells')
  ∧ cells' ≡ₚ cells
  ∧ cells' !! pos = Some cell.
Proof.
  intros Hpath Hnb Hmax Hfrom Hto Hi Hcell Hj cells others pos cells' s'.
  pose proof (lookup_lt_Some _ _ _ Hcell) as Hlt. fold cells in Hlt, Hcell, Hj, Hmax.
  assert (len cells ≤ ssize_max) as Hmax' by (by unfold ssize_max).
  assert (others = delete (Z.to_nat i) cells) as Hothers by (by rewrite delete_take_drop).
  assert (length others = (length cells - 1)%nat) as Hlen
    by (rewrite Hothers, length_delete by eauto; lia).
  assert (len others = len cells - 1) as Hlen' by (unfold len; lia).
  assert (- ssize_max - 1 ≤ j ≤ ssize_max) as Hfits by lia.
  destruct (list_insert_at_position others j cell Hfits) as [Hat Hpos].
  destruct (Z.ltb_spec j 0) as [?|_]; [lia|]. rewrite Hlen' in Hat, Hpos.
  fold pos in Hat, Hpos.
  assert (cells' ≡ₚ cells) as Hperm.
  { unfold cells'. rewrite <- Permutation_middle, take_drop, Hothers.
    symmetry. by apply delete_Permutation. }
  repeat split; try done.
  - rewrite (move_cell_unfold _ _ _ p i j) by done.
    assert (perform (Move (JInt i) (JInt j)) cells = Ok cells') as Hperform.
    { rewrite (perform_move_in_range _ _ _ cell); [|unfold len in *; lia|done|done].
      rewrite <- Hothers. by rewrite Hat. }
    rewrite (modify_notebook_ok _ _ nb _ cells' Hnb Hperform).
    assert (len cells' = len cells) as -> by (unfold len; by rewrite Hperm).
    done.
  - unfold s'. by rewrite notebook_at_stored by (by rewrite Hnb).
  - by apply lookup_inserted.
Qed.

Lemma move_cell_moves_witness :
  let cells' := [demo_cell "b = 2"; demo_cell "a + b"; demo_cell "a = 1"] in
  let s' := stored "demo.ipynb" demo_notebook cells' demo_settings in
  move_cell NoLoop {[ "from_index" := JInt 0; "to_index" := JInt 3 ]} (JStr "demo.ipynb")
    demo_settings
  = (Ok {[ "success" := JBool true; "operation" := JStr "move";
           "cell_count" := JInt 3 ]}, s')
  ∧ notebook_at s' "demo.ipynb" = Some (with_cells demo_notebook cells')
  ∧ cells' ≡ₚ cells_of demo_notebook
  ∧ cells' !! 2%nat = Some (demo_cell "a = 1").
Proof.
  exact (move_cell_moves {[ "from_index" := JInt 0; "to_index" := JInt 3 ]}
           (JStr "demo.ipynb") demo_settings "demo.ipynb" demo_notebook 0 3
           (demo_cell "a = 1") eq_refl eq_refl ltac:(discriminate) eq_refl eq_refl
           ltac:(lia) eq_refl ltac:(split; [lia|reflexivity])).
Defined.

(** ** Calls that follow one another *)

Lemma with_cells_twice nb cells cells' :
  with_cells (with_cells nb cells) cells' = with_cells nb cells'.
Proof. done. Qed.

Lemma cells_of_with_cells nb cells : cells_of (with_cells nb cells) = cells.
Proof. done. Qed.

(** [delete_cell] and [update_cell] on a cell that is there, and [get_cell]
    on it. *)
Lemma delete_cell_in_range params notebook_id s p nb k cell :
  names_path params notebook_id p →
  notebook_at s p = Some nb →
  params !! "cell_index" = Some (JInt k) →
  0 ≤ k → cells_of nb !! Z.to_nat k = Some cell →
  delete_cell NoLoop params notebook_id s
  = (Ok (modified "delete" (len (cells_of nb) - 1)),
     stored p nb (delete (Z.to_nat k) (cells_of nb)) s).
Proof.
  intros Hpath Hnb Hidx Hk Hcell. pose proof (lookup_lt_Some _ _ _ Hcell) as Hlt.
  rewrite (delete_cell_unfold _ _ _ p k) by done.
  rewrite (modify_notebook_ok _ _ nb _ (delete (Z.to_nat k) (cells_of nb)));
    [|done|by apply (perform_delete_in_range _ _ cell)].
  simpl. do 3 f_equal. unfold len. rewrite length_delete by eauto. lia.
Qed.

Lemma update_cell_in_range params notebook_id s p nb k source cell :
  names_path params notebook_id p →
  notebook_at s p = Some nb →
  params !! "cell_index" = Some (JInt k) →
  params !! "source" = Some source → source ≠ JNull →
  0 ≤ k → cells_of nb !! Z.to_nat k = Some cell →
  update_cell NoLoop params notebook_id s
  = (Ok (modified "update" (len (cells_of nb))),
     stored p nb (<[Z.to_nat k := <["source" := source]> cell]> (cells_of nb)) s).
Proof.
  intros Hpath Hnb Hidx Hsource Hsrc Hk Hcell.
  rewrite (update_cell_unfold _ _ _ p k source) by done.
  rewrite (modify_notebook_ok _ _ nb _ _ Hnb (perform_update_in_range _ _ _ _ Hk Hcell)).
  simpl. unfold len. by rewrite length_insert.
Qed.

Lemma get_cell_in_range params notebook_id s p nb k cell :
  names_path params notebook_id p → p ≠ "" →
  notebook_at s p = Some nb →
  params !! "cell_index" = Some (JInt k) →
  0 ≤ k → cells_of nb !! Z.to_nat k = Some cell →
  get_cell NoLoop params notebook_id s
  = (Ok {[ "cell" := JDict (cell_view (Z.to_nat k) cell) ]}, s).
Proof.
  intros Hpath Hp Hnb Hidx Hk Hcell. unfold get_cell, bind.
  by rewrite (cell_at_in_range _ _ _ p nb k cell).
Qed.

Lemma insert_cell_in_range params notebook_id s p nb i :
  names_path params notebook_id p →
  notebook_at s p = Some nb →
  0 ≤ i ≤ len (cells_of nb) → i ≤ ssize_max →
  let cell := new_cell (py_get_default params "cell_type" (JStr "code"))
                       (py_get_default params "source" (JStr "")) in
  let cells' := take (Z.to_nat i) (cells_of nb) ++ cell :: drop (Z.to_nat i) (cells_of nb) in
  (insert_cell NoLoop (<["cell_index" := JInt i]> params) notebook_id s).2
  = stored p nb cells' s
  ∧ notebook_at (stored p nb cells' s) p = Some (with_cells nb cells')
  ∧ cells' !! Z.to_nat i = Some cell.
Proof.
  intros Hpath Hnb Hi Hmax cell cells'.
  rewrite (insert_cell_int _ _ _ p nb _ cells') by (done || by apply list_insert_at_middle).
  repeat split.
  - by rewrite notebook_at_stored by (by rewrite Hnb).
  - apply lookup_inserted. unfold len in Hi. lia.
Qed.

(** X4. Called where no event loop is running, with an index i from 0 to
    the number of cells (and at most 2^63 - 1), deleting at index i right
    after inserting at index i gives back the cells the notebook had, in
    their order: [delete_cell] returns the count from before the
    insertion. *)
Theorem insert_then_delete params notebook_id s p nb i :
  names_path params notebook_id p →
  notebook_at s p = Some nb →
  0 ≤ i ≤ len (cells_of nb) → i ≤ 2 ^ 63 - 1 →
  let call := <["cell_index" := JInt i]> params in
  let inserted := (insert_cell NoLoop call notebook_id s).2 in
  (delete_cell NoLoop call notebook_id inserted).1
  = Ok {[ "success" := JBool true; "operation" := JStr "delete";
          "cell_count" := JInt (len (cells_of nb)) ]}
  ∧ notebook_at (delete_cell NoLoop call notebook_id inserted).2 p
    = Some (with_cells nb (cells_of nb)).
Proof.
  intros Hpath Hnb Hi Hmax call inserted.
  assert (i ≤ ssize_max) as Hmax' by (by unfold ssize_max).
  destruct (insert_cell_in_range params notebook_id s p nb i Hpath Hnb Hi Hmax')
    as (Hins & Hat & Hcell).
  set (cell := new_cell _ _) in *. set (cells' := _ ++ _ :: _) in *.
  assert (length (take (Z.to_nat i) (cells_of nb)) = Z.to_nat i) as Htake
    by (rewrite length_take; unfold len in Hi; lia).
  assert (delete (Z.to_nat i) cells' = cells_of nb) as Hback.
  { unfold cells'. rewrite <- Htake at 1. by rewrite delete_middle, take_drop. }
  assert (len cells' - 1 = len (cells_of nb)) as Hcount.
  { unfold cells', len. rewrite length_app, Htake. simpl. rewrite length_drop.
    unfold len in Hi. lia. }
  subst inserted call. rewrite Hins.
  rewrite (delete_cell_in_range _ _ _ p (with_cells nb cells') i cell);
    [|by apply names_path_insert|done|by apply lookup_insert_eq|lia|done].
  rewrite cells_of_with_cells, Hback, Hcount. split; [done|]. simpl.
  rewrite notebook_at_stored by (by rewrite Hat). by rewrite with_cells_twice.
Qed.

Lemma insert_then_delete_witness :
  let call : dict := {[ "cell_index" := JInt 1; "source" := JStr "c = 3" ]} in
  let inserted := (insert_cell NoLoop call (JStr "demo.ipynb") demo_settings).2 in
  (delete_cell NoLoop call (JStr "demo.ipynb") inserted).1
  = Ok {[ "success" := JBool true; "operation" := JStr "delete";
          "cell_count" := JInt 3 ]}
  ∧ notebook_at (delete_cell NoLoop call (JStr "demo.ipynb") inserted).2 "demo.ipynb"
    = Some (with_cells demo_notebook (cells_of demo_notebook)).
Proof.
  exact (insert_then_delete {[ "source" := JStr "c = 3" ]} (JStr "demo.ipynb")
           demo_settings "demo.ipynb" demo_notebook 1 eq_refl eq_refl
           ltac:(split; [lia|discriminate]) ltac:(discriminate)).
Defined.

Lemma cell_view_new_cell k cell_type source :
  cell_view k (new_cell cell_type source)
  = {[ "index" := JInt (Z.of_nat k); "cell_type" := cell_type; "source" := source;
       "outputs" := JList []; "metadata" := JDict ∅ ]}.
Proof. unfold cell_view, new_cell. by destruct (eq_str cell_type "code"). Qed.

(** X5. Called where no event loop is running, with an index i from 0 to
    the number of cells (and at most 2^63 - 1), [get_cell] at index i right
    after [insert_cell] at index i returns the cell just inserted: its index,
    the type and the source given, no outputs and empty metadata. *)
Theorem insert_then_get_cell params notebook_id s p nb i :
  names_path params notebook_id p → p ≠ "" →
  notebook_at s p = Some nb →
  0 ≤ i ≤ len (cells_of nb) → i ≤ 2 ^ 63 - 1 →
  let call := <["cell_index" := JInt i]> params in
  let inserted := (insert_cell NoLoop call notebook_id s).2 in
  get_cell NoLoop call notebook_id inserted
  = (Ok {[ "cell" := JDict {[ "index" := JInt i;
                             "cell_type" := py_get_default params "cell_type" (JStr "code");
                             "source" := py_get_default params "source" (JStr "");
                             "outputs" := JList [];
                             "metadata" := JDict ∅ ]} ]},
     inserted).
Proof.
  intros Hpath Hp Hnb Hi Hmax call inserted.
  assert (i ≤ ssize_max) as Hmax' by (by unfold ssize_max).
  destruct (insert_cell_in_range params notebook_id s p nb i Hpath Hnb Hi Hmax')
    as (Hins & Hat & Hcell).
  subst inserted call. rewrite Hins.
  erewrite (get_cell_in_range _ _ _ p _ i);
    [|by apply names_path_insert|done|done|by apply lookup_insert_eq|lia|done].
  rewrite cell_view_new_cell. by rewrite Z2Nat.id by lia.
Qed.

Lemma insert_then_get_cell_witness :
  let call : dict :=
    {[ "cell_index" := JInt 3; "cell_type" := JStr "markdown"; "source" := JStr "# End" ]} in
  let inserted := (insert_cell NoLoop call (JStr "demo.ipynb") demo_settings).2 in
  get_cell NoLoop call (JStr "demo.ipynb") inserted
  = (Ok {[ "cell" := JDict {[ "index" := JInt 3; "cell_type" := JStr "markdown";
                             "source" := JStr "# End"; "outputs" := JList [];
                             "metadata" := JDict ∅ ]} ]},
     inserted).
Proof.
  exact (insert_then_get_cell
           {[ "cell_type" := JStr "markdown"; "source" := JStr "# End" ]}
           (JStr "demo.ipynb") demo_settings "demo.ipynb" demo_notebook 3
           eq_refl ltac:(discriminate) eq_refl ltac:(split; [lia|discriminate])
           ltac:(discriminate)).
Defined.

(** X6. Called where no event loop is running, [get_cell] right after
    [update_cell] at the same index in range returns the cell with the new
    source, and with the type, outputs and metadata the cell had before. *)
Theorem update_then_get_cell params notebook_id s p nb k source cell :
  names_path params notebook_id p → p ≠ "" →
  notebook_at s p = Some nb →
  params !! "cell_index" = Some (JInt k) →
  params !! "source" = Some source → source ≠ JNull →
  0 ≤ k → cells_of nb !! Z.to_nat k = Some cell →
  let updated := (update_cell NoLoop params notebook_id s).2 in
  get_cell NoLoop params notebook_id updated
  = (Ok {[ "cell" := JDict {[ "index" := JInt k;
                             "cell_type" := py_get cell "cell_type";
                             "source" := source;
                             "outputs" := py_get_default cell "outputs" (JList []);
                             "metadata" := py_get_default cell "metadata" (JDict ∅) ]} ]},
     updated).
Proof.
  intros Hpath Hp Hnb Hidx Hsource Hsrc Hk Hcell updated.
  pose proof (lookup_lt_Some _ _ _ Hcell) as Hlt.
  unfold updated. rewrite (update_cell_in_range _ _ _ p nb k source cell) by done.
  simpl.
  erewrite (get_cell_in_range params _ _ p _ k);
    [|done|done|by apply notebook_at_stored; rewrite Hnb|done|done
     |by rewrite cells_of_with_cells, list_lookup_insert_eq].
  unfold cell_view, py_get, py_get_default.
  rewrite lookup_insert_eq, !lookup_insert_ne by done.
  by rewrite Z2Nat.id by lia.
Qed.

Lemma update_then_get_cell_witness :
  let call : dict := {[ "cell_index" := JInt 1; "source" := JStr "b = 3" ]} in
  let updated := (update_cell NoLoop call (JStr "demo.ipynb") demo_settings).2 in
  get_cell NoLoop call (JStr "demo.ipynb") updated
  = (Ok {[ "cell" := JDict {[ "index" := JInt 1; "cell_type" := JStr "code";
                             "source" := JStr "b = 3"; "outputs" := JList [];
                             "metadata" := JDict ∅ ]} ]},
     updated).
Proof.
  exact (update_then_get_cell {[ "cell_index" := JInt 1; "source" := JStr "b = 3" ]}
           (JStr "demo.ipynb") demo_settings "demo.ipynb" demo_notebook 1
           (JStr "b = 3") (demo_cell "b = 2")
           eq_refl ltac:(discriminate) eq_refl eq_refl eq_refl ltac:(discriminate)
           ltac:(lia) eq_refl).
Defined.

(** ** Reading the notebook *)

Lemma get_notebook_content_at params notebook_id s p nb :
  names_path params notebook_id p → p ≠ "" →
  notebook_at s p = Some nb →
  get_notebook_content NoLoop params notebook_id s
  = (Ok {[ "path" := JStr p;
           "cells" := JList (JDict <$> imap cell_view (cells_of nb));
           "metadata" := py_get_default (nb_rest nb) "metadata" (JDict ∅) ]}, s).
Proof.
  unfold names_path, notebook_at, cells_of. intros Hpath Hp Hnb.
  unfold get_notebook_content, notebook_content, bind. rewrite Hpath. simpl.
  destruct (String.eqb_spec p "") as [?|_]; [done|]. simpl.
  destruct (contents_manager s) as [cm|]; [|done]. by rewrite Hnb.
Qed.

(** X7. Called where no event loop is running, [get_notebook_content] lists
    one entry per cell of the notebook, in the order of the cells, each with
    its position as ["index"] and with the type, source, outputs and metadata
    of the cell, and [get_cell] at an index in range returns the entry of
    that index; neither changes the settings. *)
Theorem get_cell_is_content_entry params notebook_id s p nb k cell :
  names_path params notebook_id p → p ≠ "" →
  notebook_at s p = Some nb →
  0 ≤ k → cells_of nb !! Z.to_nat k = Some cell →
  ∃ entries : list dict,
    get_notebook_content NoLoop params notebook_id s
    = (Ok {[ "path" := JStr p;
             "cells" := JList (JDict <$> entries);
             "metadata" := py_get_default (nb_rest nb) "metadata" (JDict ∅) ]}, s)
    ∧ length entries = length (cells_of nb)
    ∧ (∀ j (other : dict), cells_of nb !! j = Some other →
         entries !! j
         = Some {[ "index" := JInt (Z.of_nat j);
                   "cell_type" := py_get other "cell_type";
                   "source" := py_get other "source";
                   "outputs" := py_get_default other "outputs" (JList []);
                   "metadata" := py_get_default other "metadata" (JDict ∅) ]})
    ∧ ∃ entry : dict,
        entries !! Z.to_nat k = Some entry
        ∧ get_cell NoLoop (<["cell_index" := JInt k]> params) notebook_id s
          = (Ok {[ "cell" := JDict entry ]}, s).
Proof.
  intros Hpath Hp Hnb Hk Hcell. exists (imap cell_view (cells_of nb)).
  split; [|split; [|split]].
  - by apply get_notebook_content_at.
  - apply length_imap.
  - intros j other Hother. by rewrite list_lookup_imap, Hother.
  - exists (cell_view (Z.to_nat k) cell). split.
    + by rewrite list_lookup_imap, Hcell.
    + apply (get_cell_in_range _ _ _ p nb); try done.
      * by apply names_path_insert.
      * by apply lookup_insert_eq.
Qed.

Lemma get_cell_is_content_entry_witness :
  ∃ entries : list dict,
    get_notebook_content NoLoop ∅ (JStr "demo.ipynb") demo_settings
    = (Ok {[ "path" := JStr "demo.ipynb";
             "cells" := JList (JDict <$> entries);
             "metadata" := py_get_default (nb_rest demo_notebook) "metadata" (JDict ∅) ]},
       demo_settings)
    ∧ length entries = length (cells_of demo_notebook)
    ∧ (∀ j (other : dict), cells_of demo_notebook !! j = Some other →
         entries !! j
         = Some {[ "index" := JInt (Z.of_nat j);
                   "cell_type" := py_get other "cell_type";
                   "source" := py_get other "source";
                   "outputs" := py_get_default other "outputs" (JList []);
                   "metadata" := py_get_default other "metadata" (JDict ∅) ]})
    ∧ ∃ entry : dict,
        entries !! Z.to_nat 2 = Some entry
        ∧ get_cell NoLoop (<["cell_index" := JInt 2]> ∅) (JStr "demo.ipynb") demo_settings
          = (Ok {[ "cell" := JDict entry ]}, demo_settings).
Proof.
  exact (get_cell_is_content_entry ∅ (JStr "demo.ipynb") demo_settings "demo.ipynb"
           demo_notebook 2 (demo_cell "a + b")
           eq_refl ltac:(discriminate) eq_refl ltac:(lia) eq_refl).
Defined.

(** ** Out of range, in place, and nothing else *)

(** X26. Called where no event loop is running, on a notebook with n cells,
    [get_cell] with an integer [cell_index] below 0 or not below n raises the
    [IndexError] that reports the index as out of range, no other exception,
    and leaves the settings (and so the notebook) as they were. *)
Theorem get_cell_out_of_range params notebook_id s p nb i :
  names_path params notebook_id p → p ≠ "" →
  notebook_at s p = Some nb →
  params !! "cell_index" = Some (JInt i) →
  i < 0 ∨ len (cells_of nb) ≤ i →
  get_cell NoLoop params notebook_id s
  = (Raise (IndexError ("Cell index " +:+ pretty i +:+ " out of range (0-"
                        +:+ pretty (len (cells_of nb) - 1) +:+ ")")), s).
Proof.
  intros Hpath Hp Hnb Hidx Hrange. unfold get_cell, bind.
  by rewrite (cell_at_out_of_range _ _ _ p nb i).
Qed.

Lemma get_cell_out_of_range_witness :
  get_cell NoLoop {[ "cell_index" := JInt 3 ]} (JStr "demo.ipynb") demo_settings
  = (Raise (IndexError "Cell index 3 out of range (0-2)"), demo_settings).
Proof.
  apply (get_cell_out_of_range _ _ _ "demo.ipynb" demo_notebook 3);
    [reflexivity | discriminate | reflexivity | reflexivity | right; vm_compute; discriminate].
Defined.

(** X27. Called where no event loop is running, on a notebook with n cells
    and for 0 <= k < n (n at most 2^63 - 1), [move_cell] from index k to
    index k succeeds and changes nothing: the settings afterwards are the
    settings before, so the notebook has the same cells in the same
    order. *)
Theorem move_cell_same_index params notebook_id s p nb k :
  names_path params notebook_id p →
  notebook_at s p = Some nb →
  len (cells_of nb) ≤ 2 ^ 63 - 1 →
  params !! "from_index" = Some (JInt k) →
  params !! "to_index" = Some (JInt k) →
  0 ≤ k < len (cells_of nb) →
  move_cell NoLoop params notebook_id s
  = (Ok {[ "success" := JBool true; "operation" := JStr "move";
           "cell_count" := JInt (len (cells_of nb)) ]}, s)
  ∧ cells_of <$> notebook_at s p = Some (cells_of nb).
Proof.
  intros Hpath Hnb Hmax Hfrom Hto Hk.
  assert (len (cells_of nb) ≤ ssize_max) as Hmax' by (by unfold ssize_max).
  split; [|by rewrite Hnb].
  rewrite (move_cell_unfold _ _ _ p k k) by done.
  destruct (list_item_in_range (cells_of nb) k Hk) as (cell & Hcell & _).
  assert (perform (Move (JInt k) (JInt k)) (cells_of nb) = Ok (cells_of nb)) as Hop.
  { simpl. rewrite in_range_test by done.
    assert ((k <? 0) || (len (cells_of nb) <? k) = false) as ->
      by (apply orb_false_iff; lia).
    rewrite (list_pop_in_range _ _ cell) by (done || lia). simpl.
    by rewrite pop_insert_same by (done || lia). }
  rewrite (modify_notebook_ok _ _ nb _ (cells_of nb)) by done.
  assert (stored p nb (cells_of nb) s = s) as ->; [|done].
  apply stored_same; [done|].
  unfold cells_of in *. destruct (nb_cells nb); [done|].
  simpl in Hk. unfold len in Hk. simpl in Hk. lia.
Qed.

Lemma move_cell_same_index_witness :
  move_cell NoLoop {[ "from_index" := JInt 1; "to_index" := JInt 1 ]} (JStr "demo.ipynb")
    demo_settings
  = (Ok {[ "success" := JBool true; "operation" := JStr "move";
           "cell_count" := JInt (len (cells_of demo_notebook)) ]}, demo_settings)
  ∧ cells_of <$> notebook_at demo_settings "demo.ipynb" = Some (cells_of demo_notebook).
Proof.
  exact (move_cell_same_index {[ "from_index" := JInt 1; "to_index" := JInt 1 ]}
           (JStr "demo.ipynb") demo_settings "demo.ipynb" demo_notebook 1
           eq_refl eq_refl ltac:(discriminate) eq_refl eq_refl
           ltac:(split; [lia|reflexivity])).
Defined.

(** C10. A successful [update_cell] at an index in range changes the
    ["source"] entry of the cell at that index and nothing else, whether an
    event loop is running or not: whenever the call returns, it returns the
    number of cells the notebook had, and the settings it leaves hold the
    notebook with that one entry replaced; the number of cells, every other
    cell, every other entry of the cell (its [cell_type], [metadata],
    [outputs] and [execution_count] among them), the other entries of the
    notebook and the other notebooks stay as they were. Called where no
    event loop is running, the call does return; called where one is
    running, as the dispatcher calls it, it raises the error of
    [run_until_complete] and there is no successful call to speak of. *)
Theorem update_cell_frame running params notebook_id s p nb k source cell :
  names_path params notebook_id p →
  notebook_at s p = Some nb →
  params !! "cell_index" = Some (JInt k) →
  params !! "source" = Some source →
  0 ≤ k → cells_of nb !! Z.to_nat k = Some cell →
  let cell' : dict := <["source" := source]> cell in
  let cells' := <[Z.to_nat k := cell']> (cells_of nb) in
  let s' := stored p nb cells' s in
  let done : dict :=
    {[ "success" := JBool true; "operation" := JStr "update";
       "cell_count" := JInt (len (cells_of nb)) ]} in
  (∀ (result : dict) after,
     update_cell running params notebook_id s = (Ok result, after) →
     result = done ∧ after = s')
  ∧ (source ≠ JNull → update_cell NoLoop params notebook_id s = (Ok done, s'))
  ∧ (source ≠ JNull →
     update_cell LoopRunning params notebook_id s
     = (Raise (RuntimeError "Cannot run the event loop while another loop is running"),
        s))
  ∧ notebook_at s' p = Some (with_cells nb cells')
  ∧ (∀ q, q ≠ p → notebook_at s' q = notebook_at s q)
  ∧ length cells' = length (cells_of nb)
  ∧ (∀ j, j ≠ Z.to_nat k → cells' !! j = cells_of nb !! j)
  ∧ cells' !! Z.to_nat k = Some cell'
  ∧ cell' !! "source" = Some source
  ∧ (∀ field, field ≠ "source" → cell' !! field = cell !! field).
Proof.
  intros Hpath Hnb Hidx Hsource Hk Hcell cell' cells' s' done.
  pose proof (lookup_lt_Some _ _ _ Hcell) as Hlt.
  assert (source ≠ JNull → update_cell NoLoop params notebook_id s = (Ok done, s'))
    as Hdirect.
  { intros Hsrc. by apply (update_cell_in_range _ _ _ p nb k source cell). }
  assert (source ≠ JNull →
          update_cell LoopRunning params notebook_id s = (Raise loop_error, s))
    as Hloop.
  { intros Hsrc. rewrite (update_cell_unfold _ _ _ p k source) by done.
    apply modify_notebook_under_loop. by apply (notebook_at_manager _ p nb). }
  assert (source = JNull →
          update_cell running params notebook_id s
          = (Raise (ValueError "source required"), s)) as Hnone.
  { intros ->. unfold update_cell. rewrite Hpath. cbn [is_None].
    unfold py_get. by rewrite Hidx, Hsource. }
  split; [|split; [exact Hdirect|split; [exact Hloop|]]].
  { intros result after Hcall.
    assert (source = JNull ∨ source ≠ JNull) as [Hsrc|Hsrc]
      by (destruct source; (by left) || (by right)).
    - by rewrite Hnone in Hcall.
    - destruct running; [rewrite Hdirect in Hcall by done|by rewrite Hloop in Hcall].
      by injection Hcall as <- <-. }
  repeat split.
  - unfold s'. by rewrite notebook_at_stored by (by rewrite Hnb).
  - intros q Hq. unfold s'. by rewrite notebook_at_stored_ne.
  - unfold cells'. by rewrite length_insert.
  - intros j Hj. unfold cells'. by rewrite list_lookup_insert_ne.
  - unfold cells'. by rewrite list_lookup_insert_eq.
  - unfold cell'. by rewrite lookup_insert_eq.
  - intros field Hfield. unfold cell'. by rewrite lookup_insert_ne.
Qed.

Lemma update_cell_frame_witness :
  let cell' : dict := <["source" := JStr "b = 3"]> (demo_cell "b = 2") in
  let cells' := <[Z.to_nat 1 := cell']> (cells_of demo_notebook) in
  let s' := stored "demo.ipynb" demo_notebook cells' demo_settings in
  let done : dict :=
    {[ "success" := JBool true; "operation" := JStr "update";
       "cell_count" := JInt (len (cells_of demo_notebook)) ]} in
  (∀ (result : dict) after,
     update_cell NoLoop {[ "cell_index" := JInt 1; "source" := JStr "b = 3" ]}
       (JStr "demo.ipynb") demo_settings = (Ok result, after) →
     result = done ∧ after = s')
  ∧ (JStr "b = 3" ≠ JNull →
     update_cell NoLoop {[ "cell_index" := JInt 1; "source" := JStr "b = 3" ]}
       (JStr "demo.ipynb") demo_settings = (Ok done, s'))
  ∧ (JStr "b = 3" ≠ JNull →
     update_cell LoopRunning {[ "cell_index" := JInt 1; "source" := JStr "b = 3" ]}
       (JStr "demo.ipynb") demo_settings
     = (Raise (RuntimeError "Cannot run the event loop while another loop is running"),
        demo_settings))
  ∧ notebook_at s' "demo.ipynb" = Some (with_cells demo_notebook cells')
  ∧ (∀ q, q ≠ "demo.ipynb" → notebook_at s' q = notebook_at demo_settings q)
  ∧ length cells' = length (cells_of demo_notebook)
  ∧ (∀ j, j ≠ Z.to_nat 1 → cells' !! j = cells_of demo_notebook !! j)
  ∧ cells' !! Z.to_nat 1 = Some cell'
  ∧ cell' !! "source" = Some (JStr "b = 3")
  ∧ (∀ field, field ≠ "source" → cell' !! field = demo_cell "b = 2" !! field).
Proof.
  exact (update_cell_frame NoLoop
           {[ "cell_index" := JInt 1; "source" := JStr "b = 3" ]}
           (JStr "demo.ipynb") demo_settings "demo.ipynb" demo_notebook 1
           (JStr "b = 3") (demo_cell "b = 2")
           eq_refl eq_refl eq_refl eq_refl ltac:(lia) eq_refl).
Defined.

(** ** Calls in sequence *)

(** The specification asks that concurrent [insert_cell] calls on one path
    lose no update, through a lock per path; [_modify_notebook] takes no
    lock, and what calls that overlap do is not a property of this model.
    Calls that follow one another, where no event loop is running, each add
    their cell. *)
Lemma insert_in_turn_count calls notebook_id p : ∀ s nb,
  Forall (inserts_into notebook_id p) calls →
  notebook_at s p = Some nb →
  ∃ nb', notebook_at (insert_in_turn calls notebook_id s) p = Some nb'
         ∧ len (cells_of nb') = len (cells_of nb) + len calls.
Proof.
  induction calls as [|params calls IH]; intros s nb Hall Hnb.
  - exists nb. split; [done|]. unfold len. simpl. lia.
  - apply Forall_cons in Hall as [[Hpath (i & Hidx & Hi)] Hall].
    cbn [insert_in_turn].
    rewrite (insert_cell_unfold NoLoop params notebook_id p i) by done.
    pose (cell := new_cell (py_get_default params "cell_type" (JStr "code"))
                           (py_get_default params "source" (JStr ""))).
    destruct (list_insert_at_position (cells_of nb) i cell Hi) as [Hat _].
    rewrite (modify_notebook_ok s p nb
               (Insert (JInt i) (py_get_default params "cell_type" (JStr "code"))
                       (py_get_default params "source" (JStr ""))) _ Hnb Hat).
    cbn [snd].
    edestruct IH as (nb' & Hnb' & Hlen); [done| |].
    { apply notebook_at_stored. by rewrite Hnb. }
    exists nb'. split; [done|]. rewrite Hlen.
    rewrite cells_of_with_cells. rewrite (length_list_insert_at _ _ _ _ Hat).
    unfold len. simpl. lia.
Qed.

(** ** Failures *)

Lemma modify_notebook_failure running path op s e s' :
  _modify_notebook running path op s = (Raise e, s') → s' = s.
Proof.
  unfold _modify_notebook.
  destruct (contents_manager s) as [cm|]; [|by intros [= _ <-]].
  destruct running; [|by intros [= _ <-]].
  unfold bind, run_until_complete, lift, save, ret.
  destruct (contents_get cm path) as [content|]; [|by intros [= _ <-]].
  destruct (perform op _) as [cells|]; [|by intros [= _ <-]].
  destruct (contents_save cm _ path) as [cm'|]; [done|by intros [= _ <-]].
Qed.

Lemma clear_outputs_failure running params notebook_id s e s' :
  clear_outputs running params notebook_id s = (Raise e, s') → s' = s.
Proof.
  unfold clear_outputs, raise.
  destruct (is_None _); [by intros [= _ <-]|].
  destruct (contents_manager s) as [cm|]; [|by intros [= _ <-]].
  destruct running; [|by intros [= _ <-]].
  unfold bind, run_until_complete, lift, save, ret.
  destruct (contents_get cm _) as [content|]; [|by intros [= _ <-]].
  destruct (cleared _ _) as [cells|]; [|by intros [= _ <-]].
  destruct (contents_save cm _ _) as [cm'|]; [done|by intros [= _ <-]].
Qed.

(** X8. A call of [insert_cell], [update_cell], [delete_cell], [move_cell] or
    [clear_outputs] that raises has saved nothing: the settings, and with
    them every notebook, are as before the call, whether an event loop is
    running or not. *)
Theorem failed_change_saves_nothing running params notebook_id s e s' :
  insert_cell running params notebook_id s = (Raise e, s')
  ∨ update_cell running params notebook_id s = (Raise e, s')
  ∨ delete_cell running params notebook_id s = (Raise e, s')
  ∨ move_cell running params notebook_id s = (Raise e, s')
  ∨ clear_outputs running params notebook_id s = (Raise e, s') →
  s' = s.
Proof.
  unfold insert_cell, update_cell, delete_cell, move_cell, raise.
  intros [H|[H|[H|[H|H]]]];
    [| | | |by apply clear_outputs_failure in H];
    repeat match type of H with
           | (if ?b then _ else _) _ = _ => destruct b; [by injection H as _ <-|]
           end;
    by apply modify_notebook_failure in H.
Qed.

Lemma failed_change_saves_nothing_witness :
  (delete_cell NoLoop {[ "cell_index" := JInt 3 ]} (JStr "demo.ipynb") demo_settings).2
  = demo_settings.
Proof.
  apply (failed_change_saves_nothing NoLoop {[ "cell_index" := JInt 3 ]}
           (JStr "demo.ipynb") demo_settings (IndexError "Cell index 3 out of range")).
  right. right. left. reflexivity.
Defined.

(** X9. Without a [cell_index] (absent or null), the methods that need one
    raise a [ValueError] whatever the settings hold and whether an event
    loop is running or not, so before any service is used: [get_cell] and
    [get_cell_outputs] report the index first, [insert_cell], [update_cell],
    [delete_cell] and [execute_cell] report a missing path first and the
    index otherwise. *)
Theorem missing_cell_index running py_repr params notebook_id s :
  py_get params "cell_index" = JNull →
  let first_missing :=
    if is_None (py_or notebook_id (py_get params "path"))
    then "Notebook path required" else "cell_index required" in
  get_cell running params notebook_id s = (Raise (ValueError "cell_index required"), s)
  ∧ get_cell_outputs running params notebook_id s
    = (Raise (ValueError "cell_index required"), s)
  ∧ insert_cell running params notebook_id s = (Raise (ValueError first_missing), s)
  ∧ update_cell running params notebook_id s = (Raise (ValueError first_missing), s)
  ∧ delete_cell running params notebook_id s = (Raise (ValueError first_missing), s)
  ∧ execute_cell running py_repr params notebook_id s
    = (Raise (ValueError first_missing), s).
Proof.
  intros Hidx first_missing.
  unfold get_cell, get_cell_outputs, cell_at, insert_cell, update_cell, delete_cell,
    execute_cell, bind, raise, first_missing.
  rewrite Hidx. cbn [is_None].
  by destruct (is_None _).
Qed.

Lemma missing_cell_index_witness :
  get_cell LoopRunning ∅ JNull demo_settings
  = (Raise (ValueError "cell_index required"), demo_settings)
  ∧ get_cell_outputs LoopRunning ∅ JNull demo_settings
    = (Raise (ValueError "cell_index required"), demo_settings)
  ∧ insert_cell LoopRunning ∅ JNull demo_settings
    = (Raise (ValueError "Notebook path required"), demo_settings)
  ∧ update_cell LoopRunning ∅ JNull demo_settings
    = (Raise (ValueError "Notebook path required"), demo_settings)
  ∧ delete_cell LoopRunning ∅ JNull demo_settings
    = (Raise (ValueError "Notebook path required"), demo_settings)
  ∧ execute_cell LoopRunning demo_repr ∅ JNull demo_settings
    = (Raise (ValueError "Notebook path required"), demo_settings).
Proof. exact (missing_cell_index LoopRunning demo_repr ∅ JNull demo_settings eq_refl). Defined.

(** ** Clearing outputs *)

Lemma clear_cell_code (cell : dict) :
  eq_str (py_get cell "cell_type") "code" = true →
  clear_cell cell !! "outputs" = Some (JList [])
  ∧ clear_cell cell !! "execution_count" = Some JNull
  ∧ ∀ k, k ≠ "outputs" → k ≠ "execution_count" → clear_cell cell !! k = cell !! k.
Proof.
  intros Hcode. unfold clear_cell. rewrite Hcode. repeat split.
  - by rewrite lookup_insert_ne, lookup_insert_eq.
  - by rewrite lookup_insert_eq.
  - intros k Ho He. by rewrite !lookup_insert_ne.
Qed.

Lemma clear_cell_other (cell : dict) :
  eq_str (py_get cell "cell_type") "code" = false → clear_cell cell = cell.
Proof. intros Hother. unfold clear_cell. by rewrite Hother. Qed.

Lemma clear_cell_twice (cell : dict) : clear_cell (clear_cell cell) = clear_cell cell.
Proof.
  destruct (eq_str (py_get cell "cell_type") "code") eqn:Hcode.
  - destruct (clear_cell_code cell Hcode) as (Ho & He & Hrest).
    assert (eq_str (py_get (clear_cell cell) "cell_type") "code" = true) as Hcode'.
    { unfold py_get. by rewrite Hrest. }
    destruct (clear_cell_code _ Hcode') as (Ho' & He' & Hrest').
    apply map_eq. intros k.
    destruct (decide (k = "outputs")) as [->|?]; [by rewrite Ho, Ho'|].
    destruct (decide (k = "execution_count")) as [->|?]; [by rewrite He, He'|].
    by rewrite Hrest'.
  - by rewrite !(clear_cell_other cell Hcode).
Qed.

(** [clear_outputs] on a notebook that is there: what [cleared] gives
    decides. *)
Lemma clear_outputs_ok params notebook_id s p nb cells :
  names_path params notebook_id p →
  notebook_at s p = Some nb →
  cleared (py_get params "cell_index") (cells_of nb) = Ok cells →
  clear_outputs NoLoop params notebook_id s
  = (Ok {[ "success" := JBool true;
           "cleared" := if is_None (py_get params "cell_index") then JStr "all"
                        else py_get params "cell_index" ]},
     stored p nb cells s).
Proof.
  unfold names_path, notebook_at, stored, cells_of. intros Hpath Hnb Hcleared.
  unfold clear_outputs. rewrite Hpath. cbn [is_None].
  destruct (contents_manager s) as [cm|]; [|done].
  unfold bind, run_until_complete, lift, save, ret. simpl.
  rewrite Hnb, Hcleared. done.
Qed.

Lemma clear_outputs_raise params notebook_id s p nb e :
  names_path params notebook_id p →
  notebook_at s p = Some nb →
  cleared (py_get params "cell_index") (cells_of nb) = Raise e →
  clear_outputs NoLoop params notebook_id s = (Raise e, s).
Proof.
  unfold names_path, notebook_at, cells_of. intros Hpath Hnb Hcleared.
  unfold clear_outputs. rewrite Hpath. cbn [is_None].
  destruct (contents_manager s) as [cm|]; [|done].
  unfold bind, run_until_complete, lift. simpl.
  rewrite Hnb, Hcleared. done.
Qed.

Lemma clear_outputs_all params notebook_id s p nb :
  names_path params notebook_id p →
  notebook_at s p = Some nb →
  py_get params "cell_index" = JNull →
  clear_outputs NoLoop params notebook_id s
  = (Ok {[ "success" := JBool true; "cleared" := JStr "all" ]},
     stored p nb (clear_cell <$> cells_of nb) s).
Proof.
  intros Hpath Hnb Hidx.
  rewrite (clear_outputs_ok _ _ _ p nb (clear_cell <$> cells_of nb));
    [by rewrite Hidx|done|done|by rewrite Hidx].
Qed.

(** X10. Called where no event loop is running, [clear_outputs] without a
    [cell_index] goes through every cell of the notebook: a code cell gets
    the outputs [[]] and the execution count [None] and keeps its other
    entries, any other cell is left as it is, and the cells stay as many and
    in their order. Doing it again changes nothing. *)
Theorem clear_outputs_everywhere params notebook_id s p nb :
  names_path params notebook_id p →
  notebook_at s p = Some nb →
  py_get params "cell_index" = JNull →
  let cells := cells_of nb in
  let done : dict := {[ "success" := JBool true; "cleared" := JStr "all" ]} in
  ∃ cells' : list dict,
    let s' := stored p nb cells' s in
    clear_outputs NoLoop params notebook_id s = (Ok done, s')
    ∧ notebook_at s' p = Some (with_cells nb cells')
    ∧ length cells' = length cells
    ∧ (∀ j (cell : dict), cells !! j = Some cell →
         ∃ cell' : dict, cells' !! j = Some cell'
           ∧ if eq_str (py_get cell "cell_type") "code"
             then cell' !! "outputs" = Some (JList [])
                  ∧ cell' !! "execution_count" = Some JNull
                  ∧ ∀ k, k ≠ "outputs" → k ≠ "execution_count" → cell' !! k = cell !! k
             else cell' = cell)
    ∧ clear_outputs NoLoop params notebook_id s' = (Ok done, s').
Proof.
  intros Hpath Hnb Hidx cells done. exists (clear_cell <$> cells).
  set (cells' := clear_cell <$> cells). intros s'.
  assert (notebook_at s' p = Some (with_cells nb cells')) as Hnb'
    by (unfold s'; by rewrite notebook_at_stored by (by rewrite Hnb)).
  split; [by apply clear_outputs_all|]. split; [done|].
  split; [apply length_fmap|]. split.
  - intros j cell Hcell. exists (clear_cell cell). split.
    + unfold cells'. by rewrite list_lookup_fmap, Hcell.
    + destruct (eq_str (py_get cell "cell_type") "code") eqn:Hcode.
      * by apply clear_cell_code.
      * by apply clear_cell_other.
  - rewrite (clear_outputs_all _ _ _ p (with_cells nb cells')) by done.
    f_equal. rewrite cells_of_with_cells.
    assert (clear_cell <$> cells' = cells') as ->.
    { unfold cells'. rewrite <- list_fmap_compose. apply list_fmap_ext.
      intros _ cell _. apply clear_cell_twice. }
    by apply stored_same.
Qed.

Lemma clear_outputs_everywhere_witness :
  let done : dict := {[ "success" := JBool true; "cleared" := JStr "all" ]} in
  ∃ cells' : list dict,
    let s' := stored "demo.ipynb" demo_notebook cells' demo_settings in
    clear_outputs NoLoop ∅ (JStr "demo.ipynb") demo_settings = (Ok done, s')
    ∧ notebook_at s' "demo.ipynb" = Some (with_cells demo_notebook cells')
    ∧ length cells' = length (cells_of demo_notebook)
    ∧ (∀ j (cell : dict), cells_of demo_notebook !! j = Some cell →
         ∃ cell' : dict, cells' !! j = Some cell'
           ∧ if eq_str (py_get cell "cell_type") "code"
             then cell' !! "outputs" = Some (JList [])
                  ∧ cell' !! "execution_count" = Some JNull
                  ∧ ∀ k, k ≠ "outputs" → k ≠ "execution_count" → cell' !! k = cell !! k
             else cell' = cell)
    ∧ clear_outputs NoLoop ∅ (JStr "demo.ipynb") s' = (Ok done, s').
Proof.
  exact (clear_outputs_everywhere ∅ (JStr "demo.ipynb") demo_settings "demo.ipynb"
           demo_notebook eq_refl eq_refl eq_refl).
Defined.

Lemma clear_outputs_one params notebook_id s p nb k cell :
  names_path params notebook_id p →
  notebook_at s p = Some nb →
  params !! "cell_index" = Some (JInt k) →
  0 ≤ k → cells_of nb !! Z.to_nat k = Some cell →
  clear_outputs NoLoop params notebook_id s
  = (Ok {[ "success" := JBool true; "cleared" := JInt k ]},
     stored p nb (<[Z.to_nat k := clear_cell cell]> (cells_of nb)) s).
Proof.
  intros Hpath Hnb Hidx Hk Hcell. pose proof (lookup_lt_Some _ _ _ Hcell) as Hlt.
  assert (py_get params "cell_index" = JInt k) as Hget
    by (unfold py_get; by rewrite Hidx).
  rewrite (clear_outputs_ok _ _ _ p nb (<[Z.to_nat k := clear_cell cell]> (cells_of nb)));
    [by rewrite Hget|done|done|].
  rewrite Hget. unfold cleared. cbn [is_None int_operand int_like mbind result_bind].
  rewrite in_range_test by (unfold len; lia).
  unfold list_update, list_item. destruct (Z.ltb_spec k 0) as [?|_]; [lia|].
  rewrite in_range_test by (unfold len; lia). by rewrite Hcell.
Qed.

Lemma clear_outputs_out_of_range params notebook_id s p nb j :
  names_path params notebook_id p →
  notebook_at s p = Some nb →
  params !! "cell_index" = Some (JInt j) →
  j < 0 ∨ len (cells_of nb) ≤ j →
  clear_outputs NoLoop params notebook_id s
  = (Raise (IndexError ("Cell index " +:+ pretty j +:+ " out of range")), s).
Proof.
  intros Hpath Hnb Hidx Hj.
  assert (py_get params "cell_index" = JInt j) as Hget
    by (unfold py_get; by rewrite Hidx).
  apply (clear_outputs_raise _ _ _ p nb); [done..|].
  rewrite Hget. unfold cleared. cbn [is_None int_operand int_like mbind result_bind].
  by rewrite out_of_range_test.
Qed.

(** X11. Called where no event loop is running, [clear_outputs] with an
    index in range changes the cell at that index only, and answers with the
    index: a code cell gets the outputs [[]] and the execution count [None]
    and keeps its other entries, and a cell of another type is left as it
    is. With an index out of range it raises an [IndexError] and saves
    nothing. *)
Theorem clear_outputs_at_index params notebook_id s p nb k cell j :
  names_path params notebook_id p →
  notebook_at s p = Some nb →
  0 ≤ k → cells_of nb !! Z.to_nat k = Some cell →
  j < 0 ∨ len (cells_of nb) ≤ j →
  ∃ cell' : dict,
    let cells' := <[Z.to_nat k := cell']> (cells_of nb) in
    let s' := stored p nb cells' s in
    clear_outputs NoLoop (<["cell_index" := JInt k]> params) notebook_id s
    = (Ok {[ "success" := JBool true; "cleared" := JInt k ]}, s')
    ∧ notebook_at s' p = Some (with_cells nb cells')
    ∧ (∀ i, i ≠ Z.to_nat k → cells' !! i = cells_of nb !! i)
    ∧ cells' !! Z.to_nat k = Some cell'
    ∧ (if eq_str (py_get cell "cell_type") "code"
       then cell' !! "outputs" = Some (JList [])
            ∧ cell' !! "execution_count" = Some JNull
            ∧ ∀ field, field ≠ "outputs" → field ≠ "execution_count" →
                cell' !! field = cell !! field
       else cell' = cell)
    ∧ clear_outputs NoLoop (<["cell_index" := JInt j]> params) notebook_id s
      = (Raise (IndexError ("Cell index " +:+ pretty j +:+ " out of range")), s).
Proof.
  intros Hpath Hnb Hk Hcell Hj. exists (clear_cell cell). intros cells' s'.
  pose proof (lookup_lt_Some _ _ _ Hcell) as Hlt.
  split; [|split; [|split; [|split; [|split]]]].
  - apply (clear_outputs_one _ _ _ p nb k cell); try done.
    + by apply names_path_insert.
    + by apply lookup_insert_eq.
  - unfold s'. by rewrite notebook_at_stored by (by rewrite Hnb).
  - intros i Hi. unfold cells'. by rewrite list_lookup_insert_ne.
  - unfold cells'. by rewrite list_lookup_insert_eq.
  - destruct (eq_str (py_get cell "cell_type") "code") eqn:Hcode.
    + by apply clear_cell_code.
    + by apply clear_cell_other.
  - apply (clear_outputs_out_of_range _ _ _ p nb j); try done.
    + by apply names_path_insert.
    + by apply lookup_insert_eq.
Qed.

Lemma clear_outputs_at_index_witness :
  ∃ cell' : dict,
    let cells' := <[Z.to_nat 1 := cell']> (cells_of demo_notebook) in
    let s' := stored "demo.ipynb" demo_notebook cells' demo_settings in
    clear_outputs NoLoop (<["cell_index" := JInt 1]> ∅) (JStr "demo.ipynb") demo_settings
    = (Ok {[ "success" := JBool true; "cleared" := JInt 1 ]}, s')
    ∧ notebook_at s' "demo.ipynb" = Some (with_cells demo_notebook cells')
    ∧ (∀ i, i ≠ Z.to_nat 1 → cells' !! i = cells_of demo_notebook !! i)
    ∧ cells' !! Z.to_nat 1 = Some cell'
    ∧ (if eq_str (py_get (demo_cell "b = 2") "cell_type") "code"
       then cell' !! "outputs" = Some (JList [])
            ∧ cell' !! "execution_count" = Some JNull
            ∧ ∀ field, field ≠ "outputs" → field ≠ "execution_count" →
                cell' !! field = demo_cell "b = 2" !! field
       else cell' = demo_cell "b = 2")
    ∧ clear_outputs NoLoop (<["cell_index" := JInt 3]> ∅) (JStr "demo.ipynb")
        demo_settings
      = (Raise (IndexError ("Cell index " +:+ pretty 3 +:+ " out of range")),
         demo_settings).
Proof.
  apply (clear_outputs_at_index ∅ (JStr "demo.ipynb") demo_settings "demo.ipynb"
           demo_notebook 1 (demo_cell "b = 2") 3);
    [reflexivity | reflexivity | lia | reflexivity | right; discriminate].
Defined.

(** ** Collecting the outputs of an execution *)

Lemma eqb_not_collected (t u : string) :
  t ∉ collected_types → u ∈ collected_types → String.eqb t u = false.
Proof. intros Ht Hu. apply String.eqb_neq. by intros ->. Qed.

(** One turn of the loop on a message that is not the [idle] status of the
    request: what the message adds is appended and the loop goes on. *)
Lemma collect_step msg_id m entries feed outputs :
  appends msg_id m entries →
  collect msg_id (Ok m :: feed) outputs = collect msg_id feed (outputs ++ entries).
Proof.
  unfold own. intros H. cbn [collect].
  destruct H as [Hp|name text Hp Ht Hname Htext|data Hp Ht Hdata
                |ename evalue traceback Hp Ht Hename Hevalue Htraceback
                |state Hp Ht Hstate Hidle|Hp Ht];
    [rewrite (eq_str_ne _ _ Hp)|rewrite Hp..];
    cbn [eq_str]; rewrite ?String.eqb_refl; cbn [negb].
  - by rewrite app_nil_r.
  - rewrite Ht. cbn. unfold py_item. by rewrite Hname, Htext.
  - unfold py_item. rewrite Hdata. by destruct Ht as [-> | ->].
  - rewrite Ht. cbn. unfold py_item. by rewrite Hename, Hevalue, Htraceback.
  - rewrite Ht. cbn. unfold py_item. rewrite Hstate. cbn.
    by rewrite (eq_str_ne _ _ Hidle), app_nil_r.
  - rewrite !(eqb_not_collected (msg_type m)) by (done || set_solver).
    by rewrite app_nil_r.
Qed.

(** The loop on a run of such messages. *)
Lemma collect_messages msg_id messages entries feed : ∀ outputs,
  Forall2 (appends msg_id) messages entries →
  collect msg_id ((Ok <$> messages) ++ feed) outputs
  = collect msg_id feed (outputs ++ concat entries).
Proof.
  intros outputs Hall. revert outputs.
  induction Hall as [|m e messages entries Hm _ IH]; intros outputs.
  - by rewrite app_nil_r.
  - rewrite fmap_cons, <- app_comm_cons, (collect_step _ _ e) by done.
    rewrite IH. simpl. by rewrite app_assoc.
Qed.

(** The loop stops at the [idle] status of the request and at a wait that
    raises [TimeoutError], and what follows is never asked for. *)
Lemma collect_end msg_id last rest outputs :
  ends_run msg_id last → collect msg_id (last :: rest) outputs = Ok outputs.
Proof.
  intros [(m & -> & Hp & Ht & Hstate) | ->]; [|done].
  unfold own in Hp. cbn [collect]. rewrite Hp, Ht. cbn.
  rewrite String.eqb_refl. cbn. unfold py_item. by rewrite Hstate.
Qed.

(** Any other exception of a wait leaves the loop. *)
Lemma collect_raise msg_id e rest outputs :
  e ≠ TimeoutError → collect msg_id (Raise e :: rest) outputs = Raise e.
Proof. by destruct e. Qed.

(** The messages built from events are of the shapes above. *)
Lemma appends_event msg_id e : appends msg_id (event_message msg_id e) (event_outputs e).
Proof.
  destruct e as [name text|data [md|]|data [md|]|ename evalue traceback| |code]; simpl.
  - by apply appends_stream.
  - data_event (Result data (Some md)) data;
      [by rewrite lookup_insert_eq|by left|by rewrite lookup_insert_ne, lookup_singleton_eq].
  - data_event (Result data None) data;
      [by rewrite lookup_singleton_ne|by left|by rewrite lookup_singleton_eq].
  - data_event (Display data (Some md)) data;
      [by rewrite lookup_insert_eq|by right|by rewrite lookup_insert_ne, lookup_singleton_eq].
  - data_event (Display data None) data;
      [by rewrite lookup_singleton_ne|by right|by rewrite lookup_singleton_eq].
  - by apply appends_error.
  - by apply (appends_status _ _ (JStr "busy")).
  - apply appends_other; [done|]. apply (bool_decide_unpack _). reflexivity.
Qed.

Lemma appends_events msg_id events :
  Forall2 (appends msg_id) (event_message msg_id <$> events) (event_outputs <$> events).
Proof. induction events; constructor; [apply appends_event|done]. Qed.

Lemma is_idle_message msg_id : is_idle msg_id (idle_message msg_id).
Proof. done. Qed.

(** What the lookups of the kernel make of sessions described by their path
    and their kernel identifier. *)
Lemma session_has_path_true path ses :
  has_path path ses → session_has_path path ses = true.
Proof.
  unfold has_path, session_has_path. intros <-.
  destruct (session_path ses) as [q|]; simpl; [apply String.eqb_refl|done].
Qed.

Lemma session_has_path_false path ses :
  ¬ has_path path ses → session_has_path path ses = false.
Proof.
  unfold has_path, session_has_path. intros Hne.
  destruct (session_path ses) as [q|], path as [| | |r| |]; simpl in *; try done.
  destruct (String.eqb_spec q r) as [->|]; [by destruct Hne|done].
Qed.

Lemma session_kernel_id_of ses : session_kernel_id ses = kernel_id_of ses.
Proof. unfold session_kernel_id, kernel_id_of. by destruct (session_kernel ses). Qed.

Lemma no_id_false id : id ≠ "" → no_id (Some id) = false.
Proof. intros Hne. unfold no_id. simpl. by destruct (String.eqb_spec id ""). Qed.

Lemma no_id_true (o : option string) : o = None ∨ o = Some "" → no_id o = true.
Proof. by intros [-> | ->]. Qed.

Lemma find_kernel_id_first path before ses after :
  Forall (λ other, ¬ has_path path other) before → has_path path ses →
  find_kernel_id path (before ++ ses :: after) = kernel_id_of ses.
Proof.
  intros Hbefore Hses. unfold find_kernel_id.
  rewrite (find_after _ before ses).
  - apply session_kernel_id_of.
  - eapply Forall_impl; [exact Hbefore|]. intros other. apply session_has_path_false.
  - by apply session_has_path_true.
Qed.

(** [execute_code], called where no event loop is running, once the kernel
    of the notebook is found. *)
Lemma run_code_runs py_repr params notebook_id s code msg_id feed :
  params !! "code" = Some code → code ≠ JNull →
  runs s (py_or notebook_id (py_get params "path")) code msg_id feed →
  run_code NoLoop py_repr params notebook_id s = (collect msg_id feed [], s).
Proof.
  intros Hcode Hnone
    (sessions & km & before & ses & after & id & k
     & Hsm & Hkm & -> & Hbefore & Hses & Hkernel & Hne & Hk & Hex & Hfeed).
  assert (is_None code = false) as Hnot by (by destruct code).
  assert (no_id (Some id) = false) as Hid' by (by apply no_id_false).
  assert (find_kernel_id (py_or notebook_id (py_get params "path"))
            (before ++ ses :: after) = Some id) as Hid
    by (by rewrite find_kernel_id_first).
  assert (py_get params "code" = code) as Hget by (unfold py_get; by rewrite Hcode).
  unfold run_code, bind, kernel_services, run_until_complete, lift, get_kernel, ret.
  cbv zeta. rewrite Hget, Hnot, Hsm, Hkm. unfold bind. cbv beta iota.
  by rewrite Hid, Hid', Hk, Hex, Hfeed.
Qed.

Lemma execute_code_runs py_repr params notebook_id s code msg_id feed :
  params !! "code" = Some code → code ≠ JNull →
  runs s (py_or notebook_id (py_get params "path")) code msg_id feed →
  execute_code NoLoop py_repr params notebook_id s
  = (execution_result <$> collect msg_id feed [], s).
Proof.
  intros Hcode Hnone Hruns. unfold execute_code, bind, ret.
  rewrite (run_code_runs _ _ _ _ _ _ _ Hcode Hnone Hruns).
  by destruct (collect _ _ _).
Qed.

(** Whenever [execute_code] returns, ["success"] is true. *)
Lemma execute_code_success running py_repr params notebook_id s (result : dict) s' :
  execute_code running py_repr params notebook_id s = (Ok result, s') →
  result !! "success" = Some (JBool true).
Proof.
  unfold execute_code, bind, ret.
  destruct (run_code running py_repr params notebook_id s) as [[outputs|e] s1]; [|done].
  by intros [= <- _].
Qed.

(** [execute_code] on a run of messages closed by the [idle] status of the
    request or by a wait that raises [TimeoutError]: either way the outputs
    so far are returned, with ["success"] true. *)
Lemma execute_code_closed
    py_repr params notebook_id s code msg_id messages entries last rest :
  params !! "code" = Some code → code ≠ JNull →
  Forall2 (appends msg_id) messages entries →
  ends_run msg_id last →
  runs s (py_or notebook_id (py_get params "path")) code msg_id
       ((Ok <$> messages) ++ last :: rest) →
  execute_code NoLoop py_repr params notebook_id s
  = (Ok {[ "outputs" := JList (JDict <$> concat entries); "success" := JBool true ]}, s).
Proof.
  intros Hcode Hnone Hall Hlast Hruns.
  rewrite (execute_code_runs _ _ _ _ _ _ _ Hcode Hnone Hruns).
  by rewrite (collect_messages _ _ entries), collect_end.
Qed.

(** [execute_code] on a run of messages followed by a wait that raises
    anything else. *)
Lemma execute_code_raised
    py_repr params notebook_id s code msg_id messages entries e rest :
  params !! "code" = Some code → code ≠ JNull →
  Forall2 (appends msg_id) messages entries →
  e ≠ TimeoutError →
  runs s (py_or notebook_id (py_get params "path")) code msg_id
       ((Ok <$> messages) ++ Raise e :: rest) →
  execute_code NoLoop py_repr params notebook_id s = (Raise e, s).
Proof.
  intros Hcode Hnone Hall He Hruns.
  rewrite (execute_code_runs _ _ _ _ _ _ _ Hcode Hnone Hruns).
  by rewrite (collect_messages _ _ entries), collect_raise.
Qed.

Lemma runs_demo code feed :
  runs (kernel_settings feed) (JStr "demo.ipynb") code "msg-1" feed.
Proof.
  exists [demo_session], {[ "k1" := demo_kernel feed ]}, [], demo_session, [],
         "k1", (demo_kernel feed).
  repeat split; (reflexivity || discriminate || constructor).
Qed.

(** In a thread where an event loop is running, [execute_code] fails at
    [run_until_complete(list_sessions())], before a kernel is looked for. *)
Lemma execute_code_under_loop py_repr params notebook_id s code :
  params !! "code" = Some code → code ≠ JNull →
  is_Some (session_manager s) → is_Some (kernel_manager s) →
  execute_code LoopRunning py_repr params notebook_id s = (Raise loop_error, s).
Proof.
  intros Hcode Hnone Hsm Hkm.
  assert (is_None code = false) as Hnot by (by destruct code).
  assert (py_get params "code" = code) as Hget by (unfold py_get; by rewrite Hcode).
  unfold execute_code, run_code, bind. cbv zeta. rewrite Hget, Hnot.
  by rewrite kernel_services_under_loop.
Qed.

Lemma runs_services s path code msg_id feed :
  runs s path code msg_id feed → is_Some (session_manager s) ∧ is_Some (kernel_manager s).
Proof. intros (sessions & km & before & ses & after & id & k & -> & -> & _). by split. Qed.

(** C1. When the wait for the next message times out before the [idle]
    status of the execution has come, [get_iopub_msg] raises [queue.Empty],
    which [except TimeoutError] does not catch: [execute_code], called where
    no event loop is running, raises it and returns nothing, the outputs
    collected so far included. Were the wait to raise the built-in
    [TimeoutError], the loop would end and the outputs so far be returned
    with ["success"] true. And whenever [execute_code] returns, in any run
    and whether an event loop is running or not, ["success"] is true: it
    never reports ["success"] false. Called where a loop is running, as the
    dispatcher calls it, it does not get as far as a wait: it raises the
    error of [run_until_complete]. *)
Theorem execute_code_on_timeout
    running py_repr params notebook_id s code msg_id messages entries rest :
  params !! "code" = Some code → code ≠ JNull →
  Forall2 (appends msg_id) messages entries →
  let path := py_or notebook_id (py_get params "path") in
  (runs s path code msg_id ((Ok <$> messages) ++ Raise Empty :: rest) →
     execute_code NoLoop py_repr params notebook_id s = (Raise Empty, s))
  ∧ (runs s path code msg_id ((Ok <$> messages) ++ Raise TimeoutError :: rest) →
     execute_code NoLoop py_repr params notebook_id s
     = (Ok {[ "outputs" := JList (JDict <$> concat entries); "success" := JBool true ]},
        s))
  ∧ (∀ (result : dict) s',
       execute_code running py_repr params notebook_id s = (Ok result, s') →
       result !! "success" = Some (JBool true))
  ∧ (∀ feed, runs s path code msg_id feed →
       execute_code LoopRunning py_repr params notebook_id s
       = (Raise (RuntimeError "Cannot run the event loop while another loop is running"),
          s)).
Proof.
  intros Hcode Hnone Hall path. split; [|split; [|split]].
  - intros Hruns.
    by apply (execute_code_raised _ _ _ _ code msg_id messages entries Empty rest).
  - intros Hruns.
    apply (execute_code_closed _ _ _ _ code msg_id messages entries
             (Raise TimeoutError) rest); auto.
    by right.
  - intros result s'. apply execute_code_success.
  - intros feed Hruns. destruct (runs_services _ _ _ _ _ Hruns) as [Hsm Hkm].
    by apply (execute_code_under_loop _ _ _ _ code).
Qed.

Lemma execute_code_on_timeout_witness :
  execute_code NoLoop demo_repr {[ "code" := JStr "print(1)" ]} (JStr "demo.ipynb")
    (kernel_settings timeout_feed)
  = (Raise Empty, kernel_settings timeout_feed)
  ∧ execute_code NoLoop demo_repr {[ "code" := JStr "print(1)" ]} (JStr "demo.ipynb")
      (kernel_settings late_run)
    = (Ok {[ "outputs" :=
               JList [JDict {[ "output_type" := JStr "stream"; "name" := JStr "stdout";
                               "text" := JStr "1
" ]}];
             "success" := JBool true ]},
       kernel_settings late_run)
  ∧ execute_code LoopRunning demo_repr {[ "code" := JStr "print(1)" ]} (JStr "demo.ipynb")
      (kernel_settings timeout_feed)
    = (Raise (RuntimeError "Cannot run the event loop while another loop is running"),
       kernel_settings timeout_feed).
Proof.
  split; [|split].
  - refine (proj1 (execute_code_on_timeout NoLoop demo_repr
                     {[ "code" := JStr "print(1)" ]}
                     (JStr "demo.ipynb") (kernel_settings timeout_feed)
                     (JStr "print(1)") "msg-1"
                     (event_message "msg-1" <$> [one_stream])
                     (event_outputs <$> [one_stream]) []
                     eq_refl _ _) _).
    + discriminate.
    + apply appends_events.
    + apply runs_demo.
  - refine (proj1 (proj2 (execute_code_on_timeout NoLoop demo_repr
                            {[ "code" := JStr "print(1)" ]}
                            (JStr "demo.ipynb") (kernel_settings late_run)
                            (JStr "print(1)") "msg-1"
                            (event_message "msg-1" <$> [Busy; one_stream])
                            (event_outputs <$> [Busy; one_stream])
                            [Ok (event_message "msg-1" one_result);
                             Ok (idle_message "msg-1")]
                            eq_refl _ _)) _).
    + discriminate.
    + apply appends_events.
    + apply runs_demo.
  - refine (proj2 (proj2 (proj2 (execute_code_on_timeout NoLoop demo_repr
                                   {[ "code" := JStr "print(1)" ]}
                                   (JStr "demo.ipynb") (kernel_settings timeout_feed)
                                   (JStr "print(1)") "msg-1"
                                   (event_message "msg-1" <$> [one_stream])
                                   (event_outputs <$> [one_stream]) []
                                   eq_refl _ _))) timeout_feed _).
    + discriminate.
    + apply appends_events.
    + apply runs_demo.
Defined.





(** ** Runs of [execute_code] where no event loop is running *)

(** X29. Called where no event loop is running, in a run of [execute_code],
    messages with another parent than the submitted execution are dropped,
    each stream, result, display and error event of the execution appends
    its output entry, in the order of arrival, and the [idle] status of the
    execution ends the run, which returns exactly the outputs appended so far
    with ["success"] true. In particular the events [Stream("stdout",
    "1\n"), Result({"text/plain": "1"}), Idle] give the stream entry, then
    the result entry, and ["success"] true. *)
Theorem execute_code_until_idle
    py_repr params notebook_id s code msg_id messages entries idle rest :
  params !! "code" = Some code → code ≠ JNull →
  Forall2 (appends msg_id) messages entries →
  is_idle msg_id idle →
  runs s (py_or notebook_id (py_get params "path")) code msg_id
       ((Ok <$> messages) ++ Ok idle :: rest) →
  execute_code NoLoop py_repr params notebook_id s
  = (Ok {[ "outputs" := JList (JDict <$> concat entries); "success" := JBool true ]}, s)
  ∧ execute_code NoLoop py_repr {[ "code" := JStr "print(1); 1" ]} (JStr "demo.ipynb")
      (kernel_settings stream_result_idle)
    = (Ok {[ "outputs" :=
               JList [JDict {[ "output_type" := JStr "stream"; "name" := JStr "stdout";
                               "text" := JStr "1
" ]};
                      JDict {[ "output_type" := JStr "execute_result";
                               "data" := JDict {[ "text/plain" := JStr "1" ]};
                               "metadata" := JDict ∅ ]}];
             "success" := JBool true ]},
       kernel_settings stream_result_idle).
Proof.
  intros Hcode Hnone Hall Hidle Hruns. split.
  - apply (execute_code_closed _ _ _ _ code msg_id messages entries (Ok idle) rest);
      auto.
    left. by exists idle.
  - assert (ends_run "msg-1" (Ok (idle_message "msg-1"))) as Hend
      by (left; eexists; split; [done|apply is_idle_message]).
    exact (execute_code_closed py_repr {[ "code" := JStr "print(1); 1" ]}
             (JStr "demo.ipynb") (kernel_settings stream_result_idle)
             (JStr "print(1); 1") "msg-1" _ _ _ [] eq_refl ltac:(discriminate)
             (appends_events "msg-1" [one_stream; one_result]) Hend
             (runs_demo _ _)).
Qed.

Lemma execute_code_until_idle_witness :
  execute_code NoLoop demo_repr {[ "code" := JStr "print(1); 1" ]} (JStr "demo.ipynb")
    (kernel_settings busy_run)
  = (Ok {[ "outputs" :=
             JList [JDict {[ "output_type" := JStr "stream"; "name" := JStr "stdout";
                             "text" := JStr "1
" ]};
                    JDict {[ "output_type" := JStr "execute_result";
                             "data" := JDict {[ "text/plain" := JStr "1" ]};
                             "metadata" := JDict ∅ ]}];
           "success" := JBool true ]},
     kernel_settings busy_run).
Proof.
  refine (proj1 (execute_code_until_idle demo_repr {[ "code" := JStr "print(1); 1" ]}
                   (JStr "demo.ipynb") (kernel_settings busy_run)
                   (JStr "print(1); 1") "msg-1"
                   (stray_message
                    :: (event_message "msg-1" <$> [Busy; Input (JStr "print(1); 1");
                                                   one_stream; one_result]))
                   ([] :: (event_outputs <$> [Busy; Input (JStr "print(1); 1");
                                              one_stream; one_result]))
                   (idle_message "msg-1") [Ok (event_message "msg-1" one_stream)]
                   eq_refl _ _ _ _)).
  - discriminate.
  - constructor; [by apply appends_foreign|apply appends_events].
  - apply is_idle_message.
  - apply runs_demo.
Defined.

(** X30. Called where no event loop is running, in a run of [execute_code],
    an error event of the execution appends the entry with its name, message
    and trace, and the run goes on: the events after it are collected as
    well, and the run returns at the [idle] status of the execution or at a
    wait that raises [TimeoutError]. *)
Theorem execute_code_error_not_terminal
    py_repr params notebook_id s code msg_id
    before entries_before failure ename evalue traceback after entries_after last rest :
  params !! "code" = Some code → code ≠ JNull →
  Forall2 (appends msg_id) before entries_before →
  is_error msg_id failure ename evalue traceback →
  Forall2 (appends msg_id) after entries_after →
  ends_run msg_id last →
  runs s (py_or notebook_id (py_get params "path")) code msg_id
       ((Ok <$> before) ++ Ok failure :: (Ok <$> after) ++ last :: rest) →
  let entry : dict :=
    {[ "output_type" := JStr "error"; "ename" := ename; "evalue" := evalue;
       "traceback" := traceback ]} in
  execute_code NoLoop py_repr params notebook_id s
  = (Ok {[ "outputs" := JList (JDict <$> (concat entries_before
                                          ++ entry :: concat entries_after));
           "success" := JBool true ]}, s)
  ∧ ∀ feed outputs,
      collect msg_id (Ok failure :: feed) outputs
      = collect msg_id feed (outputs ++ [entry]).
Proof.
  intros Hcode Hnone Hbefore (Hp & Ht & Hename & Hevalue & Htraceback) Hafter Hlast Hruns
    entry.
  assert (appends msg_id failure [entry]) as Hfailure by (by apply appends_error).
  split.
  - assert (concat entries_before ++ entry :: concat entries_after
            = concat (entries_before ++ [entry] :: entries_after)) as ->.
    { by rewrite concat_app, concat_cons. }
    apply (execute_code_closed _ _ _ _ code msg_id (before ++ failure :: after) _
             last rest); auto.
    + apply Forall2_app; [done|]. by constructor.
    + by rewrite fmap_app, fmap_cons, <- app_assoc, <- app_comm_cons.
  - intros feed outputs. by apply collect_step.
Qed.

Lemma execute_code_error_not_terminal_witness :
  execute_code NoLoop demo_repr {[ "code" := JStr "print(1); 1/0" ]} (JStr "demo.ipynb")
    (kernel_settings failing_run)
  = (Ok {[ "outputs" :=
             JList [JDict {[ "output_type" := JStr "stream"; "name" := JStr "stdout";
                             "text" := JStr "1
" ]};
                    JDict {[ "output_type" := JStr "error";
                             "ename" := JStr "ZeroDivisionError";
                             "evalue" := JStr "division by zero";
                             "traceback" :=
                               JList [JStr "Traceback (most recent call last)"] ]};
                    JDict {[ "output_type" := JStr "stream"; "name" := JStr "stderr";
                             "text" := JStr "done" ]}];
           "success" := JBool true ]},
     kernel_settings failing_run).
Proof.
  refine (proj1 (execute_code_error_not_terminal demo_repr
                   {[ "code" := JStr "print(1); 1/0" ]} (JStr "demo.ipynb")
                   (kernel_settings failing_run) (JStr "print(1); 1/0") "msg-1"
                   (event_message "msg-1" <$> [Busy; one_stream])
                   (event_outputs <$> [Busy; one_stream])
                   (event_message "msg-1" division_error)
                   (JStr "ZeroDivisionError") (JStr "division by zero")
                   (JList [JStr "Traceback (most recent call last)"])
                   (event_message "msg-1" <$> [Stream (JStr "stderr") (JStr "done")])
                   (event_outputs <$> [Stream (JStr "stderr") (JStr "done")])
                   (Ok (idle_message "msg-1")) []
                   eq_refl _ _ _ _ _ _)).
  - discriminate.
  - apply appends_events.
  - done.
  - apply appends_events.
  - left. eexists. split; [done|]. apply is_idle_message.
  - apply runs_demo.
Defined.

(** ** Runs that fail *)

(** X12. Called where no event loop is running, when a wait for the next
    message raises anything but the built-in [TimeoutError], the
    [queue.Empty] of a wait that times out included, [execute_code] raises
    it too: the outputs collected up to then are not returned. *)
Theorem execute_code_wait_raises
    py_repr params notebook_id s code msg_id messages entries e rest :
  params !! "code" = Some code → code ≠ JNull →
  Forall2 (appends msg_id) messages entries →
  e ≠ TimeoutError →
  runs s (py_or notebook_id (py_get params "path")) code msg_id
       ((Ok <$> messages) ++ Raise e :: rest) →
  execute_code NoLoop py_repr params notebook_id s = (Raise e, s).
Proof.
  intros Hcode Hnone Hall He Hruns.
  by apply (execute_code_raised _ _ _ _ code msg_id messages entries e rest).
Qed.

Lemma execute_code_wait_raises_witness :
  execute_code NoLoop demo_repr {[ "code" := JStr "print(1)" ]} (JStr "demo.ipynb")
    (kernel_settings ((Ok <$> (event_message "msg-1" <$> [Busy; one_stream]))
                      ++ Raise (ServiceError "channel closed") :: []))
  = (Raise (ServiceError "channel closed"),
     kernel_settings ((Ok <$> (event_message "msg-1" <$> [Busy; one_stream]))
                      ++ Raise (ServiceError "channel closed") :: [])).
Proof.
  apply (execute_code_wait_raises demo_repr _ _ _ (JStr "print(1)") "msg-1"
           (event_message "msg-1" <$> [Busy; one_stream])
           (event_outputs <$> [Busy; one_stream]) (ServiceError "channel closed") []).
  - reflexivity.
  - discriminate.
  - apply appends_events.
  - discriminate.
  - apply runs_demo.
Defined.

Lemma collect_missing_key msg_id m present key later feed outputs :
  own msg_id m →
  required_keys (msg_type m) = present ++ key :: later →
  Forall (λ k, is_Some (content m !! k)) present →
  content m !! key = None →
  collect msg_id (Ok m :: feed) outputs = Raise (KeyError key).
Proof.
  unfold own, required_keys. intros Hp Hkeys Hpresent Hkey.
  cbn [collect]. rewrite Hp. cbn [eq_str]. rewrite String.eqb_refl. cbn [negb].
  unfold py_item.
  destruct (String.eqb (msg_type m) "status").
  { destruct present as [|k1 [|]]; [|done..]. injection Hkeys as <- _.
    by rewrite Hkey. }
  destruct (String.eqb (msg_type m) "stream").
  { destruct present as [|k1 [|k2 [|]]]; [| |done..].
    - injection Hkeys as <- _. by rewrite Hkey.
    - injection Hkeys as <- <- _. apply Forall_cons in Hpresent as [[v Hv] _].
      rewrite Hv. cbn. by rewrite Hkey. }
  destruct (String.eqb (msg_type m) "execute_result"
            || String.eqb (msg_type m) "display_data").
  { destruct present as [|k1 [|]]; [|done..]. injection Hkeys as <- _.
    by rewrite Hkey. }
  destruct (String.eqb (msg_type m) "error"); [|by destruct present].
  destruct present as [|k1 [|k2 [|k3 [|]]]]; [| | |done..].
  - injection Hkeys as <- _. by rewrite Hkey.
  - injection Hkeys as <- <- _. apply Forall_cons in Hpresent as [[v Hv] _].
    rewrite Hv. cbn. by rewrite Hkey.
  - injection Hkeys as <- <- <-.
    apply Forall_cons in Hpresent as [[v1 Hv1] Hpresent].
    apply Forall_cons in Hpresent as [[v2 Hv2] _].
    rewrite Hv1. cbn. rewrite Hv2. cbn. by rewrite Hkey.
Qed.

(** X13. Called where no event loop is running, a message of the execution
    whose content lacks an entry the loop reads for its type (the state of
    a status, the name or text of a stream, the data of a result or display,
    the name, value or traceback of an error) makes [execute_code] raise the
    [KeyError] of the first entry that is missing, whatever was collected
    before. *)
Theorem execute_code_missing_key
    py_repr params notebook_id s code msg_id messages entries m present key later rest :
  params !! "code" = Some code → code ≠ JNull →
  Forall2 (appends msg_id) messages entries →
  own msg_id m →
  required_keys (msg_type m) = present ++ key :: later →
  Forall (λ k, is_Some (content m !! k)) present →
  content m !! key = None →
  runs s (py_or notebook_id (py_get params "path")) code msg_id
       ((Ok <$> messages) ++ Ok m :: rest) →
  execute_code NoLoop py_repr params notebook_id s = (Raise (KeyError key), s).
Proof.
  intros Hcode Hnone Hall Hown Hkeys Hpresent Hkey Hruns.
  rewrite (execute_code_runs _ _ _ _ _ _ _ Hcode Hnone Hruns).
  rewrite (collect_messages _ _ entries) by done.
  by rewrite (collect_missing_key _ _ present key later).
Qed.

Lemma execute_code_missing_key_witness :
  execute_code NoLoop demo_repr {[ "code" := JStr "print(1)" ]} (JStr "demo.ipynb")
    (kernel_settings ((Ok <$> (event_message "msg-1" <$> [Busy]))
                      ++ Ok (Message "stream" (JStr "msg-1") {[ "name" := JStr "stdout" ]})
                      :: []))
  = (Raise (KeyError "text"),
     kernel_settings ((Ok <$> (event_message "msg-1" <$> [Busy]))
                      ++ Ok (Message "stream" (JStr "msg-1") {[ "name" := JStr "stdout" ]})
                      :: [])).
Proof.
  apply (execute_code_missing_key demo_repr _ _ _ (JStr "print(1)") "msg-1"
           (event_message "msg-1" <$> [Busy]) (event_outputs <$> [Busy])
           (Message "stream" (JStr "msg-1") {[ "name" := JStr "stdout" ]})
           ["name"] "text" [] []).
  - reflexivity.
  - discriminate.
  - apply appends_events.
  - reflexivity.
  - reflexivity.
  - repeat constructor. by eexists.
  - reflexivity.
  - apply runs_demo.
Defined.

(** ** Finding the kernel of a notebook *)

(** X14. Called where no event loop is running, when no session has the
    path of the notebook, [execute_code], [interrupt_kernel] and
    [get_kernel_status] raise a [RuntimeError] that names the path, and
    change nothing. *)
Theorem no_session_no_kernel py_repr params notebook_id s code sessions km :
  params !! "code" = Some code → code ≠ JNull →
  session_manager s = Some (Ok sessions) →
  kernel_manager s = Some km →
  let path := py_or notebook_id (py_get params "path") in
  Forall (λ ses, ¬ has_path path ses) sessions →
  let failure :=
    RuntimeError ("No kernel found for notebook: " +:+ py_str py_repr path) in
  execute_code NoLoop py_repr params notebook_id s = (Raise failure, s)
  ∧ interrupt_kernel NoLoop py_repr params notebook_id s = (Raise failure, s)
  ∧ get_kernel_status NoLoop py_repr params notebook_id s = (Raise failure, s).
Proof.
  intros Hcode Hnone Hsm Hkm path Hnowhere failure.
  assert (Forall (λ ses, session_has_path path ses = false) sessions) as Hall.
  { eapply Forall_impl; [exact Hnowhere|]. intros ses. apply session_has_path_false. }
  assert (py_get params "code" = code) as Hget by (unfold py_get; by rewrite Hcode).
  assert (is_None code = false) as Hnot by (by destruct code).
  assert (find_kernel_id path sessions = None) as Hfind
    by (unfold find_kernel_id; by rewrite find_none).
  assert (find_live_kernel_id path sessions = None) as Hlive.
  { unfold find_live_kernel_id. rewrite find_none; [done|].
    eapply Forall_impl; [done|]. by intros ses ->. }
  assert (kernel_services NoLoop s = (Ok (sessions, km), s)) as Hservices
    by (unfold kernel_services; by rewrite Hsm, Hkm).
  unfold execute_code, run_code, interrupt_kernel, get_kernel_status, bind, raise.
  cbv zeta. rewrite Hget, Hnot, Hservices. fold path. by rewrite Hfind, Hlive.
Qed.

Lemma no_session_no_kernel_witness :
  let failure := RuntimeError ("No kernel found for notebook: " +:+ "other.ipynb") in
  execute_code NoLoop demo_repr {[ "code" := JStr "1" ]} (JStr "other.ipynb") two_sessions
  = (Raise failure, two_sessions)
  ∧ interrupt_kernel NoLoop demo_repr {[ "code" := JStr "1" ]} (JStr "other.ipynb") two_sessions
    = (Raise failure, two_sessions)
  ∧ get_kernel_status NoLoop demo_repr {[ "code" := JStr "1" ]} (JStr "other.ipynb") two_sessions
    = (Raise failure, two_sessions).
Proof.
  apply (no_session_no_kernel demo_repr {[ "code" := JStr "1" ]} (JStr "other.ipynb")
           two_sessions (JStr "1") [console_session; idle_session; demo_session]
           {[ "k1" := demo_kernel [] ]}).
  - reflexivity.
  - discriminate.
  - reflexivity.
  - reflexivity.
  - repeat (apply Forall_cons_2; [by intros [=]|]). apply Forall_nil_2.
Defined.

Lemma inspection_code (path : json) :
  py_get ({[ "code" := JStr inspect_code; "path" := path ]} : dict) "code"
  = JStr inspect_code.
Proof. unfold py_get. by rewrite lookup_insert_eq. Qed.

(** X15. Without a session manager or without a kernel manager,
    [execute_code], [interrupt_kernel], [get_kernel_status] and
    [list_variables] raise the [RuntimeError] ["Kernel manager not
    available"], while [list_notebooks] just lists nothing; this is so
    whether an event loop is running or not. *)
Theorem kernel_services_missing
    running py_repr py_strip json_loads params notebook_id s code :
  params !! "code" = Some code → code ≠ JNull →
  session_manager s = None ∨ kernel_manager s = None →
  let failure := RuntimeError "Kernel manager not available" in
  execute_code running py_repr params notebook_id s = (Raise failure, s)
  ∧ interrupt_kernel running py_repr params notebook_id s = (Raise failure, s)
  ∧ get_kernel_status running py_repr params notebook_id s = (Raise failure, s)
  ∧ list_variables running py_repr py_strip json_loads params notebook_id s
    = (Raise failure, s)
  ∧ (session_manager s = None →
     list_notebooks running params notebook_id s = (Ok {[ "notebooks" := JList [] ]}, s)).
Proof.
  intros Hcode Hnone Hmissing failure.
  assert (py_get params "code" = code) as Hget by (unfold py_get; by rewrite Hcode).
  assert (is_None code = false) as Hnot by (by destruct code).
  assert (kernel_services running s = (Raise failure, s)) as Hservices.
  { unfold kernel_services. destruct Hmissing as [-> | Hkm]; [done|].
    rewrite Hkm. by destruct (session_manager s). }
  split; [|split; [|split; [|split]]].
  - unfold execute_code, run_code, bind. cbv zeta. by rewrite Hget, Hnot, Hservices.
  - unfold interrupt_kernel, bind. cbv zeta. by rewrite Hservices.
  - unfold get_kernel_status, bind. cbv zeta. by rewrite Hservices.
  - unfold list_variables, run_code, bind. cbv zeta.
    rewrite inspection_code. cbn [is_None]. by rewrite Hservices.
  - intros Hsm. unfold list_notebooks, open_notebooks. by rewrite Hsm.
Qed.

Lemma kernel_services_missing_witness :
  let failure := RuntimeError "Kernel manager not available" in
  execute_code LoopRunning demo_repr {[ "code" := JStr "1" ]} (JStr "demo.ipynb")
    demo_settings
  = (Raise failure, demo_settings)
  ∧ interrupt_kernel LoopRunning demo_repr {[ "code" := JStr "1" ]} (JStr "demo.ipynb")
      demo_settings
    = (Raise failure, demo_settings)
  ∧ get_kernel_status LoopRunning demo_repr {[ "code" := JStr "1" ]} (JStr "demo.ipynb")
      demo_settings
    = (Raise failure, demo_settings)
  ∧ list_variables LoopRunning demo_repr demo_strip demo_loads {[ "code" := JStr "1" ]}
      (JStr "demo.ipynb") demo_settings
    = (Raise failure, demo_settings)
  ∧ (session_manager demo_settings = None →
     list_notebooks LoopRunning {[ "code" := JStr "1" ]} (JStr "demo.ipynb") demo_settings
     = (Ok {[ "notebooks" := JList [] ]}, demo_settings)).
Proof.
  apply (kernel_services_missing LoopRunning demo_repr demo_strip demo_loads
           {[ "code" := JStr "1" ]} (JStr "demo.ipynb") demo_settings (JStr "1")).
  - reflexivity.
  - discriminate.
  - by left.
Defined.

(** X16. Called where no event loop is running, [execute_code] takes the
    first session with the path of the notebook and gives up when that
    session has no kernel, even when a later session with the same path has
    one; [get_kernel_status] and [interrupt_kernel] go on to that later
    session: the first reports its kernel, the second interrupts it, once. *)
Theorem kernel_lookups_differ
    py_repr params notebook_id s code sessions km before first between second after id k :
  params !! "code" = Some code → code ≠ JNull →
  session_manager s = Some (Ok sessions) →
  kernel_manager s = Some km →
  let path := py_or notebook_id (py_get params "path") in
  sessions = before ++ first :: between ++ second :: after →
  Forall (λ ses, ¬ has_path path ses) before →
  has_path path first → kernel_id_of first = None ∨ kernel_id_of first = Some "" →
  Forall (λ ses, ¬ has_path path ses
                 ∨ kernel_id_of ses = None ∨ kernel_id_of ses = Some "") between →
  has_path path second → kernel_id_of second = Some id → id ≠ "" →
  km !! id = Some k →
  execute_code NoLoop py_repr params notebook_id s
  = (Raise (RuntimeError ("No kernel found for notebook: " +:+ py_str py_repr path)), s)
  ∧ get_kernel_status NoLoop py_repr params notebook_id s
    = (Ok {[ "kernel_id" := JStr id;
             "execution_state" := execution_state k;
             "is_alive" := JBool (is_alive k) ]}, s)
  ∧ interrupt_kernel NoLoop py_repr params notebook_id s
    = (Ok {[ "success" := JBool true; "kernel_id" := JStr id ]},
       {| contents_manager := contents_manager s;
          kernel_manager := kernel_manager s;
          session_manager := session_manager s;
          interrupted := interrupted s ++ [id] |}).
Proof.
  intros Hcode Hnone Hsm Hkm path -> Hbefore' Hfirst' Hnoid' Hbetween' Hsecond' Hid' Hne Hk.
  assert (Forall (λ ses, session_has_path path ses = false) before) as Hbefore.
  { eapply Forall_impl; [exact Hbefore'|]. intros ses. apply session_has_path_false. }
  assert (session_has_path path first = true) as Hfirst
    by (by apply session_has_path_true).
  assert (no_id (session_kernel_id first) = true) as Hnoid
    by (rewrite session_kernel_id_of; by apply no_id_true).
  assert (Forall (λ ses, session_has_path path ses = false
                         ∨ no_id (session_kernel_id ses) = true) between) as Hbetween.
  { eapply Forall_impl; [exact Hbetween'|]. intros ses [Hpath|Hkernel].
    - left. by apply session_has_path_false.
    - right. rewrite session_kernel_id_of. by apply no_id_true. }
  assert (session_has_path path second = true) as Hsecond
    by (by apply session_has_path_true).
  assert (session_kernel_id second = Some id) as Hid
    by (by rewrite session_kernel_id_of).
  clear Hbefore' Hfirst' Hnoid' Hbetween' Hsecond' Hid'.
  assert (py_get params "code" = code) as Hget by (unfold py_get; by rewrite Hcode).
  assert (is_None code = false) as Hnot by (by destruct code).
  assert (no_id (Some id) = false) as Hid' by (by apply no_id_false).
  assert (find_kernel_id path (before ++ first :: between ++ second :: after)
          = session_kernel_id first) as Hfind.
  { unfold find_kernel_id. by rewrite (find_after _ before first). }
  assert (find_live_kernel_id path (before ++ first :: between ++ second :: after)
          = Some id) as Hlive.
  { unfold find_live_kernel_id.
    replace (before ++ first :: between ++ second :: after)
      with ((before ++ first :: between) ++ second :: after)
      by (by rewrite <- app_assoc).
    rewrite (find_after _ _ second); [done| |by rewrite Hsecond, Hid, Hid'].
    apply Forall_app. split; [|constructor].
    - eapply Forall_impl; [exact Hbefore|]. by intros ses ->.
    - by rewrite Hnoid, andb_false_r.
    - eapply Forall_impl; [exact Hbetween|].
      intros ses [-> | ->]; [done|by rewrite andb_false_r]. }
  assert (kernel_services NoLoop s
          = (Ok (before ++ first :: between ++ second :: after, km), s)) as Hservices
    by (unfold kernel_services; by rewrite Hsm, Hkm).
  unfold execute_code, run_code, interrupt_kernel, get_kernel_status, bind, raise.
  cbv zeta. rewrite Hget, Hnot, Hservices. fold path. rewrite Hfind, Hlive.
  unfold run_until_complete, lift, get_kernel, interrupt, ret. rewrite Hk.
  split; [|split].
  - destruct (session_kernel_id first) as [id0|]; [|done]. by rewrite Hnoid.
  - done.
  - done.
Qed.

Lemma kernel_lookups_differ_witness :
  execute_code NoLoop demo_repr {[ "code" := JStr "1" ]} (JStr "demo.ipynb") two_sessions
  = (Raise (RuntimeError ("No kernel found for notebook: " +:+ "demo.ipynb")),
     two_sessions)
  ∧ get_kernel_status NoLoop demo_repr {[ "code" := JStr "1" ]} (JStr "demo.ipynb") two_sessions
    = (Ok {[ "kernel_id" := JStr "k1";
             "execution_state" := execution_state (demo_kernel []);
             "is_alive" := JBool (is_alive (demo_kernel [])) ]}, two_sessions)
  ∧ interrupt_kernel NoLoop demo_repr {[ "code" := JStr "1" ]} (JStr "demo.ipynb") two_sessions
    = (Ok {[ "success" := JBool true; "kernel_id" := JStr "k1" ]},
       {| contents_manager := contents_manager two_sessions;
          kernel_manager := kernel_manager two_sessions;
          session_manager := session_manager two_sessions;
          interrupted := interrupted two_sessions ++ ["k1"] |}).
Proof.
  apply (kernel_lookups_differ demo_repr {[ "code" := JStr "1" ]} (JStr "demo.ipynb")
           two_sessions (JStr "1") [console_session; idle_session; demo_session]
           {[ "k1" := demo_kernel [] ]} [console_session] idle_session [] demo_session
           [] "k1" (demo_kernel [])).
  - reflexivity.
  - discriminate.
  - reflexivity.
  - reflexivity.
  - reflexivity.
  - apply Forall_cons_2; [by intros [=]|apply Forall_nil_2].
  - reflexivity.
  - left. reflexivity.
  - apply Forall_nil_2.
  - reflexivity.
  - reflexivity.
  - discriminate.
  - reflexivity.
Defined.

(** ** Listing notebooks and variables *)

Lemma filter_is_notebook (sessions : list session) :
  List.filter is_notebook sessions
  = filter (λ ses, session_type ses = Some "notebook") sessions.
Proof.
  induction sessions as [|ses sessions IH]; [done|].
  cbn [List.filter]. rewrite filter_cons, IH. unfold is_notebook.
  destruct (session_type ses) as [t|].
  - destruct (String.eqb_spec t "notebook") as [->|Hne].
    + by rewrite decide_True.
    + rewrite decide_False; [done|]. by intros [= ->].
  - by rewrite decide_False.
Qed.

(** X17. [list_notebooks] and [get_active_notebook] never raise and change
    nothing, whether an event loop is running or not, and both ignore their
    arguments. Called where no event loop is running, the list has one entry
    for each session of type ["notebook"], in the order of the sessions, with
    the path and the name of the session and the id and the name of its
    kernel ([None] for what is missing); a failure of [list_sessions] is
    swallowed and leaves the list empty. Called where a loop is running, the
    list is empty whatever the sessions: the error of [run_until_complete]
    is swallowed as well. [get_active_notebook] answers with the first entry
    of the list and [is_fallback] true, or with [None] and [is_fallback]
    false when the list is empty. *)
Theorem active_notebook_is_first_listed running params notebook_id params' notebook_id' s :
  ∃ entries : list dict,
    list_notebooks running params notebook_id s
    = (Ok {[ "notebooks" := JList (JDict <$> entries) ]}, s)
    ∧ get_active_notebook running params' notebook_id' s
      = (Ok match entries with
            | first :: _ => {[ "notebook" := JDict first; "is_fallback" := JBool true ]}
            | [] => {[ "notebook" := JNull; "is_fallback" := JBool false ]}
            end, s)
    ∧ (∀ sessions, running = NoLoop → session_manager s = Some (Ok sessions) →
         entries
         = (λ ses : session,
              {[ "path" := from_option JStr JNull (session_path ses);
                 "name" := from_option JStr JNull (session_name ses);
                 "kernel_id" := from_option JStr JNull (session_kernel ses ≫= kernel_id);
                 "kernel_name" :=
                   from_option JStr JNull (session_kernel ses ≫= kernel_name) ]})
           <$> filter (λ ses, session_type ses = Some "notebook") sessions)
    ∧ (∀ e, session_manager s = Some (Raise e) → entries = [])
    ∧ (running = LoopRunning → entries = []).
Proof.
  exists (open_notebooks running s). split; [done|]. split; [|split; [|split]].
  - unfold get_active_notebook. by destruct (open_notebooks running s).
  - intros sessions -> Hsm. unfold open_notebooks. rewrite Hsm.
    cbn [run_until_complete lift fst]. rewrite filter_is_notebook.
    apply list_fmap_ext. intros _ ses _. unfold notebook_entry.
    by destruct ses as [? [?|] [?|] [[[?|] [?|]]|]].
  - intros e Hsm. unfold open_notebooks. rewrite Hsm. by destruct running.
  - intros ->. unfold open_notebooks. by destruct (session_manager s).
Qed.

Lemma active_notebook_is_first_listed_witness :
  let listed : list dict :=
    [ {[ "path" := JStr "demo.ipynb"; "name" := JStr "demo.ipynb";
         "kernel_id" := JNull; "kernel_name" := JNull ]};
      {[ "path" := JStr "demo.ipynb"; "name" := JStr "demo.ipynb";
         "kernel_id" := JStr "k1"; "kernel_name" := JStr "python3" ]} ] in
  list_notebooks NoLoop ∅ JNull two_sessions
  = (Ok {[ "notebooks" := JList (JDict <$> listed) ]}, two_sessions)
  ∧ list_notebooks LoopRunning ∅ JNull two_sessions
    = (Ok {[ "notebooks" := JList [] ]}, two_sessions).
Proof.
  intros listed. split.
  - destruct (active_notebook_is_first_listed NoLoop ∅ JNull ∅ JNull two_sessions)
      as (entries & Hlist & _ & Hentries & _).
    rewrite Hlist. by rewrite (Hentries _ eq_refl eq_refl).
  - destruct (active_notebook_is_first_listed LoopRunning ∅ JNull ∅ JNull two_sessions)
      as (entries & Hlist & _ & _ & _ & Hnone).
    rewrite Hlist. by rewrite (Hnone eq_refl).
Defined.

Lemma py_or_twice a b : py_or a (py_or a b) = py_or a b.
Proof. unfold py_or. by destruct (py_truthy a). Qed.

Lemma parse_variables_passes py_strip json_loads before rest :
  Forall (passed_over py_strip json_loads) before →
  parse_variables py_strip json_loads (before ++ rest)
  = parse_variables py_strip json_loads rest.
Proof.
  induction 1 as [|output before Hout _ IH]; [done|].
  rewrite <- app_comm_cons. cbn [parse_variables]. fold (is_stdout output).
  destruct Hout as [-> | (text & message & Htext & Hloads)]; [done|].
  destruct (is_stdout output); [|done].
  unfold py_item. rewrite Htext. cbn. by rewrite Hloads.
Qed.

Lemma list_variables_runs py_repr py_strip json_loads params notebook_id s msg_id feed :
  runs s (py_or notebook_id (py_get params "path")) (JStr inspect_code) msg_id feed →
  list_variables NoLoop py_repr py_strip json_loads params notebook_id s
  = (collect msg_id feed [] ≫= parse_variables py_strip json_loads, s).
Proof.
  intros Hruns. unfold list_variables, bind.
  rewrite (run_code_runs _ _ _ _ (JStr inspect_code) msg_id feed).
  - by destruct (collect _ _ _).
  - by rewrite lookup_insert_eq.
  - done.
  - assert (py_get ({[ "code" := JStr inspect_code;
                       "path" := py_or notebook_id (py_get params "path") ]} : dict) "path"
            = py_or notebook_id (py_get params "path")) as ->.
    { unfold py_get at 1. by rewrite lookup_insert_ne, lookup_singleton_eq. }
    by rewrite py_or_twice.
Qed.

(** X18. Called where no event loop is running, [list_variables] runs its
    inspection code and, when that run ends on the [idle] status (or on a
    wait that raises [TimeoutError]), answers with what [json.loads] reads
    from the text of the first [stdout] stream output that it accepts:
    outputs that are not [stdout] stream entries, and [stdout] texts that
    [json.loads] rejects, are passed over. When every output is passed over
    the answer is an empty dictionary of variables. *)
Theorem list_variables_first_parsed
    py_repr py_strip json_loads params notebook_id s msg_id messages entries last rest
    before remaining variables :
  Forall2 (appends msg_id) messages entries →
  ends_run msg_id last →
  runs s (py_or notebook_id (py_get params "path")) (JStr inspect_code) msg_id
       ((Ok <$> messages) ++ last :: rest) →
  concat entries = before ++ remaining →
  Forall (passed_over py_strip json_loads) before →
  (remaining = [] ∧ variables = JDict ∅)
  ∨ (∃ (output : dict) others text,
       remaining = output :: others ∧ is_stdout output = true
       ∧ output !! "text" = Some (JStr text)
       ∧ json_loads (py_strip text) = Ok variables) →
  list_variables NoLoop py_repr py_strip json_loads params notebook_id s
  = (Ok {[ "variables" := variables ]}, s).
Proof.
  intros Hall Hlast Hruns Hsplit Hbefore Hfound.
  rewrite (list_variables_runs _ _ _ _ _ _ _ _ Hruns).
  rewrite (collect_messages _ _ entries), collect_end by done.
  cbn [mbind result_bind]. rewrite app_nil_l, Hsplit.
  rewrite (parse_variables_passes _ _ before remaining Hbefore).
  destruct Hfound as [[-> ->] | (output & others & text & -> & Hout & Htext & Hloads)];
    [reflexivity|].
  cbn [parse_variables]. fold (is_stdout output). rewrite Hout.
  unfold py_item. rewrite Htext. cbn. by rewrite Hloads.
Qed.

Lemma list_variables_first_parsed_witness :
  list_variables NoLoop demo_repr demo_strip loads_empty_object ∅ (JStr "demo.ipynb")
    (kernel_settings variables_run)
  = (Ok {[ "variables" := JDict ∅ ]}, kernel_settings variables_run).
Proof.
  apply (list_variables_first_parsed demo_repr demo_strip loads_empty_object ∅
           (JStr "demo.ipynb") (kernel_settings variables_run) "msg-1"
           (event_message "msg-1" <$> [Busy; Stream (JStr "stderr") (JStr "warning");
                                       Stream (JStr "stdout") (JStr "not json");
                                       Stream (JStr "stdout") (JStr "{}")])
           (event_outputs <$> [Busy; Stream (JStr "stderr") (JStr "warning");
                               Stream (JStr "stdout") (JStr "not json");
                               Stream (JStr "stdout") (JStr "{}")])
           (Ok (idle_message "msg-1")) []
           [{[ "output_type" := JStr "stream"; "name" := JStr "stderr"; "text" := JStr "warning" ]};
            {[ "output_type" := JStr "stream"; "name" := JStr "stdout"; "text" := JStr "not json" ]}]
           [{[ "output_type" := JStr "stream"; "name" := JStr "stdout"; "text" := JStr "{}" ]}]).
  - apply appends_events.
  - left. eexists. split; [done|]. apply is_idle_message.
  - apply runs_demo.
  - reflexivity.
  - constructor; [by left|]. constructor; [|constructor].
    right. by exists "not json", "Expecting value".
  - right. by exists ({[ "output_type" := JStr "stream"; "name" := JStr "stdout"; "text" := JStr "{}" ]}), [], "{}".
Defined.

(** ** Executing a cell *)

Lemma names_path_self p notebook_id : p ≠ "" → py_or (JStr p) notebook_id = JStr p.
Proof. intros Hp. unfold py_or. simpl. by destruct (String.eqb_spec p ""). Qed.

(** X19. Called where no event loop is running, [execute_cell] at an index
    in range is [execute_code] on the source of that cell, for the path of
    the notebook: it returns what that call returns and raises what it
    raises. At an index out of range it raises the [IndexError] of [get_cell]
    and no kernel is asked for. *)
Theorem execute_cell_runs_source py_repr params notebook_id s p nb k cell j :
  names_path params notebook_id p → p ≠ "" →
  notebook_at s p = Some nb →
  0 ≤ k → cells_of nb !! Z.to_nat k = Some cell →
  j < 0 ∨ len (cells_of nb) ≤ j →
  execute_cell NoLoop py_repr (<["cell_index" := JInt k]> params) notebook_id s
  = execute_code NoLoop py_repr {[ "code" := py_get cell "source"; "path" := JStr p ]} (JStr p) s
  ∧ execute_cell NoLoop py_repr (<["cell_index" := JInt j]> params) notebook_id s
    = (Raise (IndexError ("Cell index " +:+ pretty j +:+ " out of range (0-"
                          +:+ pretty (len (cells_of nb) - 1) +:+ ")")), s).
Proof.
  intros Hpath Hp Hnb Hk Hcell Hj.
  assert (∀ i, py_or notebook_id (py_get (<["cell_index" := JInt i]> params) "path")
               = JStr p) as Hpath'
    by (intros i; by apply names_path_insert).
  assert (∀ i, py_get (<["cell_index" := JInt i]> params) "cell_index" = JInt i) as Hget
    by (intros i; unfold py_get; by rewrite lookup_insert_eq).
  split; unfold execute_cell, bind; rewrite Hpath', Hget; cbn [is_None].
  - rewrite (cell_at_in_range _ _ _ p nb k cell);
      [|by apply names_path_self|done|done|by apply lookup_insert_eq|done|done].
    unfold lift, py_item, cell_view.
    by rewrite !lookup_insert_ne, lookup_insert_eq by done.
  - by rewrite (cell_at_out_of_range _ _ _ p nb j);
      [|by apply names_path_self|done|done|by apply lookup_insert_eq|done].
Qed.

Lemma execute_cell_runs_source_witness :
  execute_cell NoLoop demo_repr (<["cell_index" := JInt 2]> ∅) (JStr "demo.ipynb")
    (kernel_settings stream_result_idle)
  = execute_code NoLoop demo_repr
      {[ "code" := py_get (demo_cell "a + b") "source"; "path" := JStr "demo.ipynb" ]}
      (JStr "demo.ipynb") (kernel_settings stream_result_idle)
  ∧ execute_cell NoLoop demo_repr (<["cell_index" := JInt 5]> ∅) (JStr "demo.ipynb")
      (kernel_settings stream_result_idle)
    = (Raise (IndexError ("Cell index " +:+ pretty 5 +:+ " out of range (0-"
                          +:+ pretty (len (cells_of demo_notebook) - 1) +:+ ")")),
       kernel_settings stream_result_idle).
Proof.
  apply (execute_cell_runs_source demo_repr ∅ (JStr "demo.ipynb")
           (kernel_settings stream_result_idle) "demo.ipynb" demo_notebook 2
           (demo_cell "a + b") 5);
    [reflexivity | discriminate | reflexivity | lia | reflexivity | right; discriminate].
Defined.

(** * Further properties of the dispatcher *)

Lemma error_response_entries request_id message :
  error_response request_id message !! "id" = Some request_id
  ∧ error_response request_id message !! "type" = Some (JStr "response")
  ∧ error_response request_id message !! "success" = Some (JBool false).
Proof.
  unfold error_response. by repeat split.
Qed.

(** What [_handle_request] does, case by case. *)
Lemma handle_request_cases py_repr py_strip json_loads uuid data c :
  let request_id := py_get_default data "id" (JStr uuid) in
  let action := py_get data "action" in
  (∃ message s, _handle_request py_repr py_strip json_loads uuid data c
                = (Ok (), answered (error_response request_id message) s c))
  ∨ (py_truthy action = true ∧ scalar_str action = None
     ∧ _handle_request py_repr py_strip json_loads uuid data c
       = (Raise (TypeError ("unhashable type: '" +:+ py_type_name action +:+ "'")), c)).
Proof.
  intros request_id action. unfold _handle_request. fold action request_id.
  destruct (py_truthy action) eqn:Htrue; cbn [negb]; [|left; by eexists _, _].
  destruct (scalar_str action) as [shown|] eqn:Hshown; [|by right].
  left. destruct (handlers_get _ _ _ action) as [h|]; [|by eexists _, _].
  destruct (h _ _ _) as [[result|e] s]; by eexists _, _.
Qed.

(** X20. A request whose action can be a key of the handler map (anything but
    a list or a dictionary that is not empty) is answered exactly once:
    [_handle_request] raises nothing and writes one response, which carries
    the ["id"] of the request, or the fresh identifier when the request has
    none, and leaves the connection registered as it was. With an action that
    cannot be a key it writes nothing and raises a [TypeError]. *)
Theorem handle_request_answers_once py_repr py_strip json_loads uuid data c :
  let request_id := py_get_default data "id" (JStr uuid) in
  let action := py_get data "action" in
  let outcome := _handle_request py_repr py_strip json_loads uuid data c in
  (py_truthy action = false ∨ is_Some (scalar_str action) →
     ∃ response : dict,
       outcome.1 = Ok ()
       ∧ written outcome.2 = written c ++ [response]
       ∧ registered outcome.2 = registered c
       ∧ response !! "id" = Some request_id
       ∧ response !! "type" = Some (JStr "response"))
  ∧ (py_truthy action = true → scalar_str action = None →
     outcome = (Raise (TypeError ("unhashable type: '" +:+ py_type_name action +:+ "'")),
                c)).
Proof.
  intros request_id action outcome.
  destruct (handle_request_cases py_repr py_strip json_loads uuid data c)
    as [(message & s & H) | (Htrue & Hnone & H)];
    fold request_id action outcome in H |- *.
  - split.
    + intros _. exists (error_response request_id message). rewrite H.
      destruct (error_response_entries request_id message) as (Hid & Htype & _).
      by repeat split.
    + intros Htrue Hnone. exfalso. revert H. unfold outcome, _handle_request.
      fold action. by rewrite Htrue, Hnone.
  - split; [|done].
    intros [Hfalse | [shown Hshown]]; unfold action in *; congruence.
Qed.

Lemma handle_request_answers_once_witness :
  _handle_request demo_repr demo_strip demo_loads "u4" list_action_request demo_connection
  = (Raise (TypeError ("unhashable type: '" +:+ "list" +:+ "'")), demo_connection).
Proof.
  apply (proj2 (handle_request_answers_once demo_repr demo_strip demo_loads "u4"
                  list_action_request demo_connection)); reflexivity.
Defined.

(** What the handlers of the dispatcher leave of the settings: all of
    them. A method that reaches a service fails at its first
    [run_until_complete], before it saves or interrupts anything. *)
Lemma modify_notebook_keeps path op s : (_modify_notebook LoopRunning path op s).2 = s.
Proof. unfold _modify_notebook. by destruct (contents_manager s). Qed.

Lemma notebook_content_keeps params notebook_id s :
  (notebook_content LoopRunning params notebook_id s).2 = s.
Proof.
  unfold notebook_content. destruct (negb _); [done|].
  by destruct (contents_manager s).
Qed.

Lemma cell_at_keeps params notebook_id s : (cell_at LoopRunning params notebook_id s).2 = s.
Proof.
  unfold cell_at. destruct (is_None _); [done|]. unfold bind.
  pose proof (notebook_content_keeps params notebook_id s) as Hkeeps.
  destruct (notebook_content LoopRunning params notebook_id s) as [[v|e] s1];
    simpl in Hkeeps; subst s1; [|done].
  unfold lift. destruct (int_operand "<" _) as [[i shown]|]; [|done].
  destruct ((i <? 0) || _); [done|]. by destruct (list_item _ _).
Qed.

Lemma kernel_services_keeps s :
  ∃ e, kernel_services LoopRunning s = (Raise e, s).
Proof.
  unfold kernel_services.
  destruct (session_manager s) as [sm|]; [|by eexists].
  destruct (kernel_manager s) as [km|]; by eexists.
Qed.

Lemma run_code_keeps py_repr params notebook_id s :
  ∃ e, run_code LoopRunning py_repr params notebook_id s = (Raise e, s).
Proof.
  unfold run_code. destruct (is_None _); [by eexists|]. unfold bind.
  destruct (kernel_services_keeps s) as [e ->]. by eexists.
Qed.

Lemma method_keeps_settings py_repr py_strip json_loads name (h : handler) params
    notebook_id s :
  handlers py_repr py_strip json_loads !! name = Some h →
  (h params notebook_id s).2 = s.
Proof.
  intros Hh. apply elem_of_list_to_map_2 in Hh.
  assert (∀ f : method, (∀ p n s, (f p n s).2 = s) →
            (reads_params f params notebook_id s).2 = s) as Hparams.
  { intros f Hf. unfold reads_params. destruct params; by rewrite ?Hf. }
  assert (∀ f : method, (∀ p n s, (f p n s).2 = s) →
            (reads_path f params notebook_id s).2 = s) as Hpath.
  { intros f Hf. unfold reads_path.
    destruct params; try destruct (py_truthy notebook_id); by rewrite ?Hf. }
  assert (∀ f : method, (∀ p n s, (f p n s).2 = s) →
            (ignores_params f params notebook_id s).2 = s) as Hignores.
  { intros f Hf. unfold ignores_params. by rewrite Hf. }
  assert (∀ p n s, (insert_cell LoopRunning p n s).2 = s) as Hinsert.
  { intros p n s0. unfold insert_cell. repeat (destruct (is_None _); [done|]).
    apply modify_notebook_keeps. }
  assert (∀ p n s, (update_cell LoopRunning p n s).2 = s) as Hupdate.
  { intros p n s0. unfold update_cell. repeat (destruct (is_None _); [done|]).
    apply modify_notebook_keeps. }
  assert (∀ p n s, (delete_cell LoopRunning p n s).2 = s) as Hdelete.
  { intros p n s0. unfold delete_cell. repeat (destruct (is_None _); [done|]).
    apply modify_notebook_keeps. }
  assert (∀ p n s, (move_cell LoopRunning p n s).2 = s) as Hmove.
  { intros p n s0. unfold move_cell. destruct (is_None _); [done|].
    destruct (_ || _); [done|]. apply modify_notebook_keeps. }
  assert (∀ p n s, (get_notebook_content LoopRunning p n s).2 = s) as Hcontent.
  { intros p n s0. unfold get_notebook_content, bind.
    pose proof (notebook_content_keeps p n s0) as Hkeeps.
    by destruct (notebook_content LoopRunning p n s0) as [[v|e] s1]. }
  assert (∀ p n s, (get_cell LoopRunning p n s).2 = s) as Hget.
  { intros p n s0. unfold get_cell, bind. pose proof (cell_at_keeps p n s0) as Hkeeps.
    by destruct (cell_at LoopRunning p n s0) as [[v|e] s1]. }
  assert (∀ p n s, (get_cell_outputs LoopRunning p n s).2 = s) as Houtputs.
  { intros p n s0. unfold get_cell_outputs, bind.
    pose proof (cell_at_keeps p n s0) as Hkeeps.
    by destruct (cell_at LoopRunning p n s0) as [[v|e] s1]. }
  assert (∀ p n s, (execute_code LoopRunning py_repr p n s).2 = s) as Hcode.
  { intros p n s0. unfold execute_code, bind.
    by destruct (run_code_keeps py_repr p n s0) as [e ->]. }
  assert (∀ p n s, (execute_cell LoopRunning py_repr p n s).2 = s) as Hcell.
  { intros p n s0. unfold execute_cell. repeat (destruct (is_None _); [done|]).
    unfold bind. pose proof (cell_at_keeps p (py_or n (py_get p "path")) s0) as Hkeeps.
    destruct (cell_at LoopRunning p _ s0) as [[v|e] s1]; simpl in Hkeeps; subst s1;
      [|done].
    unfold lift. destruct (py_item v "source"); [|done]. apply Hcode. }
  assert (∀ p n s, (interrupt_kernel LoopRunning py_repr p n s).2 = s) as Hinterrupt.
  { intros p n s0. unfold interrupt_kernel, bind.
    by destruct (kernel_services_keeps s0) as [e ->]. }
  assert (∀ p n s, (get_kernel_status LoopRunning py_repr p n s).2 = s) as Hstatus.
  { intros p n s0. unfold get_kernel_status, bind.
    by destruct (kernel_services_keeps s0) as [e ->]. }
  assert (∀ p n s, (list_variables LoopRunning py_repr py_strip json_loads p n s).2 = s)
    as Hvariables.
  { intros p n s0. unfold list_variables, bind.
    by destruct (run_code_keeps py_repr
                   {[ "code" := JStr inspect_code;
                      "path" := py_or n (py_get p "path") ]} n s0) as [e ->]. }
  assert (∀ p n s, (clear_outputs LoopRunning p n s).2 = s) as Hclear.
  { intros p n s0. unfold clear_outputs. destruct (is_None _); [done|].
    by destruct (contents_manager s0). }
  assert (∀ p n s, (list_notebooks LoopRunning p n s).2 = s) as Hlist by done.
  assert (∀ p n s, (get_active_notebook LoopRunning p n s).2 = s) as Hactive.
  { intros p n s0. unfold get_active_notebook. by destruct (open_notebooks _ _). }
  unfold handler_table in Hh.
  repeat (apply elem_of_cons in Hh as [[= -> ->]|Hh];
          [first [by apply Hparams | by apply Hpath | by apply Hignores]|]).
  by apply elem_of_nil in Hh.
Qed.

(** X21. No request is answered with a success, and no request changes the
    settings: whatever the request, the response that [_handle_request]
    writes has ["success"] false and an ["error"], and the application
    settings afterwards are the settings before. A method that uses a
    service fails at [run_until_complete], under the loop that runs the
    dispatcher, before it reads, saves or interrupts anything, and what a
    method returns ([list_notebooks] and [get_active_notebook] return)
    cannot be awaited. *)
Theorem handle_request_never_succeeds py_repr py_strip json_loads uuid data c :
  let outcome := _handle_request py_repr py_strip json_loads uuid data c in
  app outcome.2 = app c
  ∧ (outcome.1 = Ok () →
     ∃ message : string,
       written outcome.2
       = written c ++ [{[ "id" := py_get_default data "id" (JStr uuid);
                          "type" := JStr "response"; "success" := JBool false;
                          "error" := JStr message ]}])
  ∧ (∀ e, outcome.1 = Raise e → written outcome.2 = written c).
Proof.
  intros outcome.
  assert ((∃ message, outcome = (Ok (), answered (error_response
             (py_get_default data "id" (JStr uuid)) message) (app c) c))
          ∨ outcome = (Raise (TypeError ("unhashable type: '"
                         +:+ py_type_name (py_get data "action") +:+ "'")), c)) as Hcases.
  { unfold outcome, _handle_request.
    destruct (py_truthy _); cbn [negb]; [|left; by eexists].
    destruct (scalar_str _) as [shown|]; [|by right].
    left. destruct (handlers_get _ _ _ _) as [h|] eqn:Hh; [|by eexists].
    assert (∃ name, handlers py_repr py_strip json_loads !! name = Some h)
      as [name Hname].
    { unfold handlers_get in Hh. destruct (py_get data "action"); try done. by eexists. }
    pose proof (method_keeps_settings _ _ _ name h
                  (py_get_default data "params" (JDict ∅)) (py_get data "notebook_id")
                  (app c) Hname) as Hkeeps.
    destruct (h _ _ _) as [[result|e] s]; simpl in Hkeeps; subst s; by eexists. }
  destruct Hcases as [[message ->]| ->]; cbn [fst snd app written answered].
  - split; [done|]. split; [by eexists|done].
  - by repeat split.
Qed.

Lemma handle_request_never_succeeds_witness :
  ∃ message : string,
    written (_handle_request demo_repr demo_strip demo_loads "u8" list_notebooks_request
               (kernel_connection stream_result_idle)).2
    = written (kernel_connection stream_result_idle)
      ++ [{[ "id" := py_get_default list_notebooks_request "id" (JStr "u8");
             "type" := JStr "response"; "success" := JBool false;
             "error" := JStr message ]}].
Proof.
  exact (proj1 (proj2 (handle_request_never_succeeds demo_repr demo_strip demo_loads "u8"
                         list_notebooks_request (kernel_connection stream_result_idle)))
           eq_refl).
Defined.

(** X22. Every message that comes in is answered exactly once and
    [on_message] raises nothing: it writes one response and leaves the
    connection registered as it was. A text that is not JSON is answered with
    the error ["Invalid JSON"], and a request whose action cannot be a key of
    the handler map with the message of the [TypeError]; both answers carry
    the identifier [None], not the one of the request. *)
Theorem on_message_answers_once py_repr py_strip json_loads uuid message c :
  let c' := on_message py_repr py_strip json_loads uuid message c in
  (∃ response : dict,
     written c' = written c ++ [response]
     ∧ registered c' = registered c
     ∧ response !! "type" = Some (JStr "response"))
  ∧ (∀ reason, json_loads message = Raise (JSONDecodeError reason) →
       c' = answered (error_response JNull "Invalid JSON") (app c) c)
  ∧ (∀ data, json_loads message = Ok (JDict data) →
       py_truthy (py_get data "action") = true →
       scalar_str (py_get data "action") = None →
       c' = answered (error_response JNull
                        ("unhashable type: '" +:+ py_type_name (py_get data "action")
                         +:+ "'")) (app c) c).
Proof.
  intros c'. unfold c', on_message. split; [|split].
  - destruct (json_loads message) as [[| | | | |data]|e].
    1-5: by eexists; repeat split.
    + destruct (handle_request_cases py_repr py_strip json_loads uuid data c)
        as [(text & s & ->) | (_ & _ & ->)]; by eexists; repeat split.
    + destruct e; by eexists; repeat split.
  - by intros reason ->.
  - intros data -> Htrue Hnone. unfold _handle_request. by rewrite Htrue, Hnone.
Qed.

Lemma on_message_answers_once_witness :
  on_message demo_repr demo_strip demo_loads "u5" "{not json" demo_connection
  = answered (error_response JNull "Invalid JSON") (app demo_connection) demo_connection.
Proof.
  apply (proj1 (proj2 (on_message_answers_once demo_repr demo_strip demo_loads "u5"
                         "{not json" demo_connection)) "Expecting value").
  reflexivity.
Defined.

(** * Properties of the origin check *)

Lemma prefix_iff (p s : string) : String.prefix p s = true ↔ ∃ rest, s = p +:+ rest.
Proof.
  revert s. induction p as [|a p IH]; intros [|b s]; simpl.
  - split; [by exists ""|done].
  - split; [by exists (String b s)|done].
  - split; [done|by intros [rest ?]].
  - destruct (Ascii.ascii_dec a b) as [->|Hne].
    + rewrite IH. split; intros [rest Hrest]; exists rest; [by rewrite Hrest|].
      by injection Hrest.
    + split; [done|]. intros [rest Hrest]. by injection Hrest as -> _.
Qed.

(** X23. [check_origin] accepts exactly the origins that start with
    ["http://localhost"] or ["http://127.0.0.1"], whatever follows: a port, a
    path, or more of a host name. No origin that starts with ["https://"] is
    accepted. *)
Theorem check_origin_prefix origin :
  (check_origin origin = true
   ↔ ∃ rest, origin = "http://localhost" +:+ rest ∨ origin = "http://127.0.0.1" +:+ rest)
  ∧ (∀ rest, check_origin ("http://localhost" +:+ rest) = true)
  ∧ (∀ rest, check_origin ("https://" +:+ rest) = false).
Proof.
  unfold check_origin. split; [|split].
  - rewrite orb_true_iff, !prefix_iff. split.
    + intros [[rest H]|[rest H]]; exists rest; [by left|by right].
    + intros [rest [H|H]]; [left|right]; by exists rest.
  - intros rest. apply orb_true_iff. left. apply prefix_iff. by exists rest.
  - done.
Qed.


(** * The bridge in a thread where an event loop is running *)

Lemma open_notebooks_under_loop s : open_notebooks LoopRunning s = [].
Proof. unfold open_notebooks. by destruct (session_manager s). Qed.

(** X31. Called in a thread where an event loop is running, as the
    dispatcher calls them, the methods of the bridge do nothing of what
    they are for. With a notebook path and the arguments each method asks
    for, every method that reads or changes a notebook raises the
    [RuntimeError] ["Cannot run the event loop while another loop is
    running"] when there is a contents manager, and every method that uses
    a kernel raises it when there are a session manager and a kernel
    manager; the settings stay as they were. [list_notebooks] swallows the
    error and lists nothing, whatever the sessions, and
    [get_active_notebook] answers [None]. *)
Theorem bridge_under_running_loop py_repr py_strip json_loads params notebook_id s p :
  names_path params notebook_id p → p ≠ "" →
  let failed : result dict * settings :=
    (Raise (RuntimeError "Cannot run the event loop while another loop is running"), s) in
  (is_Some (contents_manager s) →
     get_notebook_content LoopRunning params notebook_id s = failed
     ∧ clear_outputs LoopRunning params notebook_id s = failed
     ∧ (is_None (py_get params "cell_index") = false →
          get_cell LoopRunning params notebook_id s = failed
          ∧ get_cell_outputs LoopRunning params notebook_id s = failed
          ∧ execute_cell LoopRunning py_repr params notebook_id s = failed
          ∧ insert_cell LoopRunning params notebook_id s = failed
          ∧ delete_cell LoopRunning params notebook_id s = failed
          ∧ (is_None (py_get params "source") = false →
               update_cell LoopRunning params notebook_id s = failed))
     ∧ (is_None (py_get params "from_index") = false →
        is_None (py_get params "to_index") = false →
          move_cell LoopRunning params notebook_id s = failed))
  ∧ (is_Some (session_manager s) → is_Some (kernel_manager s) →
       interrupt_kernel LoopRunning py_repr params notebook_id s = failed
       ∧ get_kernel_status LoopRunning py_repr params notebook_id s = failed
       ∧ list_variables LoopRunning py_repr py_strip json_loads params notebook_id s
         = failed
       ∧ (is_None (py_get params "code") = false →
            execute_code LoopRunning py_repr params notebook_id s = failed))
  ∧ list_notebooks LoopRunning params notebook_id s
    = (Ok {[ "notebooks" := JList [] ]}, s)
  ∧ get_active_notebook LoopRunning params notebook_id s
    = (Ok {[ "notebook" := JNull; "is_fallback" := JBool false ]}, s).
Proof.
  intros Hpath Hp failed. unfold names_path in Hpath.
  assert (py_truthy (JStr p) = true) as Htrue
    by (simpl; by destruct (String.eqb_spec p "")).
  assert (py_truthy (py_or notebook_id (py_get params "path")) = true) as Htruthy
    by (by rewrite Hpath).
  assert (py_or (JStr p) (py_get params "path") = JStr p) as Hself
    by (unfold py_or; by rewrite Htrue).
  split; [|split; [|split]].
  - intros Hcm. split; [|split; [|split]].
    + unfold get_notebook_content, bind. by rewrite notebook_content_under_loop.
    + unfold clear_outputs. rewrite Hpath. cbn [is_None].
      destruct Hcm as [cm Hcm]. by rewrite Hcm.
    + intros Hidx.
      assert (cell_at LoopRunning params notebook_id s = (Raise loop_error, s))
        as Hcell by (by apply cell_at_under_loop).
      assert (cell_at LoopRunning params (JStr p) s = (Raise loop_error, s))
        as Hcell' by (apply cell_at_under_loop; [done|by rewrite Hself|done]).
      split; [|split; [|split; [|split; [|split]]]].
      * unfold get_cell, bind. by rewrite Hcell.
      * unfold get_cell_outputs, bind. by rewrite Hcell.
      * unfold execute_cell, bind. rewrite Hpath, Hidx. cbn [is_None].
        by rewrite Hcell'.
      * unfold insert_cell. rewrite Hpath, Hidx. cbn [is_None].
        by apply modify_notebook_under_loop.
      * unfold delete_cell. rewrite Hpath, Hidx. cbn [is_None].
        by apply modify_notebook_under_loop.
      * intros Hsource. unfold update_cell. rewrite Hpath, Hidx, Hsource. cbn [is_None].
        by apply modify_notebook_under_loop.
    + intros Hfrom Hto. unfold move_cell. rewrite Hpath, Hfrom, Hto. cbn [is_None orb].
      by apply modify_notebook_under_loop.
  - intros Hsm Hkm.
    pose proof (kernel_services_under_loop s Hsm Hkm) as Hservices.
    split; [|split; [|split]].
    + unfold interrupt_kernel, bind. by rewrite Hservices.
    + unfold get_kernel_status, bind. by rewrite Hservices.
    + unfold list_variables, run_code, bind. cbv zeta.
      rewrite inspection_code. cbn [is_None]. by rewrite Hservices.
    + intros Hcode. unfold execute_code, run_code, bind. cbv zeta.
      by rewrite Hcode, Hservices.
  - unfold list_notebooks. by rewrite open_notebooks_under_loop.
  - unfold get_active_notebook. by rewrite open_notebooks_under_loop.
Qed.

Lemma bridge_under_running_loop_witness :
  let s := kernel_settings stream_result_idle in
  let params : dict :=
    {[ "cell_index" := JInt 1; "source" := JStr "b = 3"; "code" := JStr "print(1); 1";
       "from_index" := JInt 0; "to_index" := JInt 2 ]} in
  let failed : result dict * settings :=
    (Raise (RuntimeError "Cannot run the event loop while another loop is running"), s) in
  get_cell LoopRunning params (JStr "demo.ipynb") s = failed
  ∧ update_cell LoopRunning params (JStr "demo.ipynb") s = failed
  ∧ move_cell LoopRunning params (JStr "demo.ipynb") s = failed
  ∧ execute_code LoopRunning demo_repr params (JStr "demo.ipynb") s = failed
  ∧ list_notebooks LoopRunning params (JStr "demo.ipynb") s
    = (Ok {[ "notebooks" := JList [] ]}, s).
Proof.
  intros s params failed.
  destruct (bridge_under_running_loop demo_repr demo_strip demo_loads params
              (JStr "demo.ipynb") s "demo.ipynb" eq_refl ltac:(discriminate))
    as (Hcontents & Hkernel & Hlist & _).
  destruct (Hcontents ltac:(by eexists)) as (_ & _ & Hindex & Hmove).
  destruct (Hindex eq_refl) as (Hget & _ & _ & _ & _ & Hupdate).
  destruct (Hkernel ltac:(by eexists) ltac:(by eexists)) as (_ & _ & _ & Hcode).
  split; [exact Hget|]. split; [exact (Hupdate eq_refl)|].
  split; [exact (Hmove eq_refl eq_refl)|]. split; [exact (Hcode eq_refl)|exact Hlist].
Defined.
